(** * fastkit: the open-fiscal budget aggregator

    A shallow embedding of [src/app/open_fiscal/aggregator.py]:
    [BaseAggregator.aggregate], [BudgetDataFormatter.format_percentage],
    [BudgetDataFormatter.sort_yearly_budgets],
    [BudgetDataFormatter.calculate_yoy_change] and
    [BudgetAnalysisService.get_ministry_budget_trends], together with the
    part of pandas and of Python's number formatting these five functions
    call.  Amounts are IEEE 754 binary64 numbers, as in a [float64] frame. *)

From Stdlib Require Import ZArith String List Lia Bool.
From Stdlib Require Import Floats.SpecFloat.
From Stdlib Require Import DecimalString.
From stdpp Require Import gmap strings list fin_maps sorting.

Open Scope Z_scope.

(* ===================================================================== *)
(** ** Binary64 numbers *)
(* ===================================================================== *)

Abbreviation float := spec_float.

Definition prec : Z := 53.
Definition emax : Z := 1024.

Definition nan : float := S754_nan.
Definition fsub : float -> float -> float := SFsub prec emax.
Definition fadd : float -> float -> float := SFadd prec emax.
Definition fmul : float -> float -> float := SFmul prec emax.
Definition fdiv : float -> float -> float := SFdiv prec emax.

(** [float(z)] for a Python [int] that fits: round to nearest, ties to even.
    A magnitude too large for binary64 comes out as an infinity here;
    Python raises [OverflowError] there (see [float_of_int]). *)
Definition Z2F (z : Z) : float := binary_normalize prec emax z 0 false.

Definition isnan (x : float) : bool :=
  match x with S754_nan => true | _ => false end.

(** [x == 0], [x < y], [x <= y] on floats; all three are false on NaN. *)
Definition is_zero (x : float) : bool := SFeqb x (S754_zero false).
Definition flt (x y : float) : bool := SFltb x y.
Definition fle (x y : float) : bool := SFleb x y.

(* ===================================================================== *)
(** ** Frames *)
(* ===================================================================== *)

(** A row or column label: a ministry name, a fiscal year. *)
Inductive label :=
| LInt (z : Z)
| LStr (s : string).

(** The column axis: a flat [Index], or a [MultiIndex] whose tuples have an
    outer level, an inner level and possibly deeper levels. *)
Inductive Columns :=
| Index (labels : list label)
| MultiIndex (tuples : list (label * label * list label)).

(** A [pd.DataFrame] with cells of type [C], stored row by row.  Row labels
    are tuples (one component per index key). *)
Record DataFrame (C : Type) := mkDataFrame {
  df_index : list (list label);
  df_columns : Columns;
  df_values : list (list C)
}.
Arguments mkDataFrame {C} _ _ _.
Arguments df_index {C} _.
Arguments df_columns {C} _.
Arguments df_values {C} _.

Definition ncols (c : Columns) : nat :=
  match c with
  | Index ls => length ls
  | MultiIndex ts => length ts
  end.

(** A cell of an object-dtype frame: a float (NaN included) or [pd.NA]. *)
Inductive cell :=
| Num (x : float)
| NA.

(** What the specification calls an undefined cell: NaN or [pd.NA]. *)
Definition undefined (c : cell) : Prop :=
  match c with
  | Num x => isnan x = true
  | NA => True
  end.

(** A frame is rectangular when it has one row of cells per row label and
    one cell per column in each row. *)
Definition rectangular {C} (df : DataFrame C) : Prop :=
  length (df_values df) = length (df_index df) /\
  Forall (fun r => length r = ncols (df_columns df)) (df_values df).

(* ===================================================================== *)
(** ** calculate_yoy_change *)
(* ===================================================================== *)

(** [df.diff(axis=1)] on one row: [out[i] = row[i] - row[i-1]], NaN first. *)
Definition diff_row (row : list float) : list float :=
  match row with
  | [] => []
  | _ :: rest => nan :: zip_with fsub rest row
  end.

(** [df.shift(axis=1)] on one row: [out[i] = row[i-1]], NaN first. *)
Definition shift_row (row : list float) : list float :=
  match row with
  | [] => []
  | _ :: _ => nan :: take (Nat.pred (length row)) row
  end.

(** [.replace(0, pd.NA)] on one cell: a cell equal to zero (of either sign)
    becomes [pd.NA], which turns the frame into an object frame. *)
Definition replace_zero (x : float) : cell :=
  if is_zero x then NA else Num x.

(** [num / den] cell by cell, then [* 100]; [pd.NA] absorbs both. *)
Definition truediv (num : float) (den : cell) : cell :=
  match den with
  | Num d => Num (fdiv num d)
  | NA => NA
  end.

Definition mul100 (c : cell) : cell :=
  match c with
  | Num x => Num (fmul x (Z2F 100))
  | NA => NA
  end.

Definition yoy_row (row : list float) : list cell :=
  mul100 <$> zip_with truediv (diff_row row) (replace_zero <$> shift_row row).

(** [(df.diff(axis=1) / df.shift(axis=1).replace(0, pd.NA)) * 100] *)
Definition calculate_yoy_change (df : DataFrame float) : DataFrame cell :=
  mkDataFrame (df_index df) (df_columns df) (yoy_row <$> df_values df).

(** The cell the specification's formula gives for column [i > 0]. *)
Definition pct_change (prev cur : float) : float :=
  fmul (fdiv (fsub cur prev) prev) (Z2F 100).

(* ===================================================================== *)
(** ** Exceptions and results *)
(* ===================================================================== *)

(** The exceptions the modelled code can raise, with their argument.
    [LabelNotUnique key multi_index] is the [ValueError] that
    [sort_values] raises for a [by] key that selects more than one column,
    [ValueError(f"The column label '{key}' is not unique.{multi_message}")]:
    the message names the key, and for [MultiIndex] columns it carries the
    note that the label must be a tuple with one element per level. *)
Inductive exn :=
| KeyError (key : list label)
| ValueError (msg : string)
| LabelNotUnique (key : list label) (multi_index : bool)
| IndexError (msg : string)
| TypeError (msg : string)
| OverflowError (msg : string).

(** The name of the exception's Python class. *)
Definition exn_class (e : exn) : string :=
  match e with
  | KeyError _ => "KeyError"
  | ValueError _ => "ValueError"
  | LabelNotUnique _ _ => "ValueError"
  | IndexError _ => "IndexError"
  | TypeError _ => "TypeError"
  | OverflowError _ => "OverflowError"
  end.

(** A call either returns a value or raises.  [Unmodelled] is neither: it
    marks a call that leaves the part of pandas embedded here, and says
    nothing about what the program does then. *)
Inductive outcome (A : Type) :=
| Returns (a : A)
| Raises (e : exn)
| Unmodelled.
Arguments Returns {A} _.
Arguments Raises {A} _.
Arguments Unmodelled {A}.

#[global] Instance outcome_ret : MRet outcome := fun A a => Returns a.
#[global] Instance outcome_bind : MBind outcome := fun A B k m =>
  match m with
  | Returns a => k a
  | Raises e => Raises e
  | Unmodelled => Unmodelled
  end.

(** Apply [f] to every element in order; the first exception wins. *)
Fixpoint traverse {A B} (f : A -> outcome B) (l : list A) : outcome (list B) :=
  match l with
  | [] => Returns []
  | a :: l' => b ← f a; bs ← traverse f l'; Returns (b :: bs)
  end.

(* ===================================================================== *)
(** ** format_percentage *)
(* ===================================================================== *)

(** The values [format_percentage] is handed: an [int], a [float], or an
    object that is neither ([pd.NA] here). *)
Inductive pyval :=
| PyInt (z : Z)
| PyFloat (x : float)
| PyNA.

Definition of_cell (c : cell) : pyval :=
  match c with
  | Num x => PyFloat x
  | NA => PyNA
  end.

(** [isinstance(x, (int, float))] *)
Definition isinstance_int_float (x : pyval) : bool :=
  match x with
  | PyInt _ | PyFloat _ => true
  | PyNA => false
  end.

(** [x > 0] and [x < 0] for an [int] or a [float]. *)
Definition py_gt0 (x : pyval) : bool :=
  match x with
  | PyInt z => 0 <? z
  | PyFloat f => flt (S754_zero false) f
  | PyNA => false
  end.

Definition py_lt0 (x : pyval) : bool :=
  match x with
  | PyInt z => z <? 0
  | PyFloat f => flt f (S754_zero false)
  | PyNA => false
  end.

(** [float(z)]: [OverflowError] when [z] rounds beyond the largest float. *)
Definition float_of_int (z : Z) : outcome float :=
  match Z2F z with
  | S754_infinity _ => Raises (OverflowError "int too large to convert to float")
  | x => Returns x
  end.

(** [num / den] rounded to the nearest integer, ties to even
    ([0 <= num], [0 < den]). *)
Definition round_half_even (num den : Z) : Z :=
  let q := num / den in
  match 2 * (num mod den) ?= den with
  | Lt => q
  | Gt => q + 1
  | Eq => if Z.even q then q else q + 1
  end.

(** [|x| * 100] for [|x| = m * 2^e], rounded to the nearest integer. *)
Definition hundredths (m : positive) (e : Z) : Z :=
  if 0 <=? e then 100 * Z.pos m * 2 ^ e
  else round_half_even (100 * Z.pos m) (2 ^ (- e)).

Definition decimal (n : Z) : string := NilEmpty.string_of_uint (N.to_uint (Z.to_N n)).

Definition sign_str (neg : bool) : string := if neg then "-" else "".

(** [h] hundredths printed with two decimals. *)
Definition fixed2 (neg : bool) (h : Z) : string :=
  sign_str neg +:+ decimal (h / 100) +:+ "." +:+
  (if h mod 100 <? 10 then "0" else "") +:+ decimal (h mod 100).

(** [format(x, ".2f")] for a [float]: the exact binary value rounded to
    two decimals, ties to even. *)
Definition format_float_2f (x : float) : string :=
  match x with
  | S754_nan => "nan"
  | S754_infinity s => sign_str s +:+ "inf"
  | S754_zero s => fixed2 s 0
  | S754_finite s m e => fixed2 s (hundredths m e)
  end.

(** [f"{x:.2f}"]: an [int] is converted to [float] first. *)
Definition format_2f (x : pyval) : outcome string :=
  match x with
  | PyInt z => f ← float_of_int z; Returns (format_float_2f f)
  | PyFloat f => Returns (format_float_2f f)
  | PyNA => Raises (TypeError "unsupported format string passed to NAType.__format__")
  end.

Definition format_percentage (x : pyval) : outcome string :=
  if isinstance_int_float x then
    if py_gt0 x then s ← format_2f x; Returns ("+" +:+ s +:+ "%")
    else if py_lt0 x then s ← format_2f x; Returns (s +:+ "%")
    else Returns "NaN"
  else Returns "NaN".

(** [frame.map(f)]: [f] applied to every cell, row by row. *)
Definition map_frame {C D} (f : C -> outcome D) (df : DataFrame C)
  : outcome (DataFrame D) :=
  vs ← traverse (traverse f) (df_values df);
  Returns (mkDataFrame (df_index df) (df_columns df) vs).

(** A float given by a decimal literal [n / 10^k] (correctly rounded). *)
Definition decimal_literal (n : Z) (k : Z) : float := fdiv (Z2F n) (Z2F (10 ^ k)).

(* ===================================================================== *)
(** ** Sorting rows: sort_values *)
(* ===================================================================== *)

#[global] Instance label_eq_dec : EqDecision label.
Proof. solve_decision. Defined.

(** [items[i]] *)
Definition item (items : list float) (i : nat) : float := default nan (items !! i).

(** The positions, from [k] on, of the elements that satisfy [p]. *)
Fixpoint index_where_from {A} (p : A -> bool) (k : nat) (l : list A) : list nat :=
  match l with
  | [] => []
  | a :: l' =>
      if p a then k :: index_where_from p (S k) l'
      else index_where_from p (S k) l'
  end.

Definition index_where {A} (p : A -> bool) (l : list A) : list nat :=
  index_where_from p 0 l.

(** [sort_values] is called with its default [kind="quicksort"], which
    pandas hands to [numpy.argsort].  The library promises a permutation
    that puts the items in non-decreasing order and, for this kind, nothing
    about the order of equal items; the embedding takes any such function. *)
Class Quicksort := {
  argsort : list float -> list nat;
  argsort_permutation : forall v, argsort v ≡ₚ seq 0 (length v);
  argsort_sorted : forall v,
    Forall (fun x => isnan x = false) v ->
    Sorted (fun i j => fle (item v i) (item v j) = true) (argsort v)
}.

(** [pandas.core.sorting.nargsort(items, kind, ascending, na_position="last")]:
    the missing items are set aside, the others are sorted (for a descending
    sort: reversed, sorted, and the result reversed), and the missing ones
    are put last. *)
Definition nargsort `{Quicksort} (items : list float) (ascending : bool) : list nat :=
  let non_nan_idx := index_where (fun x => negb (isnan x)) items in
  let nan_idx := index_where isnan items in
  let non_nans := filter (fun x => isnan x = false) items in
  let non_nans := if ascending then non_nans else reverse non_nans in
  let non_nan_idx := if ascending then non_nan_idx else reverse non_nan_idx in
  let indexer := (fun k => default 0%nat (non_nan_idx !! k)) <$> argsort non_nans in
  let indexer := if ascending then indexer else reverse indexer in
  indexer ++ nan_idx.

(** [df.take(indexer)]: the rows at the positions of [indexer], in its order. *)
Definition take_rows {C} (indexer : list nat) (df : DataFrame C) : DataFrame C :=
  mkDataFrame (omap (fun i => df_index df !! i) indexer)
              (df_columns df)
              (omap (fun i => df_values df !! i) indexer).

(** The columns at the positions [ps], in the order of [ps]. *)
Definition take_columns {C} (ps : list nat) (df : DataFrame C) : DataFrame C :=
  mkDataFrame (df_index df)
              (match df_columns df with
               | Index ls => Index (omap (fun j => ls !! j) ps)
               | MultiIndex ts => MultiIndex (omap (fun j => ts !! j) ps)
               end)
              ((fun row => omap (fun j => row !! j) ps) <$> df_values df).

(** The cells of column [j], one per row. *)
Definition column (j : nat) (df : DataFrame float) : list float :=
  (fun row => item row j) <$> df_values df.

(** The [by] argument of [sort_values]: a label, or a two-component tuple. *)
Inductive by_key :=
| ByLabel (l : label)
| ByTuple (l0 l1 : label).

(** The column [by] names: [KeyError] when no column matches,
    [LabelNotUnique] when the key selects more than one column or only a
    prefix of a deeper [MultiIndex] tuple. *)
Definition resolve_by (cols : Columns) (by_ : by_key) : outcome nat :=
  match cols, by_ with
  | Index ls, ByLabel l =>
      match index_where (fun x => bool_decide (x = l)) ls with
      | [] => Raises (KeyError [l])
      | [j] => Returns j
      | _ => Raises (LabelNotUnique [l] false)
      end
  | Index _, ByTuple l0 l1 => Raises (KeyError [l0; l1])
  | MultiIndex ts, ByTuple l0 l1 =>
      match index_where (fun t => bool_decide (t.1.1 = l0 /\ t.1.2 = l1)) ts with
      | [] => Raises (KeyError [l0; l1])
      | [j] =>
          match ts !! j with
          | Some (_, _, []) => Returns j
          | _ => Raises (LabelNotUnique [l0; l1] true)
          end
      | _ => Raises (LabelNotUnique [l0; l1] true)
      end
  | MultiIndex ts, ByLabel l =>
      match index_where (fun t => bool_decide (t.1.1 = l)) ts with
      | [] => Raises (KeyError [l])
      | _ => Raises (LabelNotUnique [l] true)
      end
  end.

(** [df.sort_values(by=by, ascending=ascending)]: a new frame with the rows
    of [df] reordered by the cells of column [by]. *)
Definition sort_values `{Quicksort} (df : DataFrame float) (by_ : by_key)
    (ascending : bool) : outcome (DataFrame float) :=
  j ← resolve_by (df_columns df) by_;
  Returns (take_rows (nargsort (column j df) ascending) df).

(* ===================================================================== *)
(** ** sort_yearly_budgets *)
(* ===================================================================== *)

(** [str(label)] *)
Definition label_str (l : label) : string :=
  match l with
  | LInt z => sign_str (z <? 0) +:+ decimal (Z.abs z)
  | LStr s => s
  end.

(** [f"{year}_asc"], [f"{year}_desc"] *)
Definition asc_key (year : label) : string := label_str year +:+ "_asc".
Definition desc_key (year : label) : string := label_str year +:+ "_desc".

(** [Index.unique()]: the distinct values in order of first appearance. *)
Fixpoint unique (l : list label) : list label :=
  match l with
  | [] => []
  | x :: l' => x :: filter (fun y => y <> x) (unique l')
  end.

(** [columns.get_level_values(1)] *)
Definition level1 (ts : list (label * label * list label)) : list label :=
  (fun t => t.1.2) <$> ts.

(** [budget_data[[year]]] on a frame with the flat columns [ls]: the
    columns labelled [year]. *)
Definition getitem {C} (df : DataFrame C) (ls : list label) (year : label)
  : DataFrame C :=
  take_columns (index_where (fun x => bool_decide (x = year)) ls) df.

(** [budget_data.xs(key=year, axis=1, level=1, drop_level=False)] on a frame
    with the column tuples [ts]: the columns whose inner label is [year],
    with all levels kept. *)
Definition xs {C} (df : DataFrame C) (ts : list (label * label * list label))
    (year : label) : DataFrame C :=
  take_columns (index_where (fun t => bool_decide (t.1.2 = year)) ts) df.

(** A [for] loop over [l] that threads the state [s]; an exception ends it. *)
Fixpoint for_each {A S} (body : A -> S -> outcome S) (l : list A) (s : S) : outcome S :=
  match l with
  | [] => Returns s
  | a :: l' => s' ← body a s; for_each body l' s'
  end.

(** [budget_data.columns[0][0]]: the outer label of the first column. *)
Definition first_outer_label (ts : list (label * label * list label)) : outcome label :=
  match ts with
  | [] => Raises (IndexError "index 0 is out of bounds for axis 0 with size 0")
  | (c0, _, _) :: _ => Returns c0
  end.

Definition sort_yearly_budgets `{Quicksort} (budget_data : DataFrame float)
  : outcome (gmap string (DataFrame float)) :=
  let sorted_budgets : gmap string (DataFrame float) := ∅ in
  match df_columns budget_data with
  | MultiIndex ts =>
      for_each (fun year sorted_budgets =>
                  let year_data := xs budget_data ts year in
                  c0 ← first_outer_label ts;
                  asc ← sort_values year_data (ByTuple c0 year) true;
                  let sorted_budgets := <[asc_key year := asc]> sorted_budgets in
                  c0 ← first_outer_label ts;
                  desc ← sort_values year_data (ByTuple c0 year) false;
                  Returns (<[desc_key year := desc]> sorted_budgets))
               (unique (level1 ts)) sorted_budgets
  | Index ls =>
      for_each (fun year sorted_budgets =>
                  let year_data := getitem budget_data ls year in
                  asc ← sort_values year_data (ByLabel year) true;
                  let sorted_budgets := <[asc_key year := asc]> sorted_budgets in
                  desc ← sort_values year_data (ByLabel year) false;
                  Returns (<[desc_key year := desc]> sorted_budgets))
               ls sorted_budgets
  end.

(** *** The loop, factored

    The two branches run the same loop: over the years of the table, each
    pass takes the year's slice and sort key and stores the two orderings
    ([sort_yearly_budgets_loop] below).  The version on objects and the
    properties are stated with these parts. *)

(** The two assignments of one loop iteration. *)
Definition sort_year `{Quicksort} (year_data : DataFrame float) (by_ : by_key)
    (year : label) (sorted_budgets : gmap string (DataFrame float))
  : outcome (gmap string (DataFrame float)) :=
  asc ← sort_values year_data by_ true;
  let sorted_budgets := <[asc_key year := asc]> sorted_budgets in
  desc ← sort_values year_data by_ false;
  Returns (<[desc_key year := desc]> sorted_budgets).

(** The years the loop visits. *)
Definition years (cols : Columns) : list label :=
  match cols with
  | MultiIndex ts => unique (level1 ts)
  | Index ls => ls
  end.

(** The slice and the sort key of the iteration for [year]: in the
    [MultiIndex] branch the key is [(budget_data.columns[0][0], year)]. *)
Definition year_slice (budget_data : DataFrame float) (year : label)
  : outcome (DataFrame float * by_key) :=
  match df_columns budget_data with
  | MultiIndex ts =>
      let year_data := xs budget_data ts year in
      match ts with
      | [] => Raises (IndexError "index 0 is out of bounds for axis 0 with size 0")
      | (c0, _, _) :: _ => Returns (year_data, ByTuple c0 year)
      end
  | Index ls => Returns (getitem budget_data ls year, ByLabel year)
  end.

(** One pass of the loop body for [year]. *)
Definition iteration `{Quicksort} (budget_data : DataFrame float) (year : label)
    (sorted_budgets : gmap string (DataFrame float))
  : outcome (gmap string (DataFrame float)) :=
  '(year_data, by_) ← year_slice budget_data year;
  sort_year year_data by_ year sorted_budgets.

(* ===================================================================== *)
(** ** sort_yearly_budgets on objects *)
(* ===================================================================== *)

(** In Python a frame and a dictionary are objects: a variable or a
    dictionary entry holds a reference, a method may change the object it
    is called on, and [d[k] = v] changes [d].  The store maps references to
    objects.  [sort_yearly_budgets] is written once more below, statement by
    statement over the store, to state what it does to the objects it is
    given and which objects it returns. *)
Abbreviation loc := positive.

(** What a variable or an entry holds: a reference to an object, or [None]. *)
Inductive pyref :=
| Ref (l : loc)
| PyNone.

Inductive object :=
| Frame (df : DataFrame float)
| Dict (items : gmap string pyref).

Abbreviation heap := (gmap loc object).

(** A computation on the store, which may raise. *)
Definition stateful (A : Type) : Type := heap -> outcome A * heap.

#[global] Instance stateful_ret : MRet stateful := fun A a h => (Returns a, h).
#[global] Instance stateful_bind : MBind stateful := fun A B k m h =>
  match m h with
  | (Returns a, h') => k a h'
  | (Raises e, h') => (Raises e, h')
  | (Unmodelled, h') => (Unmodelled, h')
  end.

(** A pure computation, run without touching the store. *)
Definition lift {A} (r : outcome A) : stateful A := fun h => (r, h).

(** A new object. *)
Definition alloc (o : object) : stateful loc := fun h =>
  let l := fresh (dom h) in (Returns l, <[l := o]> h).

(** The object at [l] is replaced by [o]. *)
Definition assign (l : loc) (o : object) : stateful () := fun h =>
  (Returns (), <[l := o]> h).

(** The frame at [l]. *)
Definition frame_at (l : loc) : stateful (DataFrame float) := fun h =>
  match h !! l with
  | Some (Frame df) => (Returns df, h)
  | _ => (Unmodelled, h)
  end.

(** [budget_data.columns] *)
Definition columns_of (budget_data : loc) : stateful Columns :=
  df ← frame_at budget_data; mret (df_columns df).

(** [budget_data.columns[0][0]] of a frame with [MultiIndex] columns. *)
Definition columns_0_0 (budget_data : loc) : stateful label :=
  cols ← columns_of budget_data;
  match cols with
  | MultiIndex ts => lift (first_outer_label ts)
  | Index _ => lift Unmodelled
  end.

(** [budget_data[[year]]] on flat columns: a new frame. *)
Definition getitem_obj (budget_data : loc) (year : label) : stateful loc :=
  df ← frame_at budget_data;
  match df_columns df with
  | Index ls => alloc (Frame (getitem df ls year))
  | MultiIndex _ => lift Unmodelled
  end.

(** [budget_data.xs(key=year, axis=1, level=1, drop_level=False)]: a new
    frame. *)
Definition xs_obj (budget_data : loc) (year : label) : stateful loc :=
  df ← frame_at budget_data;
  match df_columns df with
  | MultiIndex ts => alloc (Frame (xs df ts year))
  | Index _ => lift Unmodelled
  end.

(** [self.sort_values(by=by, ascending=ascending, inplace=inplace)]: with
    [inplace=True] the sorted rows replace those of [self] and the call
    returns [None]; otherwise, and by default, the result is a new frame. *)
Definition sort_values_obj `{Quicksort} (self : loc) (by_ : by_key)
    (ascending inplace : bool) : stateful pyref :=
  df ← frame_at self;
  t ← lift (sort_values df by_ ascending);
  if inplace then assign self (Frame t);; mret PyNone
  else l ← alloc (Frame t); mret (Ref l).

(** [d[k] = v] for a dictionary [d]. *)
Definition setitem (d : loc) (k : string) (v : pyref) : stateful () := fun h =>
  match h !! d with
  | Some (Dict items) => (Returns (), <[d := Dict (<[k := v]> items)]> h)
  | _ => (Unmodelled, h)
  end.

(** A [for] loop whose body works on the store. *)
Fixpoint for_each_obj {A} (body : A -> stateful ()) (l : list A) : stateful () :=
  match l with
  | [] => mret ()
  | a :: l' => body a;; for_each_obj body l'
  end.

(** [sort_yearly_budgets] with [budget_data] a reference into the store;
    [sort_values] is called without [inplace], that is with [inplace=False].
    The result is a reference to the dictionary. *)
Definition sort_yearly_budgets_obj `{Quicksort} (budget_data : loc) : stateful loc :=
  sorted_budgets ← alloc (Dict ∅);
  columns ← columns_of budget_data;
  match columns with
  | MultiIndex ts =>
      for_each_obj (fun year =>
                      year_data ← xs_obj budget_data year;
                      c0 ← columns_0_0 budget_data;
                      asc ← sort_values_obj year_data (ByTuple c0 year) true false;
                      setitem sorted_budgets (asc_key year) asc;;
                      c0 ← columns_0_0 budget_data;
                      desc ← sort_values_obj year_data (ByTuple c0 year) false false;
                      setitem sorted_budgets (desc_key year) desc)
                   (unique (level1 ts));;
      mret sorted_budgets
  | Index ls =>
      for_each_obj (fun year =>
                      year_data ← getitem_obj budget_data year;
                      asc ← sort_values_obj year_data (ByLabel year) true false;
                      setitem sorted_budgets (asc_key year) asc;;
                      desc ← sort_values_obj year_data (ByLabel year) false false;
                      setitem sorted_budgets (desc_key year) desc)
                   ls;;
      mret sorted_budgets
  end.

(* ===================================================================== *)
(** ** aggregate *)
(* ===================================================================== *)

(** A raw field value: an integer, a string, or a float (NaN when the
    value is missing). *)
Inductive scalar :=
| SInt (z : Z)
| SStr (s : string)
| SFloat (x : float).

(** Modelled from the spec: [FiscalDataManager.data], whose module
    ([src.app.open_fiscal.test]) is not among the sources.  The
    specification describes it as a rectangular dataset of fiscal records
    with group fields, time fields and a numeric value field: a list of field
    names and, per record, one value per field. *)
Record Dataset := mkDataset {
  fields : list string;
  records : list (list scalar)
}.

(** A field value as a group key: an int or a string; NaN stands for a
    missing value, and [groupby] drops a record with a missing key.  (The
    key columns the embedding covers hold no other float, see [key_column]
    below.) *)
Definition key_of (s : scalar) : option label :=
  match s with
  | SInt z => Some (LInt z)
  | SStr s => Some (LStr s)
  | SFloat _ => None
  end.

(** A field value as an amount of a [float64] table: an int is read as the
    float of the same value.  (The value columns the embedding covers hold
    no string and no int that is not a float exactly, see [value_column]
    below.) *)
Definition value_of (s : scalar) : float :=
  match s with
  | SInt z => Z2F z
  | SFloat x => x
  | SStr _ => nan
  end.

Definition field_index (fs : list string) (f : string) : option nat :=
  fst <$> list_find (fun g => g = f) fs.

Definition get_field (fs : list string) (r : list scalar) (f : string) : option scalar :=
  i ← field_index fs f; r !! i.

(** The tuple of key values of record [r] for the key fields [keys];
    [None] when one of them is missing ([groupby] drops such records). *)
Definition group_key (fs : list string) (keys : list string) (r : list scalar)
  : option (list label) :=
  mapM (fun f => get_field fs r f ≫= key_of) keys.

(** What one record contributes: its row key, its column key, its amount. *)
Definition observe (fs : list string) (index columns : list string) (values : string)
    (r : list scalar) : option (list label * list label * float) :=
  rk ← group_key fs index r;
  ck ← group_key fs columns r;
  Some (rk, ck, from_option value_of nan (get_field fs r values)).

Definition observations (d : Dataset) (index columns : list string) (values : string)
  : list (list label * list label * float) :=
  omap (observe (fields d) index columns values) (records d).

(** The amounts of the records of group [(rk, ck)], in record order. *)
Definition group_values (obs : list (list label * list label * float))
    (rk ck : list label) : list float :=
  snd <$> filter (fun o => o.1 = (rk, ck)) obs.

(** One pass of the loop of [group_sum] in pandas' [_libs/groupby.pyx],
    which adds by Kahan's compensated summation:
    [y = val - compensation; t = sumx + y;
     compensation = t - sumx - y; sumx = t],
    with the compensation set back to zero when it comes out as NaN (an
    infinite amount; pandas 2.1 and later). *)
Definition kahan_step (acc : float * float) (val : float) : float * float :=
  let '(sumx, compensation) := acc in
  let y := fsub val compensation in
  let t := fadd sumx y in
  let compensation := fsub (fsub t sumx) y in
  let compensation := if isnan compensation then S754_zero false else compensation in
  (t, compensation).

(** [aggfunc="sum"]: the compensated sum of the amounts that are not
    missing, in record order, starting from [0.0]; [0.0] when there is
    none. *)
Definition group_sum (xs : list float) : float :=
  (foldl kahan_step (S754_zero false, S754_zero false)
         (filter (fun x => isnan x = false) xs)).1.

(** Labels are ordered integers first, then strings; tuples lexicographically. *)
Definition label_leb (a b : label) : bool :=
  match a, b with
  | LInt x, LInt y => x <=? y
  | LInt _, LStr _ => true
  | LStr _, LInt _ => false
  | LStr s, LStr t => String.leb s t
  end.

Fixpoint tuple_leb (a b : list label) : bool :=
  match a, b with
  | [], _ => true
  | _ :: _, [] => false
  | x :: a', y :: b' => if bool_decide (x = y) then tuple_leb a' b' else label_leb x y
  end.

(** The distinct keys, sorted. *)
Definition tuple_le (a b : list label) : Prop := tuple_leb a b = true.

#[global] Instance tuple_le_dec : RelDecision tuple_le.
Proof. intros a b. unfold tuple_le. apply _. Defined.

Definition sorted_keys (ks : list (list label)) : list (list label) :=
  merge_sort tuple_le (remove_dups ks).

(** The groups that survive [dropna]: those whose sum is not NaN. *)
Definition kept_groups (obs : list (list label * list label * float))
  : list (list label * list label) :=
  filter (fun g => isnan (group_sum (group_values obs g.1 g.2)) = false)
         (remove_dups (fst <$> obs)).

(** The cell of row key [rk] and column key [ck]: the sum of the group when
    there is one, NaN otherwise. *)
Definition pivot_cell (obs : list (list label * list label * float))
    (rk ck : list label) : float :=
  if bool_decide ((rk, ck) ∈ kept_groups obs)
  then group_sum (group_values obs rk ck)
  else nan.

Definition pivot_rows (obs : list (list label * list label * float)) : list (list label) :=
  sorted_keys (fst <$> kept_groups obs).
Definition pivot_cols (obs : list (list label * list label * float)) : list (list label) :=
  sorted_keys (snd <$> kept_groups obs).

(** The column axis for the column keys [cks]: flat for one time key, a
    [MultiIndex] for several. *)
Definition make_columns (columns : list string) (cks : list (list label)) : Columns :=
  match columns with
  | [_] => Index (omap head cks)
  | _ =>
      MultiIndex (omap (fun ck =>
                          match ck with
                          | l0 :: l1 :: rest => Some (l0, l1, rest)
                          | _ => None
                          end) cks)
  end.

(** *** The calls the embedding covers *)

(** A key field holds an int, a string, or nothing (NaN); a value field
    holds a number. *)
Definition key_typed (s : scalar) : bool :=
  match s with
  | SInt _ | SStr _ => true
  | SFloat x => isnan x
  end.

Definition amount_typed (s : scalar) : bool :=
  match s with
  | SStr _ => false
  | _ => true
  end.

(** The call [aggregate(index, columns, values)] on [d] is well formed:
    the field names of the data are distinct, the named fields are distinct,
    every record has one value per field, key fields hold ints, strings or
    nothing, and the value field holds numbers. *)
Definition well_formed (d : Dataset) (index columns : list string) (values : string)
  : bool :=
  bool_decide (NoDup (fields d)) &&
  bool_decide (NoDup (values :: index ++ columns)) &&
  forallb (fun r =>
             (length r =? length (fields d))%nat &&
             forallb (fun k => from_option key_typed true (get_field (fields d) r k))
                     (index ++ columns) &&
             from_option amount_typed true (get_field (fields d) r values))
          (records d).

(** The values of field [f], one per record. *)
Definition field_values (d : Dataset) (f : string) : list scalar :=
  omap (fun r => get_field (fields d) r f) (records d).

(** A column of a frame has one dtype.  A key column the embedding covers
    is an [int64] column, every value an int in range, or an object column
    of strings, in which a value may be missing.  An int column with a
    missing value is not covered: pandas stores it as [float64] and its
    labels are floats. *)
Definition int64_key (s : scalar) : bool :=
  match s with
  | SInt z => (- 2 ^ 63 <=? z) && (z <? 2 ^ 63)
  | _ => false
  end.

Definition str_key (s : scalar) : bool :=
  match s with
  | SStr _ => true
  | SFloat x => isnan x
  | SInt _ => false
  end.

Definition key_column (xs : list scalar) : bool :=
  forallb int64_key xs || forallb str_key xs.

(** A value column the embedding covers holds floats and ints whose
    magnitudes add up to less than [2^53]: then every int and every sum of
    ints is a float exactly, and a column of ints only, which pandas sums
    in [int64], has the same cells in a [float64] table.  Larger ints are
    not covered: pandas keeps [int64] cells as they are, and its [int64]
    sums wrap around. *)
Definition int_magnitude (s : scalar) : Z :=
  match s with
  | SInt z => Z.abs z
  | _ => 0
  end.

Definition value_column (xs : list scalar) : bool :=
  forallb amount_typed xs && (foldr Z.add 0 (int_magnitude <$> xs) <? 2 ^ 53).

Definition typed_columns (d : Dataset) (index columns : list string) (values : string)
  : bool :=
  forallb (fun k => key_column (field_values d k)) (index ++ columns) &&
  value_column (field_values d values).

(** [data.pivot_table(index=index, columns=columns, values=values,
    aggfunc="sum")].  The value field is looked up first: [KeyError] when
    it is not in the data.  Then [groupby] looks the keys up in order:
    [KeyError] for the first that is not in the data, provided the names
    are distinct and the number of keys is not the number of records (a
    list of keys as long as the data with a name that is no field is taken
    by [groupby] as an array of group labels).  Without any key, on data
    that has records, [groupby] raises [ValueError].  With group keys and
    time keys that are all fields, a well-formed call on columns of the
    covered dtypes returns the table of group sums: the rows and columns
    are the sorted keys of the groups whose sum is a number.  Every other
    call is left [Unmodelled]. *)
Definition pivot_table (d : Dataset) (index columns : list string) (values : string)
  : outcome (DataFrame float) :=
  if bool_decide (values ∈ fields d) then
    if bool_decide (NoDup (fields d)) && bool_decide (NoDup (values :: index ++ columns)) then
      match list_find (fun k => k ∉ fields d) (index ++ columns) with
      | Some (_, k) =>
          if (length (index ++ columns) =? length (records d))%nat then Unmodelled
          else Raises (KeyError [LStr k])
      | None =>
          match index, columns with
          | [], [] =>
              match records d with
              | [] => Unmodelled
              | _ :: _ => Raises (ValueError "No group keys passed!")
              end
          | _ :: _, _ :: _ =>
              if well_formed d index columns values && typed_columns d index columns values
              then
                let obs := observations d index columns values in
                Returns (mkDataFrame
                           (pivot_rows obs)
                           (make_columns columns (pivot_cols obs))
                           ((fun rk => pivot_cell obs rk <$> pivot_cols obs)
                              <$> pivot_rows obs))
              else Unmodelled
          | _, _ => Unmodelled
          end
      end
    else Unmodelled
  else Raises (KeyError [LStr values]).

(** [BaseAggregator.aggregate]; [self.data] is the dataset [d]. *)
Definition aggregate (d : Dataset) (index columns : list string) (values : string)
  : outcome (DataFrame float) :=
  pivot_table d index columns values.

(* ===================================================================== *)
(** ** get_ministry_budget_trends *)
(* ===================================================================== *)

Record Trends := mkTrends {
  budget_by_ministry : DataFrame float;
  changes_yoy : DataFrame string;
  sorted_budgets : gmap string (DataFrame float)
}.

Definition get_ministry_budget_trends `{Quicksort} (d : Dataset)
    (index columns : list string) (values : string) : outcome Trends :=
  budget_data_by_ministry ← aggregate d index columns values;
  changes_yoy ← map_frame (fun c => format_percentage (of_cell c))
                          (calculate_yoy_change budget_data_by_ministry);
  sorted_budgets ← sort_yearly_budgets budget_data_by_ministry;
  Returns (mkTrends budget_data_by_ministry changes_yoy sorted_budgets).

(* ===================================================================== *)
(** ** Notions the properties are stated with *)
(* ===================================================================== *)

(** *** Percentage formatting *)

(** [x == 0] *)
Definition py_eq0 (x : pyval) : bool :=
  match x with
  | PyInt z => z =? 0
  | PyFloat f => is_zero f
  | PyNA => false
  end.

(** [x] is not a number: NaN, or not a numeric object at all. *)
Definition py_undefined (x : pyval) : bool :=
  match x with
  | PyInt _ => false
  | PyFloat f => isnan f
  | PyNA => true
  end.

(** [float(z)] does not overflow. *)
Definition fits_float (z : Z) : bool :=
  match Z2F z with
  | S754_infinity _ => false
  | _ => true
  end.

(** [x] formats without overflow: any value but an int too large for a float. *)
Definition convertible (x : pyval) : bool :=
  match x with
  | PyInt z => fits_float z
  | _ => true
  end.

(** Every character of [s] is a decimal digit. *)
Definition is_digits (s : string) : bool :=
  forallb (fun a => (48 <=? Ascii.N_of_ascii a)%N && (Ascii.N_of_ascii a <=? 57)%N)
          (list_ascii_of_string s).

(** *** Orderings *)

(** Non-decreasing, and non-increasing, order of amounts. *)
Definition ascending_le (x y : float) : Prop := fle x y = true.
Definition descending_le (x y : float) : Prop := fle y x = true.
Definition direction_le (ascending : bool) : relation float :=
  if ascending then ascending_le else descending_le.

(** The order of positions by the items they hold. *)
Definition by_item (v : list float) (i j : nat) : Prop := fle (item v i) (item v j) = true.

(** The sorted part of the indexer, before a descending sort reverses it. *)
Definition sorted_positions `{Quicksort} (J : list nat) (W : list float) : list nat :=
  (fun k => default 0%nat (J !! k)) <$> argsort W.

(** [t] is the ordering of [budget_data] for [year] in one direction: the
    year's slice, sorted by the year's sort key. *)
Definition ordering_of `{Quicksort} (budget_data : DataFrame float) (year : label)
    (ascending : bool) (t : DataFrame float) : Prop :=
  exists year_data by_,
    year_slice budget_data year = Returns (year_data, by_) /\
    sort_values year_data by_ ascending = Returns t.

(** The dictionary key of a year's ordering. *)
Definition direction_key (ascending : bool) (year : label) : string :=
  if ascending then asc_key year else desc_key year.

(** The amounts the orderings of [year] are sorted by: the cells of the
    year's sort-key column. *)
Definition sort_key_amounts (budget_data : DataFrame float) (year : label) : list float :=
  match year_slice budget_data year with
  | Returns (year_data, by_) =>
      match resolve_by (df_columns year_data) by_ with
      | Returns j => column j year_data
      | _ => []
      end
  | _ => []
  end.

(** Every amount is defined. *)
Definition all_defined (v : list float) : bool := forallb (fun x => negb (isnan x)) v.

(** No two amounts are equal ([==]). *)
Fixpoint all_distinct (v : list float) : bool :=
  match v with
  | [] => true
  | x :: v' => forallb (fun y => negb (SFeqb x y)) v' && all_distinct v'
  end.

(** No two items are equal ([==]). *)
Definition pairwise_distinct (v : list float) : Prop :=
  forall i j x y, i <> j -> v !! i = Some x -> v !! j = Some y -> SFeqb x y = false.

(** The position of the row labelled [r] in the table. *)
Definition row_position (idx : list (list label)) (r : list label) : option nat :=
  fst <$> list_find (fun r' => r' = r) idx.

(** Row [r] comes before row [r'] in the table. *)
Definition precedes (idx : list (list label)) (r r' : list label) : bool :=
  match row_position idx r, row_position idx r' with
  | Some i, Some i' => (i <? i')%nat
  | _, _ => false
  end.

(** In the ordering [rows] (row label and amount, in the ordering's order),
    rows with equal amounts come in the order they have in the table. *)
Fixpoint ties_in_table_order (idx : list (list label))
    (rows : list (list label * float)) : bool :=
  match rows with
  | [] => true
  | (r, x) :: rest =>
      forallb (fun '(r', y) => if SFeqb x y then precedes idx r r' else true) rest
      && ties_in_table_order idx rest
  end.

(** The value a call returned ([d] if it did not return). *)
Definition returned {A} (d : A) (r : outcome A) : A :=
  match r with
  | Returns a => a
  | _ => d
  end.

(** The number of columns of a flat table that carry the label [year]. *)
Definition occurrences (ls : list label) (year : label) : nat :=
  length (index_where (fun x => bool_decide (x = year)) ls).

(** A column tuple has two levels. *)
Definition two_level_tuple (t : label * label * list label) : Prop := t.2 = [].

(** *** Sorts that meet the interface *)

(** Pairs [(position, item)] ordered by item, ties by [tie] on positions. *)
Definition pair_le (tie : nat -> nat -> bool) (a b : nat * float) : Prop :=
  flt a.2 b.2 = true \/ (flt b.2 a.2 = false /\ tie a.1 b.1 = true).

#[global] Instance pair_le_dec tie : RelDecision (pair_le tie).
Proof. intros a b. unfold pair_le. apply _. Defined.

Definition argsort_by (tie : nat -> nat -> bool) (v : list float) : list nat :=
  (merge_sort (pair_le tie) (zip (seq 0 (length v)) v)).*1.

#[global] Instance float_eq_dec : EqDecision float.
Proof. solve_decision. Defined.

(** numpy's quicksort is not stable.  Where it sorts a short array by a
    network of compare-exchange steps (its vectorised sort on x86-64), a
    step swaps two items when the first is the greater, and a swap can
    carry an item past an equal one: with the steps of a bitonic network
    on four items, (0,1) and (2,3), then (0,3) and (1,2), then (0,1) and
    (2,3) again, the items [1, 1, 0, 0] are swapped pairwise by the second
    step, and the positions come out as [3, 2, 1, 0], the equal items in
    reverse order.  [argsort_reversing] gives this answer on these items,
    and keeps equal items in input order on every other input. *)
Definition argsort_reversing (v : list float) : list nat :=
  if decide (v = [Z2F 1; Z2F 1; Z2F 0; Z2F 0]) then [3; 2; 1; 0]%nat
  else argsort_by Nat.leb v.

(** *** Objects *)

(** The frame an entry of a dictionary refers to in the store [h]. *)
Definition frame_of (h : heap) (v : pyref) : option (DataFrame float) :=
  match v with
  | Ref l => match h !! l with Some (Frame df) => Some df | _ => None end
  | PyNone => None
  end.

(** In the store [hc] the dictionary at [d] holds the frames [mp]: [d] and
    the frames it refers to were all created after the store [h], every
    entry refers to a frame, and no two entries refer to the same one. *)
Record holds (h hc : heap) (d : loc) (items : gmap string pyref)
    (mp : gmap string (DataFrame float)) : Prop := {
  holds_extends : h ⊆ hc;
  holds_dict : hc !! d = Some (Dict items);
  holds_dict_new : h !! d = None;
  holds_frames : forall k, items !! k ≫= frame_of hc = mp !! k;
  holds_new : forall k v, items !! k = Some v ->
    exists l t, v = Ref l /\ h !! l = None /\ hc !! l = Some (Frame t);
  holds_inj : forall k1 k2 v, items !! k1 = Some v -> items !! k2 = Some v -> k1 = k2
}.

(** What one pass of the loop does to the store, in terms of what it does
    to the dictionary of frames. *)
Definition pass_spec `{Quicksort} (h : heap) (d : loc) (df : DataFrame float)
    (body : label -> stateful ()) : Prop :=
  forall year hc items mp,
    holds h hc d items mp ->
    exists r h',
      body year hc = (r, h') /\
      match r with
      | Returns _ =>
          exists items' mp',
            iteration df year mp = Returns mp' /\ holds h h' d items' mp'
      | Raises e => iteration df year mp = Raises e /\ h ⊆ h'
      | Unmodelled => False
      end.

(** *** Groups of records *)

(** The amounts, in record order, of the records whose [index] fields hold
    [rk] and whose [columns] fields hold [ck]. *)
Definition amounts_of_group (d : Dataset) (index columns : list string)
    (values : string) (rk ck : list label) : list float :=
  omap (fun r =>
          if bool_decide (group_key (fields d) index r = Some rk /\
                          group_key (fields d) columns r = Some ck)
          then Some (from_option value_of nan (get_field (fields d) r values))
          else None)
       (records d).

(** *** Tables *)

(** The column keys of a table, one tuple per column. *)
Definition column_keys {C} (t : DataFrame C) : list (list label) :=
  match df_columns t with
  | Index ls => (fun l => [l]) <$> ls
  | MultiIndex ts => (fun t => t.1.1 :: t.1.2 :: t.2) <$> ts
  end.

(** The cell of row [i] and column [j]. *)
Definition cell_at {C} (t : DataFrame C) (i j : nat) : option C :=
  df_values t !! i ≫= (fun row => row !! j).

(** *** Records with keys *)

(** The records of [d] that have a value in every field of [keys]. *)
Definition with_keys (d : Dataset) (keys : list string) : Dataset :=
  mkDataset (fields d)
            (filter (fun r => is_Some (group_key (fields d) keys r)) (records d)).

(** *** Example data *)

Definition ministry (name : string) : list label := [LStr name].

(** The specification's end-to-end scenario. *)
Definition scenario_records : Dataset :=
  mkDataset ["Ministry"; "Year"; "Amount"]
    [[SStr "A"; SInt 2024; SInt 100]; [SStr "B"; SInt 2024; SInt 200];
     [SStr "A"; SInt 2025; SInt 150]; [SStr "B"; SInt 2025; SInt 180]].

Definition scenario_table : DataFrame float :=
  mkDataFrame [ministry "A"; ministry "B"] (Index [LInt 2024; LInt 2025])
              [[Z2F 100; Z2F 150]; [Z2F 200; Z2F 180]].

(** Twenty ministries with the same amount. *)
Definition tied_table : DataFrame float :=
  mkDataFrame ((fun i => [LInt (Z.of_nat i)]) <$> seq 0 20) (Index [LInt 2024])
              (replicate 20 [Z2F 1]).

(** A year in which ministry B has no amount. *)
Definition table_with_gap : DataFrame float :=
  mkDataFrame [ministry "A"; ministry "B"; ministry "C"] (Index [LInt 2024])
              [[Z2F 1]; [nan]; [Z2F 2]].

(** Records with two column keys, and the two-level table they pivot to:
    agency ["a"] has an amount in 2024 only, agency ["b"] in 2025 only. *)
Definition two_key_records : Dataset :=
  mkDataset ["Ministry"; "Agency"; "Year"; "Amount"]
    [[SStr "M"; SStr "a"; SInt 2024; SInt 10];
     [SStr "M"; SStr "b"; SInt 2025; SInt 20]].

Definition two_level_table : DataFrame float :=
  mkDataFrame [ministry "M"]
              (MultiIndex [(LStr "a", LInt 2024, []); (LStr "b", LInt 2025, [])])
              [[Z2F 10; Z2F 20]].

(** Years 2024 and 2025 for the agencies ["a"] and ["b"]; agency ["b"] has
    no column for 2025. *)
Definition agencies_columns : list (label * label * list label) :=
  [(LStr "a", LInt 2024, []); (LStr "a", LInt 2025, []); (LStr "b", LInt 2024, [])].

Definition agencies_table : DataFrame float :=
  mkDataFrame [ministry "M"; ministry "N"] (MultiIndex agencies_columns)
              [[Z2F 10; Z2F 30; Z2F 5]; [Z2F 20; Z2F 15; Z2F 7]].

(** The columns of [two_level_table]. *)
Definition two_level_columns : list (label * label * list label) :=
  [(LStr "a", LInt 2024, []); (LStr "b", LInt 2025, [])].

(** Ministry B has one record, without an amount. *)
Definition records_with_missing_amount : Dataset :=
  mkDataset ["Ministry"; "Year"; "Amount"]
    [[SStr "A"; SInt 2024; SInt 100]; [SStr "B"; SInt 2024; SFloat nan]].

(** The second record has no ministry. *)
Definition records_with_missing_ministry : Dataset :=
  mkDataset ["Ministry"; "Year"; "Amount"]
    [[SStr "A"; SInt 2024; SInt 100]; [SFloat nan; SInt 2024; SInt 200]].

(** Four ministries, two with the amount 0 and two with the amount 1. *)
Definition table_with_ties : DataFrame float :=
  mkDataFrame [ministry "A"; ministry "B"; ministry "C"; ministry "D"] (Index [LInt 2024])
              [[Z2F 0]; [Z2F 0]; [Z2F 1]; [Z2F 1]].

(* ===================================================================== *)
(** * Properties *)
(* ===================================================================== *)

(** ** The order of floats *)

Ltac cmp_cases :=
  repeat match goal with
  | |- context [Z.compare ?a ?b] => destruct (Z.compare_spec a b)
  | |- context [Pos.compare_cont Eq ?a ?b] =>
      change (Pos.compare_cont Eq a b) with (Pos.compare a b);
      destruct (Pos.compare_spec a b)
  end.

Lemma SFcompare_swap x y : SFcompare y x = CompOpp <$> SFcompare x y.
Proof.
  destruct x as [sx|sx| |sx mx ex], y as [sy|sy| |sy my ey];
    try destruct sx; try destruct sy; try reflexivity.
  all: cbn -[Z.compare]; cmp_cases; cbn; try reflexivity; try (f_equal; lia); try lia.
Qed.

Lemma fle_trans x y z : fle x y = true -> fle y z = true -> fle x z = true.
Proof.
  unfold fle, SFleb.
  destruct x as [sx|sx| |sx mx ex], y as [sy|sy| |sy my ey], z as [sz|sz| |sz mz ez];
    try destruct sx; try destruct sy; try destruct sz; cbn -[Z.compare]; try done.
  all: cmp_cases; cbn; try done; try lia.
Qed.

Lemma flt_fle x y : flt x y = true -> fle x y = true.
Proof. unfold flt, fle, SFltb, SFleb. destruct (SFcompare x y) as [[]|]; done. Qed.

Lemma SFcompare_defined x y :
  isnan x = false -> isnan y = false -> exists c, SFcompare x y = Some c.
Proof.
  destruct x as [sx|sx| |sx mx ex], y as [sy|sy| |sy my ey]; try done; intros _ _;
    try destruct sx; try destruct sy; cbn -[Z.compare]; eauto.
Qed.

Lemma fle_total x y :
  isnan x = false -> isnan y = false -> flt y x = false -> fle x y = true.
Proof.
  intros Hx Hy. unfold flt, fle, SFltb, SFleb. rewrite (SFcompare_swap x y).
  destruct (SFcompare_defined x y Hx Hy) as [c ->]. destruct c; done.
Qed.

Lemma fle_antisym x y : fle x y = true -> fle y x = true -> SFeqb x y = true.
Proof.
  unfold fle, SFleb, SFeqb. rewrite (SFcompare_swap x y).
  destruct (SFcompare x y) as [[]|]; done.
Qed.

Lemma fle_not_nan x y : fle x y = true -> isnan x = false /\ isnan y = false.
Proof. by destruct x, y. Qed.

(** ** Sorts that meet the interface *)

Lemma pair_le_total tie :
  (forall i j, tie i j = true \/ tie j i = true) -> Total (pair_le tie).
Proof.
  intros Htie [i x] [j y]. unfold pair_le; cbn.
  destruct (flt x y) eqn:Hxy; [by left; left|].
  destruct (flt y x) eqn:Hyx; [by right; left|].
  destruct (Htie i j); [left|right]; right; done.
Qed.

Lemma argsort_by_permutation tie v : argsort_by tie v ≡ₚ seq 0 (length v).
Proof.
  unfold argsort_by. rewrite merge_sort_Permutation.
  rewrite fst_zip; [done|]. rewrite length_seq. done.
Qed.

Lemma elem_of_zip_seq (v : list float) i x :
  (i, x) ∈ zip (seq 0 (length v)) v -> v !! i = Some x.
Proof.
  intros Hin. apply list_elem_of_lookup in Hin as [k Hk].
  apply lookup_zip_with_Some in Hk as (i' & x' & [= <- <-] & Hi & Hx).
  apply lookup_seq in Hi as [-> _]. done.
Qed.

Lemma argsort_by_sorted tie v :
  (forall i j, tie i j = true \/ tie j i = true) ->
  Forall (fun x => isnan x = false) v ->
  Sorted (fun i j => fle (item v i) (item v j) = true) (argsort_by tie v).
Proof.
  intros Htie Hv. unfold argsort_by.
  pose proof (Sorted_merge_sort (pair_le tie) (Total0 := pair_le_total tie Htie)
                (zip (seq 0 (length v)) v)) as Hs.
  assert (Forall (fun a => v !! a.1 = Some a.2)
            (merge_sort (pair_le tie) (zip (seq 0 (length v)) v))) as Hall.
  { apply Forall_forall. intros [i x] Hin.
    rewrite merge_sort_Permutation in Hin. by apply elem_of_zip_seq. }
  induction Hs as [|a l Hs IH Hhd]; [constructor|].
  apply Forall_cons in Hall as [Ha Hall].
  cbn. constructor; [by apply IH|].
  destruct Hhd as [|b l Hab]; cbn; constructor.
  apply Forall_cons in Hall as [Hb _].
  unfold item. rewrite Ha, Hb. cbn.
  assert (isnan a.2 = false /\ isnan b.2 = false) as [Hna Hnb].
  { rewrite Forall_forall in Hv. split; eapply Hv, list_elem_of_lookup_2; eauto. }
  destruct Hab as [Hlt|[Hge _]]; [by apply flt_fle|by apply fle_total].
Qed.

(** Ties keep their input order: what a stable sort does. *)
Definition stable_sort : Quicksort.
Proof.
  refine {| argsort := argsort_by Nat.leb |}.
  - apply argsort_by_permutation.
  - intros v. apply argsort_by_sorted. intros i j.
    destruct (Nat.leb_spec i j); [by left|right]. apply Nat.leb_le. lia.
Defined.

(** A sort that meets the interface and reverses the ties of the items
    [1, 1, 0, 0]. *)
Definition reversing_sort : Quicksort.
Proof.
  refine {| argsort := argsort_reversing |}.
  - intros v. unfold argsort_reversing. case_decide as Hv.
    + subst v. compute_done.
    + apply argsort_by_permutation.
  - intros v Hnan. unfold argsort_reversing. case_decide as Hv.
    + subst v. repeat constructor.
    + apply argsort_by_sorted; [|done]. intros i j.
      destruct (Nat.leb_spec i j); [by left|right]. apply Nat.leb_le. lia.
Defined.

(** ** Year-over-year change *)

Lemma length_diff_row row : length (diff_row row) = length row.
Proof.
  destruct row as [|x rest]; [done|]. cbn [diff_row length].
  rewrite length_zip_with. cbn [length]. lia.
Qed.

Lemma length_shift_row row : length (shift_row row) = length row.
Proof.
  destruct row as [|x rest]; [done|].
  unfold shift_row. cbn [length Nat.pred]. rewrite length_take. cbn [length]. lia.
Qed.

Lemma length_yoy_row row : length (yoy_row row) = length row.
Proof.
  unfold yoy_row.
  rewrite length_fmap, length_zip_with, length_fmap, length_diff_row, length_shift_row.
  lia.
Qed.

Lemma diff_row_S row j prev cur :
  row !! j = Some prev -> row !! S j = Some cur ->
  diff_row row !! S j = Some (fsub cur prev).
Proof.
  intros Hp Hc. destruct row as [|x rest]; [done|].
  cbn [diff_row]. change ((nan :: ?l) !! S j) with (l !! j).
  change (rest !! j = Some cur) in Hc.
  rewrite lookup_zip_with, Hc. cbn. rewrite Hp. done.
Qed.

Lemma shift_row_S row j prev :
  row !! j = Some prev -> (S j < length row)%nat ->
  shift_row row !! S j = Some prev.
Proof.
  intros Hp Hlen. destruct row as [|x rest]; [done|].
  unfold shift_row. change ((nan :: ?l) !! S j) with (l !! j).
  rewrite lookup_take_lt by (cbn [length Nat.pred] in *; lia). done.
Qed.

Lemma yoy_row_S row j prev cur :
  row !! j = Some prev -> row !! S j = Some cur ->
  yoy_row row !! S j =
    Some (if is_zero prev then NA else Num (pct_change prev cur)).
Proof.
  intros Hp Hc. unfold yoy_row.
  rewrite list_lookup_fmap, lookup_zip_with, (diff_row_S _ _ _ _ Hp Hc).
  cbn. rewrite list_lookup_fmap.
  rewrite (shift_row_S _ _ _ Hp) by (apply lookup_lt_Some in Hc; lia).
  cbn. unfold replace_zero. by destruct (is_zero prev).
Qed.

Lemma yoy_row_0 row x :
  row !! 0%nat = Some x -> yoy_row row !! 0%nat = Some (Num nan).
Proof. destruct row as [|y rest]; [done|]. intros _. reflexivity. Qed.

(** C1: in every row, for every column index [i + 1 > 0], the year-over-year
    cell is [((cur - prev) / prev) * 100] when the previous cell [prev] is
    defined and not zero, and is the undefined value [pd.NA] when [prev] is
    zero.  [calculate_yoy_change] is a total function: no division fault
    can come out of it. *)
Theorem yoy_cell_formula df r row i prev cur :
  df_values df !! r = Some row ->
  row !! i = Some prev -> row !! S i = Some cur ->
  exists out,
    df_values (calculate_yoy_change df) !! r = Some out /\
    (isnan prev = false -> is_zero prev = false ->
     out !! S i = Some (Num (pct_change prev cur))) /\
    (is_zero prev = true -> out !! S i = Some NA /\ undefined NA).
Proof.
  intros Hrow Hp Hc. exists (yoy_row row). cbn.
  rewrite list_lookup_fmap, Hrow. split; [done|].
  rewrite (yoy_row_S row i prev cur Hp Hc).
  split; [by intros _ ->|by intros ->].
Qed.

(** C7: in the output of [calculate_yoy_change] the cell of column 0 is
    undefined in every row. *)
Theorem yoy_first_column_undefined df r row x :
  df_values df !! r = Some row -> row !! 0%nat = Some x ->
  exists out c,
    df_values (calculate_yoy_change df) !! r = Some out /\
    out !! 0%nat = Some c /\ undefined c.
Proof.
  intros Hrow Hx. exists (yoy_row row), (Num nan). cbn.
  rewrite list_lookup_fmap, Hrow. split; [done|].
  split; [by eapply yoy_row_0|done].
Qed.

(** C9: the table [calculate_yoy_change] returns has the row labels of its
    input, in the same order, the same columns, the same number of rows and
    as many cells in each row. *)
Theorem yoy_same_shape df :
  df_index (calculate_yoy_change df) = df_index df /\
  df_columns (calculate_yoy_change df) = df_columns df /\
  length (df_values (calculate_yoy_change df)) = length (df_values df) /\
  Forall2 (fun out row => length out = length row)
          (df_values (calculate_yoy_change df)) (df_values df).
Proof.
  cbn. split; [done|]. split; [done|]. split; [apply length_fmap|].
  apply Forall2_fmap_l, Forall_Forall2_diag, Forall_forall.
  intros row _. apply length_yoy_row.
Qed.

Lemma yoy_rectangular df : rectangular df -> rectangular (calculate_yoy_change df).
Proof.
  intros [Hlen Hrows]. split; cbn; [by rewrite length_fmap|].
  apply Forall_fmap. eapply Forall_impl; [done|]. cbn.
  intros row <-. apply length_yoy_row.
Qed.

(** C1 at the row [[0, 10]] of the specification's zero-denominator case. *)
Lemma yoy_cell_formula_witness :
  exists out,
    df_values (calculate_yoy_change
                 (mkDataFrame [ministry "A"; ministry "Z"] (Index [LInt 2024; LInt 2025])
                              [[Z2F 100; Z2F 150]; [Z2F 0; Z2F 10]])) !! 1%nat = Some out /\
    (isnan (Z2F 0) = false -> is_zero (Z2F 0) = false ->
     out !! 1%nat = Some (Num (pct_change (Z2F 0) (Z2F 10)))) /\
    (is_zero (Z2F 0) = true -> out !! 1%nat = Some NA /\ undefined NA).
Proof.
  apply (yoy_cell_formula _ 1%nat [Z2F 0; Z2F 10] 0%nat); reflexivity.
Defined.

Example yoy_scenario :
  calculate_yoy_change scenario_table
  = mkDataFrame [ministry "A"; ministry "B"] (Index [LInt 2024; LInt 2025])
                [[Num nan; Num (Z2F 50)]; [Num nan; Num (Z2F (-10))]].
Proof. vm_compute. reflexivity. Qed.

(** C7 at the second row of the specification's scenario. *)
Lemma yoy_first_column_undefined_witness :
  exists out c,
    df_values (calculate_yoy_change scenario_table) !! 1%nat = Some out /\
    out !! 0%nat = Some c /\ undefined c.
Proof.
  apply (yoy_first_column_undefined scenario_table 1%nat [Z2F 200; Z2F 180] (Z2F 200));
    reflexivity.
Defined.

(** ** Percentage formatting *)

Example format_examples :
  format_percentage (PyFloat (Z2F 5)) = Returns "+5.00%" /\
  format_percentage (PyFloat (decimal_literal (-3333) 3)) = Returns "-3.33%" /\
  format_percentage (PyInt 0) = Returns "NaN" /\
  format_percentage (PyFloat (S754_zero false)) = Returns "NaN" /\
  format_percentage (PyFloat nan) = Returns "NaN" /\
  format_percentage PyNA = Returns "NaN" /\
  format_percentage (PyFloat (decimal_literal 5 3)) = Returns "+0.01%" /\
  format_percentage (PyFloat (decimal_literal 15 3)) = Returns "+0.01%" /\
  format_percentage (PyFloat (decimal_literal 125 3)) = Returns "+0.12%" /\
  format_percentage (PyFloat (decimal_literal (-1) 3)) = Returns "-0.00%" /\
  format_percentage (PyFloat (S754_infinity false)) = Returns "+inf%" /\
  format_percentage (PyInt (2^53 + 1)) = Returns "+9007199254740992.00%" /\
  format_percentage (PyInt (-7)) = Returns "-7.00%".
Proof. repeat split; vm_compute; reflexivity. Qed.

Lemma flt_asym x y : flt x y = true -> flt y x = false.
Proof.
  unfold flt, SFltb. rewrite (SFcompare_swap x y).
  destruct (SFcompare x y) as [[]|]; done.
Qed.

Lemma is_zero_not_lt x :
  is_zero x = true ->
  flt (S754_zero false) x = false /\ flt x (S754_zero false) = false.
Proof.
  unfold is_zero, flt, SFeqb, SFltb. rewrite (SFcompare_swap x (S754_zero false)).
  destruct (SFcompare x _) as [[]|]; done.
Qed.

Lemma isnan_not_lt x :
  isnan x = true ->
  flt (S754_zero false) x = false /\ flt x (S754_zero false) = false.
Proof. by destruct x. Qed.

(** C2, amended: [format_percentage] returns a string for every float,
    for every value that is neither an int nor a float, and for every int
    that converts to a float: [x > 0] gives ["+{x:.2f}%"], [x < 0] gives
    ["{x:.2f}%"], and [x == 0] and undefined values give ["NaN"]. *)
Theorem format_percentage_total x :
  convertible x = true ->
  exists s digits,
    format_percentage x = Returns s /\
    (isinstance_int_float x = true -> format_2f x = Returns digits) /\
    (py_gt0 x = true -> s = "+" +:+ digits +:+ "%") /\
    (py_lt0 x = true -> s = digits +:+ "%") /\
    (py_eq0 x = true -> s = "NaN") /\
    (py_undefined x = true -> s = "NaN").
Proof.
  intros Hconv. destruct x as [z|f|].
  - cbn in Hconv. unfold fits_float in Hconv.
    assert (float_of_int z = Returns (Z2F z)) as Hfloat.
    { unfold float_of_int. by destruct (Z2F z). }
    unfold format_percentage, format_2f. cbn [isinstance_int_float py_gt0 py_lt0].
    rewrite Hfloat. cbn [mbind outcome_bind].
    exists (if 0 <? z then "+" +:+ format_float_2f (Z2F z) +:+ "%"
            else if z <? 0 then format_float_2f (Z2F z) +:+ "%" else "NaN"),
           (format_float_2f (Z2F z)).
    split; [by destruct (0 <? z), (z <? 0)|]. split; [done|].
    cbn [py_eq0 py_undefined].
    destruct (Z.ltb_spec 0 z), (Z.ltb_spec z 0), (Z.eqb_spec z 0);
      repeat split; try done; lia.
  - unfold format_percentage, format_2f. cbn [isinstance_int_float py_gt0 py_lt0].
    exists (if flt (S754_zero false) f then "+" +:+ format_float_2f f +:+ "%"
            else if flt f (S754_zero false) then format_float_2f f +:+ "%" else "NaN"),
           (format_float_2f f).
    split; [by destruct (flt (S754_zero false) f), (flt f (S754_zero false))|]. split; [done|].
    cbn [py_eq0 py_undefined]. split; [by intros ->|].
    split; [intros Hlt; by rewrite (flt_asym _ _ Hlt), Hlt|].
    split; [intros [-> ->]%is_zero_not_lt|intros [-> ->]%isnan_not_lt]; done.
  - exists "NaN", "". repeat split; done.
Qed.

(** C2, amended, at [x = -3.333]. *)
Lemma format_percentage_total_witness :
  exists s digits,
    format_percentage (PyFloat (decimal_literal (-3333) 3)) = Returns s /\
    (isinstance_int_float (PyFloat (decimal_literal (-3333) 3)) = true ->
     format_2f (PyFloat (decimal_literal (-3333) 3)) = Returns digits) /\
    (py_gt0 (PyFloat (decimal_literal (-3333) 3)) = true -> s = "+" +:+ digits +:+ "%") /\
    (py_lt0 (PyFloat (decimal_literal (-3333) 3)) = true -> s = digits +:+ "%") /\
    (py_eq0 (PyFloat (decimal_literal (-3333) 3)) = true -> s = "NaN") /\
    (py_undefined (PyFloat (decimal_literal (-3333) 3)) = true -> s = "NaN").
Proof. apply format_percentage_total. reflexivity. Defined.

(** C2 as stated fails: on the int [10 ** 400] the f-string raises
    [OverflowError], so [format_percentage] is not total on ints. *)
Lemma format_percentage_overflow :
  format_percentage (PyInt (10 ^ 400))
  = Raises (OverflowError "int too large to convert to float").
Proof. vm_compute. reflexivity. Qed.

(** The largest int that still converts, and the first that does not. *)
Example fits_float_boundary :
  fits_float (2 ^ 1024 - 2 ^ 970 - 1) = true /\
  fits_float (2 ^ 1024 - 2 ^ 970) = false /\
  fits_float (- (2 ^ 1024 - 2 ^ 970)) = false.
Proof. repeat split; vm_compute; reflexivity. Qed.

(** Every cell of a year-over-year table formats: the cells are floats and
    [pd.NA], never ints. *)
Lemma format_change_table_returns df :
  exists t, map_frame (fun c => format_percentage (of_cell c)) (calculate_yoy_change df)
            = Returns t.
Proof.
  unfold map_frame.
  assert (forall cells : list cell,
            exists ss, traverse (fun c => format_percentage (of_cell c)) cells = Returns ss)
    as Hrow.
  { induction cells as [|c cells [ss IH]]; [by exists []|]. cbn.
    assert (exists s, format_percentage (of_cell c) = Returns s) as [s ->].
    { destruct c as [f|]; [|by exists "NaN"].
      unfold format_percentage. cbn.
      destruct (flt (S754_zero false) f), (flt f (S754_zero false)); by eexists. }
    cbn. rewrite IH. cbn. by eexists. }
  assert (forall rows : list (list cell),
            exists vs, traverse (traverse (fun c => format_percentage (of_cell c))) rows
                       = Returns vs) as Hrows.
  { induction rows as [|row rows [vs IH]]; [by exists []|]. cbn.
    destruct (Hrow row) as [ss ->]. cbn. rewrite IH. cbn. by eexists. }
  destruct (Hrows (df_values (calculate_yoy_change df))) as [vs ->]. cbn. by eexists.
Qed.

(** ** Positions *)

Lemma index_where_from_S {A} (p : A -> bool) k l :
  index_where_from p (S k) l = S <$> index_where_from p k l.
Proof.
  revert k. induction l as [|a l IH]; intros k; [done|].
  cbn. destruct (p a); cbn; by rewrite IH.
Qed.

Lemma index_where_cons {A} (p : A -> bool) a l :
  index_where p (a :: l) =
    if p a then 0%nat :: (S <$> index_where p l) else S <$> index_where p l.
Proof. unfold index_where. cbn. by rewrite index_where_from_S. Qed.

Lemma index_where_nil {A} (p : A -> bool) : index_where p [] = [].
Proof. done. Qed.

Lemma elem_of_index_where {A} (p : A -> bool) l i :
  i ∈ index_where p l <-> exists x, l !! i = Some x /\ p x = true.
Proof.
  revert i. induction l as [|a l IH]; intros i.
  - rewrite index_where_nil. split; [by intros ?%elem_of_nil|by intros (? & ? & _)].
  - rewrite index_where_cons. split.
    + intros Hin. destruct (p a) eqn:Hpa.
      * apply elem_of_cons in Hin as [->|Hin]; [by exists a|].
        apply list_elem_of_fmap in Hin as (j & -> & Hj). by apply IH in Hj.
      * apply list_elem_of_fmap in Hin as (j & -> & Hj). by apply IH in Hj.
    + intros (x & Hx & Hpx). destruct i as [|i].
      * cbn in Hx. injection Hx as ->. rewrite Hpx. left.
      * assert (S i ∈ S <$> index_where p l).
        { apply list_elem_of_fmap. exists i. split; [done|]. apply IH. by exists x. }
        destruct (p a); [by right|done].
Qed.

Lemma omap_fmap {A B C} (f : B -> option C) (g : A -> B) (l : list A) :
  omap f (g <$> l) = omap (fun a => f (g a)) l.
Proof. induction l as [|a l IH]; [done|]. cbn. by rewrite IH. Qed.

Lemma index_where_lookup {A} (p : A -> bool) l :
  omap (fun i => l !! i) (index_where p l) = filter (fun x => p x = true) l.
Proof.
  induction l as [|a l IH]; [done|].
  rewrite index_where_cons, filter_cons.
  assert (omap (fun i => (a :: l) !! i) (S <$> index_where p l)
          = filter (fun x => p x = true) l) as Hs.
  { rewrite <- IH. by rewrite omap_fmap. }
  destruct (p a); cbn [omap list_omap]; cbn; rewrite ?Hs; case_decide; done.
Qed.

Lemma index_where_partition {A} (p : A -> bool) l :
  index_where p l ++ index_where (fun x => negb (p x)) l ≡ₚ seq 0 (length l).
Proof.
  induction l as [|a l IH]; [done|].
  rewrite !index_where_cons. cbn [length]. rewrite <- cons_seq, <- fmap_S_seq, <- IH.
  rewrite fmap_app. destruct (p a); cbn; [done|].
  by rewrite <- Permutation_middle.
Qed.

Lemma index_where_sorted {A} (p : A -> bool) l :
  StronglySorted lt (index_where p l).
Proof.
  induction l as [|a l IH]; [constructor|].
  rewrite index_where_cons.
  assert (StronglySorted lt (S <$> index_where p l)) as Hs.
  { clear -IH. induction IH as [|i I _ IH Hall]; cbn; constructor; [done|].
    apply Forall_fmap. eapply Forall_impl; [done|]. cbn. lia. }
  destruct (p a); [|done]. constructor; [done|].
  apply Forall_fmap, Forall_forall. cbn. lia.
Qed.

Lemma seq_lookup_default (J : list nat) :
  (fun k => default 0%nat (J !! k)) <$> seq 0 (length J) = J.
Proof.
  apply list_eq. intros i. rewrite list_lookup_fmap.
  destruct (J !! i) as [j|] eqn:Hj.
  - rewrite lookup_seq_lt by (by eapply lookup_lt_Some). cbn. by rewrite Hj.
  - rewrite lookup_seq_ge by (by apply lookup_ge_None). done.
Qed.

(** ** nargsort *)

#[global] Instance ascending_le_trans : Transitive ascending_le.
Proof. intros x y z. apply fle_trans. Qed.

#[global] Instance by_item_trans v : Transitive (by_item v).
Proof. intros i j k. apply fle_trans. Qed.

Lemma StronglySorted_reverse {A} (R : relation A) l :
  StronglySorted R l -> StronglySorted (flip R) (reverse l).
Proof.
  induction 1 as [|x l Hl IH Hall]; [constructor|].
  rewrite reverse_cons. apply StronglySorted_app_2; [|done|repeat constructor].
  intros x1 x2 Hx1 ->%list_elem_of_singleton. unfold flip.
  rewrite Forall_forall in Hall. apply Hall. by apply elem_of_reverse.
Qed.

Lemma item_lookup v i x : v !! i = Some x -> item v i = x.
Proof. unfold item. by intros ->. Qed.

Lemma item_not_nan v i : isnan (item v i) = false -> v !! i = Some (item v i).
Proof. unfold item. destruct (v !! i); [done|]. done. Qed.

Lemma item_fmap_omap v J :
  Forall (fun i => is_Some (v !! i)) J -> item v <$> J = omap (fun i => v !! i) J.
Proof.
  induction 1 as [|i J [x Hx] _ IH]; [done|].
  cbn. rewrite Hx, (item_lookup _ _ _ Hx), IH. done.
Qed.

Lemma non_nans_items v :
  filter (fun x => isnan x = false) v
  = item v <$> index_where (fun x => negb (isnan x)) v.
Proof.
  rewrite item_fmap_omap.
  - rewrite index_where_lookup. apply list_filter_iff. intros x.
    by destruct (isnan x).
  - apply Forall_forall. intros i (x & Hx & _)%elem_of_index_where. by exists x.
Qed.

Section nargsort_properties.
Context `{Quicksort}.

Lemma sorted_positions_perm J W :
  length W = length J -> sorted_positions J W ≡ₚ J.
Proof.
  intros Hlen. unfold sorted_positions.
  rewrite argsort_permutation, Hlen. by rewrite seq_lookup_default.
Qed.

Lemma sorted_positions_sorted v J W :
  W = item v <$> J -> Forall (fun x => isnan x = false) W ->
  Sorted (by_item v) (sorted_positions J W).
Proof.
  intros HW Hnan. unfold sorted_positions.
  eapply Sorted_fmap; [|by apply argsort_sorted].
  intros a b Hab. unfold by_item. subst W.
  destruct (fle_not_nan _ _ Hab) as [Ha Hb].
  apply item_not_nan in Ha, Hb.
  rewrite list_lookup_fmap in Ha, Hb.
  destruct (J !! a) as [ja|]; [|done].
  destruct (J !! b) as [jb|]; [|done].
  injection Ha as Ha. injection Hb as Hb.
  change (fle (item v ja) (item v jb) = true). by rewrite Ha, Hb.
Qed.

Lemma nargsort_unfold v ascending :
  nargsort v ascending =
    (if ascending
     then sorted_positions (index_where (fun x => negb (isnan x)) v)
                           (filter (fun x => isnan x = false) v)
     else reverse (sorted_positions
                     (reverse (index_where (fun x => negb (isnan x)) v))
                     (reverse (filter (fun x => isnan x = false) v))))
    ++ index_where isnan v.
Proof. unfold nargsort, sorted_positions. by destruct ascending. Qed.

Lemma non_nans_Forall v : Forall (fun x => isnan x = false) (filter (fun x => isnan x = false) v).
Proof. apply Forall_forall. by intros x [? _]%list_elem_of_filter. Qed.

(** The indexer: the positions of the defined items, ordered by item in
    the direction asked for, then the positions of the missing items. *)
Lemma nargsort_spec v ascending :
  exists body,
    nargsort v ascending = body ++ index_where isnan v /\
    body ≡ₚ index_where (fun x => negb (isnan x)) v /\
    StronglySorted (direction_le ascending) (item v <$> body).
Proof.
  rewrite nargsort_unfold.
  set (J := index_where (fun x => negb (isnan x)) v).
  set (W := filter (fun x => isnan x = false) v).
  assert (W = item v <$> J) as HW by apply non_nans_items.
  assert (length W = length J) as Hlen by (by rewrite HW, length_fmap).
  destruct ascending; eexists; (split; [reflexivity|]); split.
  - by apply sorted_positions_perm.
  - apply Sorted_StronglySorted; [apply _|].
    eapply Sorted_fmap; [|by apply (sorted_positions_sorted v J W), non_nans_Forall].
    done.
  - rewrite reverse_Permutation, sorted_positions_perm, reverse_Permutation; [done|].
    by rewrite !length_reverse.
  - rewrite fmap_reverse.
    apply (StronglySorted_reverse ascending_le).
    apply Sorted_StronglySorted; [apply _|].
    eapply Sorted_fmap;
      [|apply (sorted_positions_sorted v (reverse J) (reverse W))].
    + done.
    + by rewrite HW, fmap_reverse.
    + apply Forall_reverse, non_nans_Forall.
Qed.

Lemma nargsort_permutation v ascending :
  nargsort v ascending ≡ₚ seq 0 (length v).
Proof.
  destruct (nargsort_spec v ascending) as (body & -> & Hperm & _).
  rewrite Hperm, <- (index_where_partition isnan v).
  apply Permutation_app_comm.
Qed.
End nargsort_properties.

(** ** Dictionary keys *)

Lemma list_ascii_of_string_app s1 s2 :
  list_ascii_of_string (s1 +:+ s2) = list_ascii_of_string s1 ++ list_ascii_of_string s2.
Proof. induction s1 as [|a s1 IH]; [done|]. simpl. by f_equal. Qed.

Lemma append_inj_suffix s1 s2 t : s1 +:+ t = s2 +:+ t -> s1 = s2.
Proof.
  intros Heq. apply (f_equal list_ascii_of_string) in Heq.
  rewrite !list_ascii_of_string_app in Heq. apply app_inv_tail in Heq.
  apply (f_equal string_of_list_ascii) in Heq.
  by rewrite !string_of_list_ascii_of_string in Heq.
Qed.

Lemma asc_key_inj y1 y2 : asc_key y1 = asc_key y2 -> label_str y1 = label_str y2.
Proof. apply append_inj_suffix. Qed.

Lemma desc_key_inj y1 y2 : desc_key y1 = desc_key y2 -> label_str y1 = label_str y2.
Proof. apply append_inj_suffix. Qed.

Lemma asc_key_desc_key y1 y2 : asc_key y1 <> desc_key y2.
Proof.
  unfold asc_key, desc_key. intros Heq.
  apply (f_equal list_ascii_of_string) in Heq.
  rewrite !list_ascii_of_string_app in Heq.
  change (list_ascii_of_string "_desc")
    with (list_ascii_of_string "_" ++ list_ascii_of_string "desc") in Heq.
  rewrite (assoc_L (++)) in Heq.
  apply app_inj_2 in Heq as [_ Heq]; [discriminate|done].
Qed.

(** ** The loop *)

Lemma for_each_inv {A S} (body : A -> S -> outcome S) (P : list A -> S -> Prop) l s s' :
  P [] s ->
  (forall pre a s1 s2, P pre s1 -> body a s1 = Returns s2 -> P (pre ++ [a]) s2) ->
  for_each body l s = Returns s' -> P l s'.
Proof.
  intros Hinit Hstep.
  enough (forall pre s, P pre s -> for_each body l s = Returns s' -> P (pre ++ l) s')
    as Hgen by (intros Hrun; by apply (Hgen [] s)).
  clear s Hinit. induction l as [|a l IH]; intros pre s Hpre Hrun.
  - cbn in Hrun. injection Hrun as <-. by rewrite app_nil_r.
  - cbn in Hrun. destruct (body a s) as [s1|e|] eqn:Hbody; [|done..].
    cbn in Hrun. rewrite (cons_middle a pre l), (assoc_L (++)).
    eapply IH; [|done]. by eapply Hstep.
Qed.

Lemma for_each_ext {A S} (f g : A -> S -> outcome S) l s :
  (forall a s, f a s = g a s) -> for_each f l s = for_each g l s.
Proof.
  intros Hfg. revert s. induction l as [|a l IH]; intros s; [done|].
  cbn. rewrite Hfg. destruct (g a s); cbn; [apply IH|done..].
Qed.

Section loop_body.
Context `{Quicksort}.

(** Both branches of [sort_yearly_budgets] are the factored loop. *)
Lemma sort_yearly_budgets_loop budget_data :
  sort_yearly_budgets budget_data
  = for_each (iteration budget_data) (years (df_columns budget_data)) ∅.
Proof.
  unfold sort_yearly_budgets, iteration, year_slice.
  destruct (df_columns budget_data) as [ls|ts]; cbn [years];
    apply for_each_ext; intros year m; [done|].
  by destruct ts as [|[[c0 ?] ?] ts].
Qed.

(** What one iteration does when it completes. *)
Lemma iteration_returns budget_data year m m' :
  iteration budget_data year m = Returns m' ->
  exists year_data by_ asc desc,
    year_slice budget_data year = Returns (year_data, by_) /\
    sort_values year_data by_ true = Returns asc /\
    sort_values year_data by_ false = Returns desc /\
    m' = <[desc_key year := desc]> (<[asc_key year := asc]> m).
Proof.
  unfold iteration.
  destruct (year_slice budget_data year) as [[year_data by_]|e|] eqn:Hs; [|done..].
  cbn. unfold sort_year.
  destruct (sort_values year_data by_ true) as [asc|e|] eqn:Ha; [|done..]. cbn.
  destruct (sort_values year_data by_ false) as [desc|e|] eqn:Hd; [|done..]. cbn.
  intros [= <-]. by exists year_data, by_, asc, desc.
Qed.
End loop_body.

Section dictionary.
Context `{Quicksort}.

(** Every entry of the result is the ordering of some year of the table. *)
Lemma sort_yearly_budgets_entry budget_data m k t :
  sort_yearly_budgets budget_data = Returns m -> m !! k = Some t ->
  exists year ascending,
    year ∈ years (df_columns budget_data) /\
    k = direction_key ascending year /\
    ordering_of budget_data year ascending t.
Proof.
  intros Hrun. revert k t. rewrite sort_yearly_budgets_loop in Hrun.
  refine (for_each_inv _ (fun ys m => forall k t, m !! k = Some t ->
            exists year ascending, year ∈ ys /\ k = direction_key ascending year /\
              ordering_of budget_data year ascending t) _ _ _ _ _ Hrun).
  - intros k t. by rewrite lookup_empty.
  - intros pre year m1 m2 IH Hstep k t Hk.
    apply iteration_returns in Hstep as (yd & by_ & asc & desc & Hs & Ha & Hd & ->).
    destruct (decide (k = desc_key year)) as [->|Hnd].
    { rewrite lookup_insert_eq in Hk. injection Hk as <-.
      exists year, false. split; [set_solver|]. split; [done|]. by exists yd, by_. }
    rewrite lookup_insert_ne in Hk by done.
    destruct (decide (k = asc_key year)) as [->|Hna].
    { rewrite lookup_insert_eq in Hk. injection Hk as <-.
      exists year, true. split; [set_solver|]. split; [done|]. by exists yd, by_. }
    rewrite lookup_insert_ne in Hk by done.
    destruct (IH k t Hk) as (y & a & Hy & -> & Ho).
    exists y, a. split; [set_solver|]. done.
Qed.

(** Every year of the table has its two entries. *)
Lemma sort_yearly_budgets_has_keys budget_data m year :
  sort_yearly_budgets budget_data = Returns m ->
  year ∈ years (df_columns budget_data) ->
  is_Some (m !! asc_key year) /\ is_Some (m !! desc_key year).
Proof.
  intros Hrun. revert year. rewrite sort_yearly_budgets_loop in Hrun.
  refine (for_each_inv _ (fun ys m => forall year, year ∈ ys ->
            is_Some (m !! asc_key year) /\ is_Some (m !! desc_key year))
            _ _ _ _ _ Hrun).
  - intros year ?%elem_of_nil. done.
  - intros pre year m1 m2 IH Hstep y Hy.
    apply iteration_returns in Hstep as (yd & by_ & asc & desc & Hs & Ha & Hd & ->).
    rewrite !lookup_insert_is_Some'.
    apply elem_of_app in Hy as [Hy| ->%list_elem_of_singleton].
    + destruct (IH y Hy) as [Ha' Hd']. split; right; right; done.
    + split; [right; left|left]; done.
Qed.

(** The two entries under the keys of one year come from the same year. *)
Lemma sort_yearly_budgets_pair budget_data m s asc desc :
  sort_yearly_budgets budget_data = Returns m ->
  m !! (s +:+ "_asc") = Some asc -> m !! (s +:+ "_desc") = Some desc ->
  exists year,
    year ∈ years (df_columns budget_data) /\ label_str year = s /\
    ordering_of budget_data year true asc /\
    ordering_of budget_data year false desc.
Proof.
  intros Hrun Ha Hd. rewrite sort_yearly_budgets_loop in Hrun.
  enough (forall s,
            (m !! (s +:+ "_asc") = None /\ m !! (s +:+ "_desc") = None) \/
            exists year asc desc, year ∈ years (df_columns budget_data) /\
              label_str year = s /\
              m !! (s +:+ "_asc") = Some asc /\ m !! (s +:+ "_desc") = Some desc /\
              ordering_of budget_data year true asc /\
              ordering_of budget_data year false desc) as Hinv.
  { destruct (Hinv s) as [[Hn _]|(year & a & d & Hy & Hs & Ha' & Hd' & Hoa & Hod)];
      [congruence|].
    exists year. rewrite Ha in Ha'. rewrite Hd in Hd'.
    injection Ha' as <-. injection Hd' as <-. done. }
  clear s asc desc Ha Hd.
  refine (for_each_inv _ (fun ys m => forall s,
            (m !! (s +:+ "_asc") = None /\ m !! (s +:+ "_desc") = None) \/
            exists year asc desc, year ∈ ys /\ label_str year = s /\
              m !! (s +:+ "_asc") = Some asc /\ m !! (s +:+ "_desc") = Some desc /\
              ordering_of budget_data year true asc /\
              ordering_of budget_data year false desc) _ _ _ _ _ Hrun).
  - intros s. left. by rewrite !lookup_empty.
  - intros pre year m1 m2 IH Hstep s.
    apply iteration_returns in Hstep as (yd & by_ & asc & desc & Hs & Ha & Hd & ->).
    destruct (decide (label_str year = s)) as [<-|Hne].
    + right. exists year, asc, desc. split; [set_solver|]. split; [done|].
      change (label_str year +:+ "_asc") with (asc_key year).
      change (label_str year +:+ "_desc") with (desc_key year).
      rewrite lookup_insert_eq.
      rewrite lookup_insert_ne by (intros Heq; by apply (asc_key_desc_key year year)).
      rewrite lookup_insert_eq.
      repeat split; try done; by exists yd, by_.
    + assert (desc_key year <> s +:+ "_asc") as H1.
      { intros Heq. symmetry in Heq. by apply (asc_key_desc_key (LStr s) year). }
      assert (asc_key year <> s +:+ "_asc") as H2.
      { intros Heq%append_inj_suffix. done. }
      assert (desc_key year <> s +:+ "_desc") as H3.
      { intros Heq%append_inj_suffix. done. }
      assert (asc_key year <> s +:+ "_desc") as H4.
      { intros Heq. by apply (asc_key_desc_key year (LStr s)). }
      rewrite !lookup_insert_ne by done.
      destruct (IH s) as [?|(y & a & d & Hy & ? & ? & ? & ? & ?)]; [by left|].
      right. exists y, a, d. split; [set_solver|]. done.
Qed.
End dictionary.

Lemma omap_reverse {A B} (f : A -> option B) l :
  omap f (reverse l) = reverse (omap f l).
Proof.
  induction l as [|a l IH]; [done|].
  rewrite reverse_cons, omap_app, IH. cbn [omap list_omap].
  destruct (f a); [by rewrite reverse_cons|by rewrite app_nil_r].
Qed.

Lemma omap_lookup_seq {A} (l : list A) :
  omap (fun i => l !! i) (seq 0 (length l)) = l.
Proof.
  induction l as [|a l IH]; [done|].
  cbn [length]. rewrite <- cons_seq, <- fmap_S_seq.
  cbn [omap list_omap]. change ((a :: l) !! 0%nat) with (Some a). cbn beta iota.
  f_equal. rewrite omap_fmap. exact IH.
Qed.

Lemma index_where_none {A} (p : A -> bool) l :
  Forall (fun x => p x = false) l -> index_where p l = [].
Proof.
  induction 1 as [|a l Ha _ IH]; [done|].
  by rewrite index_where_cons, Ha, IH.
Qed.

Section reversal.
Context `{Quicksort}.

Lemma nargsort_reverse v :
  Forall (fun x => isnan x = false) v -> pairwise_distinct v ->
  nargsort v true = reverse (nargsort v false).
Proof.
  intros Hnan Hdist. rewrite !nargsort_unfold.
  rewrite (index_where_none isnan v Hnan), !app_nil_r, reverse_involutive.
  set (J := index_where (fun x => negb (isnan x)) v).
  set (W := filter (fun x => isnan x = false) v).
  assert (W = item v <$> J) as HW by apply non_nans_items.
  assert (length W = length J) as Hlen by (by rewrite HW, length_fmap).
  apply (Sorted_unique_strong (by_item v)).
  - intros i j Hi Hj Hij Hji. destruct (decide (i = j)) as [|Hne]; [done|].
    rewrite sorted_positions_perm in Hi by done.
    rewrite sorted_positions_perm, elem_of_reverse in Hj
      by (by rewrite !length_reverse).
    apply elem_of_index_where in Hi as (x & Hx & _).
    apply elem_of_index_where in Hj as (y & Hy & _).
    pose proof (fle_antisym _ _ Hij Hji) as Heq.
    rewrite (item_lookup _ _ _ Hx), (item_lookup _ _ _ Hy) in Heq.
    by rewrite (Hdist i j x y Hne Hx Hy) in Heq.
  - apply sorted_positions_sorted; [done|apply non_nans_Forall].
  - apply sorted_positions_sorted.
    + by rewrite HW, fmap_reverse.
    + apply Forall_reverse, non_nans_Forall.
  - rewrite !sorted_positions_perm; [by rewrite reverse_Permutation|..];
      by rewrite ?length_reverse.
Qed.

Lemma sort_values_returns df by_ ascending t :
  sort_values df by_ ascending = Returns t ->
  exists j, resolve_by (df_columns df) by_ = Returns j /\
            t = take_rows (nargsort (column j df) ascending) df.
Proof.
  unfold sort_values. destruct (resolve_by _ _) as [j|e|]; [|done..].
  cbn. intros [= <-]. by exists j.
Qed.

Lemma take_rows_reverse {C} I (df : DataFrame C) :
  df_index (take_rows (reverse I) df) = reverse (df_index (take_rows I df)) /\
  df_values (take_rows (reverse I) df) = reverse (df_values (take_rows I df)).
Proof. cbn. by rewrite !omap_reverse. Qed.

Lemma length_column j df : length (column j df) = length (df_values df).
Proof. unfold column. by rewrite length_fmap. Qed.

Lemma take_rows_perm df I j :
  rectangular df -> I ≡ₚ seq 0 (length (column j df)) ->
  df_index (take_rows I df) ≡ₚ df_index df /\
  df_values (take_rows I df) ≡ₚ df_values df.
Proof.
  intros [Hlen _] HI. rewrite length_column in HI. cbn. rewrite !HI. split.
  - rewrite Hlen. by rewrite omap_lookup_seq.
  - by rewrite omap_lookup_seq.
Qed.
End reversal.

(** The slice of a year keeps the rows of the table. *)
Lemma year_slice_rows budget_data year year_data by_ :
  year_slice budget_data year = Returns (year_data, by_) ->
  df_index year_data = df_index budget_data /\
  length (df_values year_data) = length (df_values budget_data).
Proof.
  unfold year_slice. destruct (df_columns budget_data) as [ls|ts].
  - intros [= <- _]. cbn. by rewrite length_fmap.
  - destruct ts as [|[[c0 ?] ?] ts]; [done|]. intros [= <- _]. cbn.
    by rewrite length_fmap.
Qed.

Lemma SFeqb_sym x y : SFeqb x y = SFeqb y x.
Proof.
  unfold SFeqb. rewrite (SFcompare_swap y x).
  destruct (SFcompare y x) as [[]|]; done.
Qed.

Lemma all_defined_Forall v : all_defined v = true -> Forall (fun x => isnan x = false) v.
Proof.
  unfold all_defined. rewrite forallb_forall. intros Hall.
  apply Forall_forall. intros x Hx%list_elem_of_In. apply Hall in Hx.
  by destruct (isnan x).
Qed.

Lemma all_distinct_pairwise v : all_distinct v = true -> pairwise_distinct v.
Proof.
  induction v as [|a v IH]; [by intros _ i j x y _ ?|].
  cbn [all_distinct]. intros [Ha Hv]%andb_true_iff.
  rewrite forallb_forall in Ha.
  assert (forall y, y ∈ v -> SFeqb a y = false) as Ha'.
  { intros y Hy%list_elem_of_In. apply Ha in Hy. by destruct (SFeqb a y). }
  intros [|i] [|j] x y Hne Hx Hy; [done| | |].
  - cbn in Hx. injection Hx as <-. apply Ha'. by eapply list_elem_of_lookup_2.
  - cbn in Hy. injection Hy as <-. rewrite SFeqb_sym. apply Ha'.
    by eapply list_elem_of_lookup_2.
  - apply (IH Hv i j); [lia|done..].
Qed.

Section orderings.
Context `{Quicksort}.

Lemma ordering_of_spec budget_data year ascending t :
  ordering_of budget_data year ascending t ->
  exists year_data by_ j,
    year_slice budget_data year = Returns (year_data, by_) /\
    resolve_by (df_columns year_data) by_ = Returns j /\
    sort_key_amounts budget_data year = column j year_data /\
    t = take_rows (nargsort (column j year_data) ascending) year_data.
Proof.
  intros (yd & by_ & Hs & Hsort).
  apply sort_values_returns in Hsort as (j & Hj & ->).
  exists yd, by_, j. unfold sort_key_amounts. by rewrite Hs, Hj.
Qed.

(** C3, amended: every ordering [sort_yearly_budgets] produces is the
    year's slice with its rows rearranged: first the rows whose amount is
    defined, in non-decreasing ([_asc]) or non-increasing ([_desc]) order of
    amount, then the rows whose amount is undefined, in table order.  The
    order among rows with equal amounts is left to the library's sort. *)
Theorem orderings_sorted_undefined_last budget_data m k t :
  sort_yearly_budgets budget_data = Returns m -> m !! k = Some t ->
  exists year ascending year_data by_ body,
    year ∈ years (df_columns budget_data) /\
    k = direction_key ascending year /\
    year_slice budget_data year = Returns (year_data, by_) /\
    t = take_rows (body ++ index_where isnan (sort_key_amounts budget_data year))
                  year_data /\
    body ≡ₚ index_where (fun x => negb (isnan x)) (sort_key_amounts budget_data year) /\
    StronglySorted (direction_le ascending)
                   (item (sort_key_amounts budget_data year) <$> body).
Proof.
  intros Hrun Hk.
  destruct (sort_yearly_budgets_entry _ _ _ _ Hrun Hk) as (year & asc & Hy & -> & Ho).
  apply ordering_of_spec in Ho as (yd & by_ & j & Hs & Hj & Hamt & ->).
  destruct (nargsort_spec (column j yd) asc) as (body & Hbody & Hperm & Hsorted).
  exists year, asc, yd, by_, body. rewrite Hamt, <- Hbody. done.
Qed.

(** C4, amended: when the years of the table have distinct renderings and
    the amounts of [year] are all defined and pairwise different, the
    ascending and the descending ordering of [year] are each other's
    reverse. *)
Theorem asc_desc_reverse_when_distinct budget_data m year asc desc :
  sort_yearly_budgets budget_data = Returns m ->
  year ∈ years (df_columns budget_data) ->
  NoDup (label_str <$> years (df_columns budget_data)) ->
  all_defined (sort_key_amounts budget_data year) = true ->
  all_distinct (sort_key_amounts budget_data year) = true ->
  m !! asc_key year = Some asc -> m !! desc_key year = Some desc ->
  df_index asc = reverse (df_index desc) /\
  df_columns asc = df_columns desc /\
  df_values asc = reverse (df_values desc).
Proof.
  intros Hrun Hy Hnodup Hdef Hdist Ha Hd.
  destruct (sort_yearly_budgets_pair _ _ _ _ _ Hrun Ha Hd) as (y & Hy' & Hstr & Hoa & Hod).
  assert (y = year) as ->.
  { apply list_elem_of_lookup in Hy as [i Hi], Hy' as [i' Hi'].
    assert (i' = i) as ->; [|congruence].
    eapply NoDup_lookup; [done|by rewrite list_lookup_fmap, Hi'|].
    by rewrite list_lookup_fmap, Hi, Hstr. }
  apply ordering_of_spec in Hoa as (yd & by_ & j & Hs & Hj & Hamt & ->).
  apply ordering_of_spec in Hod as (yd' & by_' & j' & Hs' & Hj' & _ & ->).
  rewrite Hs in Hs'. injection Hs' as <- <-. rewrite Hj in Hj'. injection Hj' as <-.
  rewrite Hamt in Hdef, Hdist.
  rewrite (nargsort_reverse (column j yd)
             (all_defined_Forall _ Hdef) (all_distinct_pairwise _ Hdist)).
  destruct (take_rows_reverse (nargsort (column j yd) false) yd) as [-> ->]. done.
Qed.

Lemma orderings_keep_the_rows budget_data m k t :
  rectangular budget_data ->
  sort_yearly_budgets budget_data = Returns m -> m !! k = Some t ->
  df_index t ≡ₚ df_index budget_data /\
  length (df_values t) = length (df_values budget_data).
Proof.
  intros Hrect Hrun Hk.
  destruct (sort_yearly_budgets_entry _ _ _ _ Hrun Hk) as (year & asc & Hy & -> & Ho).
  apply ordering_of_spec in Ho as (yd & by_ & j & Hs & Hj & Hamt & ->).
  apply year_slice_rows in Hs as [Hidx Hlen].
  assert (rectangular_rows : length (df_values yd) = length (df_index yd)).
  { rewrite Hidx, Hlen. apply Hrect. }
  pose proof (nargsort_permutation (column j yd) asc) as Hperm.
  rewrite length_column in Hperm. cbn. split.
  - rewrite Hperm, rectangular_rows, omap_lookup_seq, Hidx. done.
  - rewrite <- Hlen. apply Permutation_length.
    rewrite Hperm, omap_lookup_seq. done.
Qed.
End orderings.

Example scenario_pivot :
  aggregate scenario_records ["Ministry"] ["Year"] "Amount" = Returns scenario_table.
Proof. vm_compute. reflexivity. Qed.

Example two_key_pivot :
  aggregate two_key_records ["Ministry"] ["Agency"; "Year"] "Amount"
  = Returns two_level_table.
Proof. vm_compute. reflexivity. Qed.

Section two_level.
Context `{Quicksort}.

(** C5 fails on a two-level table: the sort key is
    [(budget_data.columns[0][0], year)], and for year 2025 of this table no
    column [("a", 2025)] exists, so the call raises [KeyError] and returns no
    dictionary at all. *)
Theorem missing_sort_column_raises :
  sort_yearly_budgets two_level_table = Raises (KeyError [LStr "a"; LInt 2025]).
Proof. reflexivity. Qed.
End two_level.

(** The orderings of four ministries with the amounts 0, 0, 1, 1, with the
    positions numpy's vectorised quicksort returns for [1, 1, 0, 0]: the
    ascending ordering keeps the table's order, the descending one is D, C,
    B, A. *)
Example orderings_of_table_with_ties :
  let m := returned ∅ (@sort_yearly_budgets reversing_sort table_with_ties) in
  (df_index <$> m !! "2024_asc")
  = Some [ministry "A"; ministry "B"; ministry "C"; ministry "D"] /\
  (df_index <$> m !! "2024_desc")
  = Some [ministry "D"; ministry "C"; ministry "B"; ministry "A"].
Proof. split; vm_compute; reflexivity. Qed.

(** C3 as stated fails: in the descending ordering of four ministries with
    the amounts 0, 0, 1, 1 the rows come out as D, C, B, A, so that
    neither pair of equal amounts is in the order of the table.  The sort
    is the library's default, [kind="quicksort"], which keeps no promise
    about equal items. *)
Lemma ties_reordered :
  ~ (forall (H : Quicksort) budget_data m year ascending t,
       rectangular budget_data -> NoDup (df_index budget_data) ->
       sort_yearly_budgets budget_data = Returns m ->
       m !! direction_key ascending year = Some t ->
       ties_in_table_order (df_index budget_data)
         (zip (df_index t) (sort_key_amounts t year)) = true).
Proof.
  intros claim.
  specialize (claim reversing_sort table_with_ties
                (returned ∅ (@sort_yearly_budgets reversing_sort table_with_ties))
                (LInt 2024) false
                (mkDataFrame [ministry "D"; ministry "C"; ministry "B"; ministry "A"]
                             (Index [LInt 2024]) [[Z2F 1]; [Z2F 1]; [Z2F 0]; [Z2F 0]])).
  assert (rectangular table_with_ties) as Hrect.
  { split; [reflexivity|]. vm_compute. repeat constructor. }
  assert (NoDup (df_index table_with_ties)) as Hnd by (vm_compute; compute_done).
  specialize (claim Hrect Hnd).
  discriminate claim; vm_compute; reflexivity.
Qed.

(** C3, amended, at the ["2024_desc"] ordering of the specification's scenario. *)
Lemma orderings_sorted_witness :
  exists year ascending year_data by_ body,
    year ∈ years (df_columns scenario_table) /\
    "2024_desc" = direction_key ascending year /\
    year_slice scenario_table year = Returns (year_data, by_) /\
    mkDataFrame [ministry "B"; ministry "A"] (Index [LInt 2024]) [[Z2F 200]; [Z2F 100]]
    = take_rows (body ++ index_where isnan (sort_key_amounts scenario_table year))
                year_data /\
    body ≡ₚ index_where (fun x => negb (isnan x)) (sort_key_amounts scenario_table year) /\
    StronglySorted (direction_le ascending)
                   (item (sort_key_amounts scenario_table year) <$> body).
Proof.
  apply (orderings_sorted_undefined_last (H := stable_sort) scenario_table
           (returned ∅ (@sort_yearly_budgets stable_sort scenario_table)));
    vm_compute; reflexivity.
Defined.

(** C4 as stated fails: rows with an undefined amount come last in both
    orderings, so the orderings of a year with a missing amount are not
    each other's reverse. *)
Lemma not_reverses_with_undefined :
  ~ (forall (H : Quicksort) budget_data m year asc desc,
       rectangular budget_data -> NoDup (df_index budget_data) ->
       sort_yearly_budgets budget_data = Returns m ->
       m !! asc_key year = Some asc -> m !! desc_key year = Some desc ->
       df_index asc = reverse (df_index desc)).
Proof.
  intros claim.
  specialize (claim stable_sort table_with_gap
                (returned ∅ (@sort_yearly_budgets stable_sort table_with_gap))
                (LInt 2024)
                (mkDataFrame [ministry "A"; ministry "C"; ministry "B"]
                             (Index [LInt 2024]) [[Z2F 1]; [Z2F 2]; [nan]])
                (mkDataFrame [ministry "C"; ministry "A"; ministry "B"]
                             (Index [LInt 2024]) [[Z2F 2]; [Z2F 1]; [nan]])).
  assert (rectangular table_with_gap) as Hrect.
  { split; [reflexivity|]. vm_compute. repeat constructor. }
  assert (NoDup (df_index table_with_gap)) as Hnd by (vm_compute; compute_done).
  specialize (claim Hrect Hnd).
  discriminate claim; vm_compute; reflexivity.
Qed.

(** With equal amounts and a sort that keeps ties in order, the two
    orderings are the same list, not each other's reverse. *)
Example ties_same_in_both_directions :
  let m := returned ∅ (@sort_yearly_budgets stable_sort tied_table) in
  (df_index <$> m !! "2024_asc") = Some (df_index tied_table) /\
  (df_index <$> m !! "2024_desc") = Some (df_index tied_table).
Proof. split; vm_compute; reflexivity. Qed.

(** C4, amended, at year 2024 of the specification's scenario. *)
Lemma asc_desc_reverse_witness :
  df_index (mkDataFrame [ministry "A"; ministry "B"] (Index [LInt 2024])
                        [[Z2F 100]; [Z2F 200]])
  = reverse (df_index (mkDataFrame [ministry "B"; ministry "A"] (Index [LInt 2024])
                                   [[Z2F 200]; [Z2F 100]])) /\
  df_columns (mkDataFrame [ministry "A"; ministry "B"] (Index [LInt 2024])
                          [[Z2F 100]; [Z2F 200]])
  = df_columns (mkDataFrame [ministry "B"; ministry "A"] (Index [LInt 2024])
                            [[Z2F 200]; [Z2F 100]]) /\
  df_values (mkDataFrame [ministry "A"; ministry "B"] (Index [LInt 2024])
                         [[Z2F 100]; [Z2F 200]])
  = reverse (df_values (mkDataFrame [ministry "B"; ministry "A"] (Index [LInt 2024])
                                    [[Z2F 200]; [Z2F 100]])).
Proof.
  apply (asc_desc_reverse_when_distinct (H := stable_sort) scenario_table
           (returned ∅ (@sort_yearly_budgets stable_sort scenario_table)) (LInt 2024)).
  - vm_compute. reflexivity.
  - compute_done.
  - compute_done.
  - vm_compute. reflexivity.
  - vm_compute. reflexivity.
  - vm_compute. reflexivity.
  - vm_compute. reflexivity.
Defined.

(** ** Flat tables *)

Lemma index_where_absent (ls : list label) year :
  year ∉ ls -> index_where (fun x => bool_decide (x = year)) ls = [].
Proof.
  intros Hnot. apply index_where_none, Forall_forall. intros x Hx.
  apply bool_decide_eq_false_2. by intros ->.
Qed.

Lemma index_where_unique_label (ls : list label) year :
  NoDup ls -> year ∈ ls ->
  exists i, index_where (fun x => bool_decide (x = year)) ls = [i] /\ ls !! i = Some year.
Proof.
  induction 1 as [|a ls Ha Hnd IH]; [by intros ?%elem_of_nil|].
  intros Hin. rewrite index_where_cons.
  destruct (decide (a = year)) as [->|Hne].
  - rewrite bool_decide_eq_true_2 by done. exists 0%nat.
    by rewrite index_where_absent.
  - rewrite bool_decide_eq_false_2 by done.
    apply elem_of_cons in Hin as [->|Hin]; [done|].
    destruct (IH Hin) as (i & -> & Hi). by exists (S i).
Qed.

Section flat_tables.
Context `{Quicksort}.



End flat_tables.


(** ** Objects *)

Lemma bind_run {A B} (m : stateful A) (k : A -> stateful B) (h : heap) :
  (m ≫= k) h =
    match m h with
    | (Returns a, h') => k a h'
    | (Raises e, h') => (Raises e, h')
    | (Unmodelled, h') => (Unmodelled, h')
    end.
Proof. reflexivity. Qed.

Lemma frame_at_run (h : heap) l df :
  h !! l = Some (Frame df) -> frame_at l h = (Returns df, h).
Proof. unfold frame_at. by intros ->. Qed.

Lemma setitem_run (h : heap) d items k v :
  h !! d = Some (Dict items) ->
  setitem d k v h = (Returns (), <[d := Dict (<[k := v]> items)]> h).
Proof. unfold setitem. by intros ->. Qed.

Lemma fresh_lookup (h : heap) : h !! fresh (dom h) = None.
Proof. apply not_elem_of_dom, is_fresh. Qed.

Lemma resolve_by_modelled cols by_ : resolve_by cols by_ <> Unmodelled.
Proof. destruct cols, by_; cbn; repeat case_match; done. Qed.

(** The entries of a dictionary that [holds] refer to frames that stay
    where they are when an object is created or the dictionary changes. *)
Lemma holds_frame_of h hc d items mp (hc' : heap) k v :
  holds h hc d items mp -> items !! k = Some v ->
  (forall l t, hc !! l = Some (Frame t) -> hc' !! l = Some (Frame t)) ->
  frame_of hc' v = frame_of hc v.
Proof.
  intros Hh Hk Hkeep. destruct (holds_new _ _ _ _ _ Hh _ _ Hk) as (l & t & -> & _ & Hl).
  cbn. by rewrite Hl, (Hkeep _ _ Hl).
Qed.

Lemma holds_grow h hc d items mp l o :
  holds h hc d items mp -> hc !! l = None ->
  holds h (<[l := o]> hc) d items mp.
Proof.
  intros Hh Hl.
  assert (forall l' t, hc !! l' = Some (Frame t) -> <[l := o]> hc !! l' = Some (Frame t))
    as Hkeep.
  { intros l' t Hl'. rewrite lookup_insert_ne; [done|congruence]. }
  destruct Hh as [Hext Hd Hdn Hfr Hnew Hinj]. split; [| |done| | |done].
  - etrans; [done|]. by apply insert_subseteq.
  - rewrite lookup_insert_ne; [done|congruence].
  - intros k. rewrite <- Hfr. destruct (items !! k) as [v|] eqn:Hk; [|done]. cbn.
    destruct (Hnew _ _ Hk) as (l' & t & -> & _ & Hl'). cbn.
    by rewrite Hl', (Hkeep _ _ Hl').
  - intros k v Hk. destruct (Hnew _ _ Hk) as (l' & t & -> & ? & Hl').
    exists l', t. split; [done|]. split; [done|]. by apply Hkeep.
Qed.

(** A new frame is created and stored under [k]. *)
Lemma holds_store h hc d items mp k l t :
  holds h hc d items mp -> hc !! l = None ->
  holds h (<[d := Dict (<[k := Ref l]> items)]> (<[l := Frame t]> hc)) d
        (<[k := Ref l]> items) (<[k := t]> mp).
Proof.
  intros Hh Hl. pose proof Hh as [Hext Hd Hdn Hfr Hnew Hinj].
  assert (l <> d) as Hld by congruence.
  assert (h !! l = None) as Hhl by (by eapply lookup_weaken_None).
  set (hc' := <[d := Dict (<[k := Ref l]> items)]> (<[l := Frame t]> hc)).
  assert (forall l' t', hc !! l' = Some (Frame t') -> hc' !! l' = Some (Frame t')) as Hkeep.
  { intros l' t' Hl'. unfold hc'.
    rewrite lookup_insert_ne by congruence. rewrite lookup_insert_ne; [done|congruence]. }
  assert (hc' !! l = Some (Frame t)) as Hnewl.
  { unfold hc'. rewrite lookup_insert_ne by done. apply lookup_insert_eq. }
  split.
  - apply insert_subseteq_r; [done|]. etrans; [done|]. by apply insert_subseteq.
  - apply lookup_insert_eq.
  - done.
  - intros k'. destruct (decide (k = k')) as [->|Hne].
    + rewrite !lookup_insert_eq. cbn. by rewrite Hnewl.
    + rewrite !lookup_insert_ne by done. rewrite <- Hfr.
      destruct (items !! k') as [v|] eqn:Hk'; [|done]. cbn.
      by apply (holds_frame_of h hc d items mp hc' k' v).
  - intros k' v. destruct (decide (k = k')) as [->|Hne].
    + rewrite lookup_insert_eq. intros [= <-]. by exists l, t.
    + rewrite lookup_insert_ne by done. intros Hk'.
      destruct (Hnew _ _ Hk') as (l' & t' & -> & ? & Hl').
      exists l', t'. split; [done|]. split; [done|]. by apply Hkeep.
  - intros k1 k2 v.
    destruct (decide (k = k1)) as [E1|Hne1], (decide (k = k2)) as [E2|Hne2];
      subst; rewrite ?lookup_insert_eq, ?lookup_insert_ne by done; try done.
    + intros [= <-] Hk2. destruct (Hnew _ _ Hk2) as (l' & t' & [= <-] & _ & ?). congruence.
    + intros Hk1 [= <-]. destruct (Hnew _ _ Hk1) as (l' & t' & [= <-] & _ & ?). congruence.
    + apply Hinj.
Qed.

Section object_methods.
Context `{Quicksort}.

Lemma sort_values_modelled df by_ ascending : sort_values df by_ ascending <> Unmodelled.
Proof.
  unfold sort_values. pose proof (resolve_by_modelled (df_columns df) by_).
  by destruct (resolve_by _ _).
Qed.

(** [self.sort_values(by=by, ascending=ascending)] reads the frame at
    [self] and creates a new frame; it changes no object. *)
Lemma sort_values_obj_run (hc : heap) yl yd by_ ascending :
  hc !! yl = Some (Frame yd) ->
  sort_values_obj yl by_ ascending false hc =
    match sort_values yd by_ ascending with
    | Returns t => (Returns (Ref (fresh (dom hc))), <[fresh (dom hc) := Frame t]> hc)
    | Raises e => (Raises e, hc)
    | Unmodelled => (Unmodelled, hc)
    end.
Proof.
  intros Hyl. unfold sort_values_obj.
  rewrite bind_run, (frame_at_run _ _ _ Hyl), bind_run. unfold lift.
  by destruct (sort_values yd by_ ascending).
Qed.

(** [sorted_budgets[k] = year_data.sort_values(by=by, ascending=ascending)]:
    a new frame is created and the dictionary [d] is changed; nothing else
    is. *)
Lemma sort_and_store_run h hc d items mp yl yd by_ ascending k (rest : stateful ()) :
  holds h hc d items mp -> hc !! yl = Some (Frame yd) ->
  match sort_values yd by_ ascending with
  | Returns t =>
      exists items' h1,
        (v ← sort_values_obj yl by_ ascending false; setitem d k v;; rest) hc = rest h1 /\
        h1 !! yl = Some (Frame yd) /\ holds h h1 d items' (<[k := t]> mp)
  | Raises e =>
      (v ← sort_values_obj yl by_ ascending false; setitem d k v;; rest) hc = (Raises e, hc)
  | Unmodelled => False
  end.
Proof.
  intros Hh Hyl. rewrite bind_run, (sort_values_obj_run _ _ _ _ _ Hyl).
  pose proof (sort_values_modelled yd by_ ascending) as Hmod.
  destruct (sort_values yd by_ ascending) as [t|e|]; [| |done]; [|done].
  pose proof (fresh_lookup hc) as Hfresh. set (l := fresh (dom hc)) in *.
  pose proof (holds_dict _ _ _ _ _ Hh) as Hd.
  assert (<[l := Frame t]> hc !! d = Some (Dict items)) as Hd'.
  { rewrite lookup_insert_ne; [done|congruence]. }
  rewrite bind_run, (setitem_run _ _ _ _ _ Hd').
  eexists _, _. split; [reflexivity|]. split.
  - rewrite lookup_insert_ne by congruence. rewrite lookup_insert_ne; [done|congruence].
  - by apply holds_store.
Qed.

Lemma sort_and_store_last h hc d items mp yl yd by_ ascending k :
  holds h hc d items mp -> hc !! yl = Some (Frame yd) ->
  match sort_values yd by_ ascending with
  | Returns t =>
      exists items' h1,
        (v ← sort_values_obj yl by_ ascending false; setitem d k v) hc = (Returns (), h1) /\
        holds h h1 d items' (<[k := t]> mp)
  | Raises e =>
      (v ← sort_values_obj yl by_ ascending false; setitem d k v) hc = (Raises e, hc)
  | Unmodelled => False
  end.
Proof.
  intros Hh Hyl. rewrite bind_run, (sort_values_obj_run _ _ _ _ _ Hyl).
  pose proof (sort_values_modelled yd by_ ascending) as Hmod.
  destruct (sort_values yd by_ ascending) as [t|e|]; [| |done]; [|done].
  pose proof (fresh_lookup hc) as Hfresh. set (l := fresh (dom hc)) in *.
  pose proof (holds_dict _ _ _ _ _ Hh) as Hd.
  assert (<[l := Frame t]> hc !! d = Some (Dict items)) as Hd'.
  { rewrite lookup_insert_ne; [done|congruence]. }
  rewrite (setitem_run _ _ _ _ _ Hd').
  eexists _, _. split; [reflexivity|]. by apply holds_store.
Qed.

(** The two assignments of one pass of the loop. *)
Lemma sort_year_obj_run h hc d items mp yl yd by_ year :
  holds h hc d items mp -> hc !! yl = Some (Frame yd) ->
  exists r h',
    (asc ← sort_values_obj yl by_ true false;
     setitem d (asc_key year) asc;;
     desc ← sort_values_obj yl by_ false false;
     setitem d (desc_key year) desc) hc = (r, h') /\
    match r with
    | Returns _ =>
        exists items' mp',
          sort_year yd by_ year mp = Returns mp' /\ holds h h' d items' mp'
    | Raises e => sort_year yd by_ year mp = Raises e /\ h ⊆ h'
    | Unmodelled => False
    end.
Proof.
  intros Hh Hyl. unfold sort_year.
  pose proof (sort_and_store_run h hc d items mp yl yd by_ true (asc_key year)
                (desc ← sort_values_obj yl by_ false false;
                 setitem d (desc_key year) desc) Hh Hyl) as Hasc.
  destruct (sort_values yd by_ true) as [a|e|]; [| |done]; cbn [mbind outcome_bind].
  - destruct Hasc as (items1 & h1 & -> & Hyl1 & Hh1).
    pose proof (sort_and_store_last h h1 d items1 _ yl yd by_ false (desc_key year)
                  Hh1 Hyl1) as Hdesc.
    destruct (sort_values yd by_ false) as [de|e|]; [| |done]; cbn [mbind outcome_bind].
    + destruct Hdesc as (items2 & h2 & -> & Hh2).
      eexists _, _. split; [reflexivity|]. eexists items2, _. split; [reflexivity|exact Hh2].
    + rewrite Hdesc. eexists _, _. split; [reflexivity|].
      split; [done|]. apply (holds_extends _ _ _ _ _ Hh1).
  - rewrite Hasc. eexists _, _. split; [reflexivity|].
    split; [done|]. apply (holds_extends _ _ _ _ _ Hh).
Qed.
End object_methods.

Section object_loop.
Context `{Quicksort}.

Lemma columns_0_0_run (hc : heap) b df ts :
  hc !! b = Some (Frame df) -> df_columns df = MultiIndex ts ->
  columns_0_0 b hc = (first_outer_label ts, hc).
Proof.
  intros Hb Hcols. unfold columns_0_0, columns_of.
  rewrite !bind_run, (frame_at_run _ _ _ Hb). cbn [mret stateful_ret].
  by rewrite Hcols.
Qed.

(** One pass on a table with flat columns. *)
Lemma flat_pass_run (h : heap) b df ls d :
  h !! b = Some (Frame df) -> df_columns df = Index ls ->
  pass_spec h d df
    (fun year =>
       year_data ← getitem_obj b year;
       asc ← sort_values_obj year_data (ByLabel year) true false;
       setitem d (asc_key year) asc;;
       desc ← sort_values_obj year_data (ByLabel year) false false;
       setitem d (desc_key year) desc).
Proof.
  intros Hb Hcols year hc items mp Hh.
  assert (hc !! b = Some (Frame df)) as Hcb.
  { exact (lookup_weaken _ _ _ _ Hb (holds_extends _ _ _ _ _ Hh)). }
  rewrite bind_run. unfold getitem_obj.
  rewrite bind_run, (frame_at_run _ _ _ Hcb), Hcols. unfold alloc.
  pose proof (fresh_lookup hc) as Hfresh. set (yl := fresh (dom hc)) in *.
  set (yd := getitem df ls year).
  assert (holds h (<[yl := Frame yd]> hc) d items mp) as Hh1 by (by apply holds_grow).
  assert (<[yl := Frame yd]> hc !! yl = Some (Frame yd)) as Hyl by apply lookup_insert_eq.
  destruct (sort_year_obj_run h _ d items mp yl yd (ByLabel year) year Hh1 Hyl)
    as (r & h' & -> & Hr).
  exists r, h'. split; [done|].
  unfold iteration, year_slice. rewrite Hcols. cbn [mbind outcome_bind]. exact Hr.
Qed.

(** One pass on a table with [MultiIndex] columns. *)
Lemma multi_pass_run (h : heap) b df ts d :
  h !! b = Some (Frame df) -> df_columns df = MultiIndex ts ->
  pass_spec h d df
    (fun year =>
       year_data ← xs_obj b year;
       c0 ← columns_0_0 b;
       asc ← sort_values_obj year_data (ByTuple c0 year) true false;
       setitem d (asc_key year) asc;;
       c0 ← columns_0_0 b;
       desc ← sort_values_obj year_data (ByTuple c0 year) false false;
       setitem d (desc_key year) desc).
Proof.
  intros Hb Hcols year hc items mp Hh.
  assert (hc !! b = Some (Frame df)) as Hcb.
  { exact (lookup_weaken _ _ _ _ Hb (holds_extends _ _ _ _ _ Hh)). }
  rewrite bind_run. unfold xs_obj.
  rewrite bind_run, (frame_at_run _ _ _ Hcb), Hcols. unfold alloc.
  pose proof (fresh_lookup hc) as Hfresh. set (yl := fresh (dom hc)) in *.
  set (yd := xs df ts year).
  assert (holds h (<[yl := Frame yd]> hc) d items mp) as Hh1 by (by apply holds_grow).
  set (hc1 := <[yl := Frame yd]> hc) in *.
  assert (hc1 !! yl = Some (Frame yd)) as Hyl by apply lookup_insert_eq.
  assert (hc1 !! b = Some (Frame df)) as Hb1.
  { exact (lookup_weaken _ _ _ _ Hb (holds_extends _ _ _ _ _ Hh1)). }
  unfold iteration, year_slice. rewrite Hcols.
  rewrite bind_run, (columns_0_0_run _ _ _ _ Hb1 Hcols).
  destruct ts as [|[[c0 l1] rest] ts'].
  { cbn. eexists _, _. split; [reflexivity|]. split; [done|].
    apply (holds_extends _ _ _ _ _ Hh1). }
  cbn [first_outer_label mbind outcome_bind]. fold yd. unfold sort_year.
  pose proof (sort_and_store_run h hc1 d items mp yl yd (ByTuple c0 year) true
                (asc_key year)
                (c1 ← columns_0_0 b;
                 desc ← sort_values_obj yl (ByTuple c1 year) false false;
                 setitem d (desc_key year) desc) Hh1 Hyl) as Hasc.
  destruct (sort_values yd (ByTuple c0 year) true) as [a|e|]; [| |done];
    cbn [mbind outcome_bind].
  - destruct Hasc as (items1 & h1 & -> & Hyl1 & Hh2).
    assert (h1 !! b = Some (Frame df)) as Hb2.
    { exact (lookup_weaken _ _ _ _ Hb (holds_extends _ _ _ _ _ Hh2)). }
    rewrite bind_run, (columns_0_0_run _ _ _ _ Hb2 Hcols). cbn [first_outer_label].
    pose proof (sort_and_store_last h h1 d items1 _ yl yd (ByTuple c0 year) false
                  (desc_key year) Hh2 Hyl1) as Hdesc.
    destruct (sort_values yd (ByTuple c0 year) false) as [de|e|]; [| |done];
      cbn [mbind outcome_bind].
    + destruct Hdesc as (items2 & h2 & -> & Hh3).
      eexists _, _. split; [reflexivity|]. eexists items2, _.
      split; [reflexivity|exact Hh3].
    + rewrite Hdesc. eexists _, _. split; [reflexivity|].
      split; [done|]. apply (holds_extends _ _ _ _ _ Hh2).
  - rewrite Hasc. eexists _, _. split; [reflexivity|].
    split; [done|]. apply (holds_extends _ _ _ _ _ Hh1).
Qed.

Lemma loop_obj_run (h : heap) d df body ys :
  pass_spec h d df body ->
  forall hc items mp, holds h hc d items mp ->
  exists r h',
    for_each_obj body ys hc = (r, h') /\
    match r with
    | Returns _ =>
        exists items' mp',
          for_each (iteration df) ys mp = Returns mp' /\ holds h h' d items' mp'
    | Raises e => for_each (iteration df) ys mp = Raises e /\ h ⊆ h'
    | Unmodelled => False
    end.
Proof.
  intros Hpass. induction ys as [|year ys IH]; intros hc items mp Hh.
  - exists (Returns ()), hc. split; [reflexivity|]. by exists items, mp.
  - cbn [for_each_obj for_each]. rewrite bind_run.
    destruct (Hpass year hc items mp Hh) as (r & h1 & -> & Hr).
    destruct r as [[]|e|]; [| |done].
    + destruct Hr as (items1 & mp1 & -> & Hh1). cbn [mbind outcome_bind].
      by apply IH with items1.
    + destruct Hr as [-> Hext]. eexists _, _. split; [reflexivity|]. done.
Qed.

(** C10: [sort_yearly_budgets] leaves every object of the store as it was,
    its argument included.  The only object it changes is the dictionary
    it creates; the dictionary and the frames in it are new objects, one
    frame per key, and the frames are the orderings of the function on
    values. *)
Theorem sort_yearly_budgets_leaves_input (h : heap) budget_data df :
  h !! budget_data = Some (Frame df) ->
  exists r h',
    sort_yearly_budgets_obj budget_data h = (r, h') /\
    h ⊆ h' /\ h' !! budget_data = Some (Frame df) /\
    match r with
    | Returns d =>
        exists items,
          h !! d = None /\ h' !! d = Some (Dict items) /\
          sort_yearly_budgets df = Returns (omap (frame_of h') items) /\
          (forall k v, items !! k = Some v ->
             exists l t, v = Ref l /\ h !! l = None /\ h' !! l = Some (Frame t)) /\
          (forall k1 k2 v, items !! k1 = Some v -> items !! k2 = Some v -> k1 = k2)
    | Raises e => sort_yearly_budgets df = Raises e
    | Unmodelled => False
    end.
Proof.
  intros Hb. unfold sort_yearly_budgets_obj. rewrite bind_run. unfold alloc.
  pose proof (fresh_lookup h) as Hfresh. set (d := fresh (dom h)) in *.
  set (h0 := <[d := Dict ∅]> h).
  assert (holds h h0 d ∅ ∅) as Hinit.
  { split.
    - by apply insert_subseteq.
    - apply lookup_insert_eq.
    - done.
    - intros k. by rewrite !lookup_empty.
    - intros k v. by rewrite lookup_empty.
    - intros k1 k2 v. by rewrite lookup_empty. }
  assert (h0 !! budget_data = Some (Frame df)) as Hb0.
  { exact (lookup_weaken _ _ _ _ Hb (holds_extends _ _ _ _ _ Hinit)). }
  unfold columns_of. rewrite !bind_run, (frame_at_run _ _ _ Hb0). cbn [mret stateful_ret].
  rewrite sort_yearly_budgets_loop.
  assert (forall body,
            pass_spec h d df body ->
            exists r h',
              (for_each_obj body (years (df_columns df));; mret d) h0 = (r, h') /\
              h ⊆ h' /\ h' !! budget_data = Some (Frame df) /\
              match r with
              | Returns d =>
                  exists items,
                    h !! d = None /\ h' !! d = Some (Dict items) /\
                    for_each (iteration df) (years (df_columns df)) ∅
                    = Returns (omap (frame_of h') items) /\
                    (forall k v, items !! k = Some v ->
                       exists l t, v = Ref l /\ h !! l = None /\ h' !! l = Some (Frame t)) /\
                    (forall k1 k2 v, items !! k1 = Some v -> items !! k2 = Some v -> k1 = k2)
              | Raises e => for_each (iteration df) (years (df_columns df)) ∅ = Raises e
              | Unmodelled => False
              end) as Hloop.
  { intros body Hpass. rewrite bind_run.
    destruct (loop_obj_run h d df body (years (df_columns df)) Hpass h0 ∅ ∅ Hinit)
      as (r & h' & -> & Hr).
    destruct r as [[]|e|]; [| |done].
    - destruct Hr as (items & mp & Hpure & Hh). cbn [mret stateful_ret].
      eexists _, _. split; [reflexivity|].
      pose proof Hh as [Hext Hd Hdn Hfr Hnew Hinj].
      split; [done|]. split; [exact (lookup_weaken _ _ _ _ Hb Hext)|].
      exists items. split; [done|]. split; [done|]. split; [|done].
      rewrite Hpure. f_equal. apply map_eq. intros k. by rewrite lookup_omap, Hfr.
    - destruct Hr as [Hpure Hext]. eexists _, _. split; [reflexivity|].
      split; [done|]. split; [exact (lookup_weaken _ _ _ _ Hb Hext)|done]. }
  destruct (df_columns df) as [ls|ts] eqn:Hcols.
  - apply Hloop. by apply (flat_pass_run h budget_data df ls).
  - apply Hloop. by apply (multi_pass_run h budget_data df ts).
Qed.
End object_loop.

(** C10 at a store that holds the specification's scenario table. *)
Lemma sort_yearly_budgets_leaves_input_witness :
  exists r h',
    @sort_yearly_budgets_obj stable_sort 1%positive {[1%positive := Frame scenario_table]}
    = (r, h') /\
    ({[1%positive := Frame scenario_table]} : heap) ⊆ h' /\
    h' !! 1%positive = Some (Frame scenario_table) /\
    match r with
    | Returns d =>
        exists items,
          ({[1%positive := Frame scenario_table]} : heap) !! d = None /\
          h' !! d = Some (Dict items) /\
          @sort_yearly_budgets stable_sort scenario_table
          = Returns (omap (frame_of h') items) /\
          (forall k v, items !! k = Some v ->
             exists l t, v = Ref l /\
               ({[1%positive := Frame scenario_table]} : heap) !! l = None /\
               h' !! l = Some (Frame t)) /\
          (forall k1 k2 v, items !! k1 = Some v -> items !! k2 = Some v -> k1 = k2)
    | Raises e => @sort_yearly_budgets stable_sort scenario_table = Raises e
    | Unmodelled => False
    end.
Proof.
  apply (sort_yearly_budgets_leaves_input (H := stable_sort)).
  apply lookup_singleton_eq.
Defined.

(** With [inplace=True] the same call of [sort_values] would change the
    frame it is called on and return [None]: the property above rests on
    the code's calling it without. *)
Example sort_values_inplace_changes_self :
  @sort_values_obj stable_sort 1%positive (ByLabel (LInt 2024)) false true
    {[1%positive := Frame scenario_table]}
  = (Returns PyNone,
     {[1%positive := Frame (mkDataFrame [ministry "B"; ministry "A"]
                                        (Index [LInt 2024; LInt 2025])
                                        [[Z2F 200; Z2F 180]; [Z2F 100; Z2F 150]])]}).
Proof. vm_compute. reflexivity. Qed.

(** ** Integers as floats *)

Lemma digits2_pos_size p : digits2_pos p = Pos.size p.
Proof. induction p; cbn; by rewrite ?IHp. Qed.

Lemma digits2_pos_bound p n :
  Z.pos p < 2 ^ Z.pos n -> Z.pos (digits2_pos p) <= Z.pos n.
Proof.
  intros Hlt. rewrite digits2_pos_size.
  pose proof (Pos.size_le p) as Hle.
  assert (2 ^ Z.pos (Pos.size p) <= 2 * Z.pos p) as Hz.
  { rewrite <- Pos2Z.inj_pow. change (2 * Z.pos p) with (Z.pos p~0). by apply Pos2Z.pos_le_pos. }
  assert (2 ^ Z.pos (Pos.size p) < 2 ^ (Z.pos n + 1)) as Hpow.
  { rewrite Z.pow_add_r by lia. lia. }
  apply Z.pow_lt_mono_r_iff in Hpow; lia.
Qed.

Lemma iter_xO p k :
  Z.pos (Pos.iter xO p k) = Z.pos p * 2 ^ Z.pos k /\
  Z.pos (digits2_pos (Pos.iter xO p k)) = Z.pos (digits2_pos p) + Z.pos k.
Proof.
  induction k as [|k [IH1 IH2]] using Pos.peano_ind.
  - cbn. split; lia.
  - rewrite Pos.iter_succ. cbn [digits2_pos]. rewrite !Pos2Z.inj_succ.
    rewrite Z.pow_succ_r by lia. rewrite Pos2Z.inj_xO, IH1, IH2. split; lia.
Qed.

Lemma shl_align_spec p e e' :
  e' <= e ->
  Z.pos (fst (shl_align p e e')) = Z.pos p * 2 ^ (e - e') /\
  Z.pos (digits2_pos (fst (shl_align p e e'))) = Z.pos (digits2_pos p) + (e - e') /\
  snd (shl_align p e e') = e'.
Proof.
  intros Hle. unfold shl_align. destruct (e' - e) as [|k|k] eqn:Hk; cbn [fst snd].
  - replace (e - e') with 0 by lia. split; [lia|]. split; lia.
  - lia.
  - replace (e - e') with (Z.pos k) by lia. destruct (iter_xO p k) as [-> ->]. done.
Qed.

Lemma binary_round_aux_exact s m e :
  Z.pos (digits2_pos m) = 53 -> -1074 <= e <= 971 ->
  binary_round_aux prec emax s (Z.pos m) e loc_Exact = S754_finite s m e.
Proof.
  intros Hd He.
  assert (forall l, shr_fexp prec emax (Z.pos m) e l = (shr_record_of_loc (Z.pos m) l, e))
    as Hshr.
  { intros l. unfold shr_fexp, fexp, emin, Zdigits2, prec, emax. rewrite Hd.
    replace (Z.max (53 + e - 53) (3 - 1024 - 53) - e) with 0 by lia. done. }
  unfold binary_round_aux. rewrite Hshr. cbn [shr_record_of_loc shr_m loc_of_shr_record
    round_nearest_even]. rewrite Hshr. cbn [shr_record_of_loc shr_m].
  unfold prec, emax. destruct (Z.leb_spec e (1024 - 53)); [done|lia].
Qed.

(** [float(z)] is exact for an int below [2^53]. *)
Lemma Z2F_exact s p :
  Z.pos p < 2 ^ 53 ->
  exists m e,
    binary_round prec emax s p 0 = S754_finite s m e /\
    -52 <= e <= 0 /\ Z.pos m = Z.pos p * 2 ^ (- e).
Proof.
  intros Hlt. pose proof (digits2_pos_bound p 53 Hlt) as Hd.
  assert (1 <= Z.pos (digits2_pos p)) as Hd1 by lia.
  unfold binary_round.
  assert (fexp prec emax (Z.pos (digits2_pos p) + 0) = Z.pos (digits2_pos p) - 53) as ->.
  { unfold fexp, emin, prec, emax. lia. }
  destruct (shl_align_spec p 0 (Z.pos (digits2_pos p) - 53)) as (Hm & Hdm & He); [lia|].
  destruct (shl_align p 0 (Z.pos (digits2_pos p) - 53)) as [mz ez]. cbn [fst snd] in *.
  subst ez. exists mz, (Z.pos (digits2_pos p) - 53).
  split; [apply binary_round_aux_exact; lia|]. split; [lia|].
  rewrite Hm. by rewrite Z.sub_0_l.
Qed.















(** The sum is compensated: the amounts 0.1, 0.2 and 0.3 add up to 0.6,
    where adding them one after the other gives 0.6000000000000001. *)
Example group_sum_compensated :
  group_sum [decimal_literal 1 1; decimal_literal 2 1; decimal_literal 3 1]
  = decimal_literal 6 1 /\
  fadd (fadd (decimal_literal 1 1) (decimal_literal 2 1)) (decimal_literal 3 1)
  <> decimal_literal 6 1.
Proof. split; vm_compute; [reflexivity|discriminate]. Qed.

(** ** aggregate *)

Lemma exn_class_not_invalid_field e : exn_class e <> "InvalidFieldError".
Proof. by destruct e. Qed.

Lemma pivot_table_missing_values d index columns values :
  values ∉ fields d ->
  pivot_table d index columns values = Raises (KeyError [LStr values]).
Proof. intros Hv. unfold pivot_table. by rewrite bool_decide_eq_false_2. Qed.

(** The first of the names that is not a field of the data. *)
Lemma first_absent_key (fs names : list string) :
  (exists k, k ∈ names /\ k ∉ fs) ->
  exists i k,
    list_find (fun k => k ∉ fs) names = Some (i, k) /\
    names !! i = Some k /\ (k ∉ fs) /\
    forall j k', (j < i)%nat -> names !! j = Some k' -> k' ∈ fs.
Proof.
  intros (k & Hk & Hmiss).
  destruct (list_find (fun k => k ∉ fs) names) as [[i k']|] eqn:Hfind.
  - apply list_find_Some in Hfind as (Hi & Hk' & Hbefore).
    exists i, k'. split; [done|]. split; [done|]. split; [done|].
    intros j k'' Hj Hk''. destruct (decide (k'' ∈ fs)) as [|Hno]; [done|].
    by destruct (Hbefore j k'' Hk'' Hj).
  - apply list_find_None in Hfind. rewrite Forall_forall in Hfind.
    by destruct (Hfind k Hk).
Qed.

(** C6, amended: when a named field is not in the data, [aggregate] raises
    pandas' [KeyError] for the first absent name, the value field coming
    first, then the group keys and the time keys in order, and
    [get_ministry_budget_trends] passes the same exception on.  For an
    absent key this holds when the names are distinct and the number of
    keys is not the number of records. *)
Theorem aggregate_missing_field_raises_KeyError d index columns values :
  (values ∈ fields d ->
   NoDup (fields d) /\ NoDup (values :: index ++ columns) /\
   length (index ++ columns) <> length (records d)) ->
  (exists k, (k = values \/ k ∈ (index ++ columns)) /\ k ∉ fields d) ->
  exists i k,
    (values :: index ++ columns) !! i = Some k /\ (k ∉ fields d) /\
    (forall j k', (j < i)%nat -> (values :: index ++ columns) !! j = Some k' ->
                  k' ∈ fields d) /\
    aggregate d index columns values = Raises (KeyError [LStr k]) /\
    forall (H : Quicksort),
      get_ministry_budget_trends d index columns values = Raises (KeyError [LStr k]).
Proof.
  intros Hcall (k & Hk & Hmiss). unfold get_ministry_budget_trends, aggregate.
  destruct (decide (values ∈ fields d)) as [Hv|Hv].
  - destruct (Hcall Hv) as (Hnd & Hnames & Hlen).
    destruct Hk as [->|Hk]; [done|].
    destruct (first_absent_key (fields d) (index ++ columns)) as (i & k' & Hfind & Hi & Hk' & Hb);
      [by exists k|].
    assert (pivot_table d index columns values = Raises (KeyError [LStr k'])) as ->.
    { unfold pivot_table. rewrite bool_decide_eq_true_2 by done.
      rewrite !bool_decide_eq_true_2 by done. cbn [andb]. rewrite Hfind.
      by apply Nat.eqb_neq in Hlen as ->. }
    exists (S i), k'. split; [done|]. split; [done|]. split; [|done].
    intros [|j] k'' Hj; cbn; [by intros [= <-]|]. apply Hb. lia.
  - exists 0%nat, values. rewrite pivot_table_missing_values by done.
    split; [done|]. split; [done|]. split; [|done]. intros j k' Hj. lia.
Qed.

(** C6, amended, at a time field that the records do not have. *)
Lemma aggregate_missing_field_witness :
  exists i k,
    ("Amount" :: ["Ministry"] ++ ["FiscalYear"]) !! i = Some k /\
    (k ∉ fields scenario_records) /\
    (forall j k', (j < i)%nat ->
                  ("Amount" :: ["Ministry"] ++ ["FiscalYear"]) !! j = Some k' ->
                  k' ∈ fields scenario_records) /\
    aggregate scenario_records ["Ministry"] ["FiscalYear"] "Amount"
      = Raises (KeyError [LStr k]) /\
    forall (H : Quicksort),
      get_ministry_budget_trends scenario_records ["Ministry"] ["FiscalYear"] "Amount"
        = Raises (KeyError [LStr k]).
Proof.
  apply aggregate_missing_field_raises_KeyError.
  - intros _. split; [compute_done|]. split; [compute_done|]. cbn. lia.
  - exists "FiscalYear". split; [right; compute_done|compute_done].
Defined.

(** The first absent name is reported: here the value field and a group
    key are both absent, and the [KeyError] is for the value field. *)
Example value_field_is_looked_up_first :
  aggregate scenario_records ["Dept"] ["Year"] "Amt" = Raises (KeyError [LStr "Amt"]) /\
  aggregate scenario_records ["Dept"] ["FiscalYear"] "Amount"
  = Raises (KeyError [LStr "Dept"]).
Proof. split; vm_compute; reflexivity. Qed.

(** C6 as stated fails: the exception is a [KeyError]; no code path raises
    an [InvalidFieldError]. *)
Lemma no_InvalidFieldError :
  ~ (forall d index columns values,
       (exists k, (k = values \/ k ∈ (index ++ columns)) /\ k ∉ fields d) ->
       exists e, aggregate d index columns values = Raises e /\
                 exn_class e = "InvalidFieldError").
Proof.
  intros claim.
  destruct (claim scenario_records ["Ministry"] ["FiscalYear"] "Amount")
    as (e & _ & He).
  - exists "FiscalYear". split; [right; compute_done|compute_done].
  - by apply exn_class_not_invalid_field in He.
Qed.

(** The cells *)

Lemma group_values_nil_iff obs rk ck :
  group_values obs rk ck = [] <-> (rk, ck) ∉ obs.*1.
Proof.
  unfold group_values. split.
  - intros Hnil Hin. apply list_elem_of_fmap in Hin as ([[rk' ck'] x] & Heq & Hin).
    cbn in Heq. injection Heq as <- <-.
    assert ((rk, ck, x) ∈ filter (fun o => o.1 = (rk, ck)) obs) as Hf.
    { by apply list_elem_of_filter. }
    apply (list_elem_of_fmap_2 snd) in Hf. rewrite Hnil in Hf. by apply elem_of_nil in Hf.
  - intros Hnot. destruct (filter _ obs) as [|[[rk' ck'] x] l] eqn:Hf; [done|].
    exfalso. apply Hnot.
    assert ((rk', ck', x) ∈ filter (fun o => o.1 = (rk, ck)) obs) as Hin
      by (rewrite Hf; left).
    apply list_elem_of_filter in Hin as [Heq Hin]. cbn in Heq. rewrite <- Heq.
    by apply (list_elem_of_fmap_2 fst) in Hin.
Qed.

Lemma group_sum_nan xs : isnan (group_sum xs) = true -> group_sum xs = nan.
Proof. by destruct (group_sum xs). Qed.

Lemma pivot_cell_spec obs rk ck :
  pivot_cell obs rk ck =
    match group_values obs rk ck with
    | [] => nan
    | _ => group_sum (group_values obs rk ck)
    end.
Proof.
  unfold pivot_cell, kept_groups. case_bool_decide as Hkept.
  - apply list_elem_of_filter in Hkept as [_ Hin]. rewrite elem_of_remove_dups in Hin.
    destruct (group_values obs rk ck) eqn:Hg; [|done].
    apply group_values_nil_iff in Hg. by destruct Hg.
  - destruct (group_values obs rk ck) as [|x xs] eqn:Hg; [done|].
    destruct (isnan (group_sum (x :: xs))) eqn:Hnan; [by rewrite group_sum_nan|].
    exfalso. apply Hkept. apply list_elem_of_filter. cbn. rewrite Hg. split; [done|].
    apply elem_of_remove_dups.
    destruct (decide ((rk, ck) ∈ obs.*1)) as [|Hnot]; [done|].
    apply group_values_nil_iff in Hnot. congruence.
Qed.

Lemma group_values_records d index columns values rk ck :
  group_values (observations d index columns values) rk ck
  = amounts_of_group d index columns values rk ck.
Proof.
  unfold group_values, observations, amounts_of_group.
  induction (records d) as [|r rs IH]; [done|].
  cbn [omap list_omap]. unfold observe at 1.
  destruct (group_key (fields d) index r) as [rk'|] eqn:Hr; cbn [mbind option_bind].
  - destruct (group_key (fields d) columns r) as [ck'|] eqn:Hc; cbn [mbind option_bind].
    + rewrite filter_cons. cbn [fst]. case_decide as Heq; case_bool_decide as Hb.
      * cbn. by rewrite IH.
      * injection Heq as -> ->. by destruct Hb.
      * destruct Hb as [[= ->] [= ->]]. done.
      * done.
    + rewrite bool_decide_eq_false_2 by (by intros [_ ?]). done.
  - rewrite bool_decide_eq_false_2 by (by intros [? _]). done.
Qed.

(** ** The order of keys *)

Lemma string_compare_refl s : String.compare s s = Eq.
Proof.
  induction s as [|a s IH]; [done|]. simpl.
  unfold Ascii.compare. by rewrite N.compare_refl.
Qed.

Lemma string_compare_trans_le s1 s2 s3 :
  String.compare s1 s2 <> Gt -> String.compare s2 s3 <> Gt -> String.compare s1 s3 <> Gt.
Proof.
  revert s2 s3. induction s1 as [|a s1 IH]; intros [|b s2] [|c s3]; simpl; try congruence.
  unfold Ascii.compare.
  destruct (N.compare_spec (Ascii.N_of_ascii a) (Ascii.N_of_ascii b)) as [Hab|Hab|Hab],
           (N.compare_spec (Ascii.N_of_ascii b) (Ascii.N_of_ascii c)) as [Hbc|Hbc|Hbc],
           (N.compare_spec (Ascii.N_of_ascii a) (Ascii.N_of_ascii c)) as [Hac|Hac|Hac];
    try congruence; try lia.
  apply IH.
Qed.

Lemma string_leb_trans s1 s2 s3 :
  String.leb s1 s2 = true -> String.leb s2 s3 = true -> String.leb s1 s3 = true.
Proof.
  unfold String.leb. intros H12 H23.
  pose proof (string_compare_trans_le s1 s2 s3) as Ht.
  destruct (String.compare s1 s2), (String.compare s2 s3), (String.compare s1 s3);
    try done; exfalso; by apply Ht.
Qed.

Lemma label_leb_refl a : label_leb a a = true.
Proof.
  destruct a as [z|s]; cbn; [apply Z.leb_refl|].
  unfold String.leb. by rewrite string_compare_refl.
Qed.

Lemma label_leb_total a b : label_leb a b = true \/ label_leb b a = true.
Proof.
  destruct a as [x|s], b as [y|t]; cbn; [|by left|by right|apply String.leb_total].
  destruct (Z.leb_spec x y); [by left|right]. apply Z.leb_le. lia.
Qed.

Lemma label_leb_trans a b c :
  label_leb a b = true -> label_leb b c = true -> label_leb a c = true.
Proof.
  destruct a as [x|s], b as [y|t], c as [z|u]; cbn; try done.
  - rewrite !Z.leb_le. lia.
  - apply string_leb_trans.
Qed.

Lemma label_leb_antisym a b :
  label_leb a b = true -> label_leb b a = true -> a = b.
Proof.
  destruct a as [x|s], b as [y|t]; cbn; try done.
  - rewrite !Z.leb_le. intros. f_equal. lia.
  - intros H1 H2. f_equal. by apply String.leb_antisym.
Qed.

Lemma tuple_leb_refl a : tuple_leb a a = true.
Proof. induction a as [|x a IH]; [done|]. cbn. by rewrite bool_decide_eq_true_2. Qed.

#[global] Instance tuple_le_total : Total tuple_le.
Proof.
  intros a. unfold tuple_le. induction a as [|x a IH]; intros [|y b]; cbn; [by left..|by right|].
  case_bool_decide as Hxy.
  - subst. rewrite bool_decide_eq_true_2 by done. apply IH.
  - rewrite bool_decide_eq_false_2 by (by intros ->). apply label_leb_total.
Qed.

#[global] Instance tuple_le_trans : Transitive tuple_le.
Proof.
  intros a. unfold tuple_le. induction a as [|x a IH]; intros [|y b] [|z c]; cbn; try done.
  case_bool_decide as Hxy; case_bool_decide as Hyz; case_bool_decide as Hxz; subst; try done.
  - apply IH.
  - intros H1 H2. by rewrite (label_leb_antisym _ _ H1 H2) in Hxy.
  - apply label_leb_trans.
Qed.

#[global] Instance tuple_le_antisym : AntiSymm (=) tuple_le.
Proof.
  intros a. unfold tuple_le. induction a as [|x a IH]; intros [|y b]; cbn; try done.
  case_bool_decide as Hxy.
  - subst. rewrite bool_decide_eq_true_2 by done. intros H1 H2. f_equal. by apply IH.
  - rewrite bool_decide_eq_false_2 by (by intros ->).
    intros H1 H2. by destruct Hxy; apply label_leb_antisym.
Qed.

Lemma sorted_keys_perm ks : sorted_keys ks ≡ₚ remove_dups ks.
Proof. apply merge_sort_Permutation. Qed.

Lemma elem_of_sorted_keys ks k : k ∈ sorted_keys ks <-> k ∈ ks.
Proof. by rewrite sorted_keys_perm, elem_of_remove_dups. Qed.

Lemma sorted_keys_NoDup ks : NoDup (sorted_keys ks).
Proof. rewrite sorted_keys_perm. apply NoDup_remove_dups. Qed.

Lemma sorted_keys_sorted ks : StronglySorted tuple_le (sorted_keys ks).
Proof. apply StronglySorted_merge_sort; apply _. Qed.

(** ** The table of aggregate *)

Lemma pivot_table_returns d index columns values :
  well_formed d index columns values = true ->
  typed_columns d index columns values = true ->
  values ∈ fields d -> Forall (fun k => k ∈ fields d) (index ++ columns) ->
  index <> [] -> columns <> [] ->
  let obs := observations d index columns values in
  pivot_table d index columns values
  = Returns (mkDataFrame
               (pivot_rows obs)
               (make_columns columns (pivot_cols obs))
               ((fun rk => pivot_cell obs rk <$> pivot_cols obs) <$> pivot_rows obs)).
Proof.
  intros Hwf Hty Hv Hk Hi Hc obs. unfold pivot_table.
  rewrite bool_decide_eq_true_2 by done.
  assert (bool_decide (NoDup (fields d)) &&
          bool_decide (NoDup (values :: index ++ columns)) = true) as ->.
  { unfold well_formed in Hwf. by apply andb_true_iff in Hwf as [? _]. }
  destruct (list_find _ _) as [[i k]|] eqn:Hfind.
  { apply list_find_Some in Hfind as (Hi' & Hmiss & _).
    rewrite Forall_forall in Hk. destruct Hmiss. apply Hk.
    by eapply list_elem_of_lookup_2. }
  destruct index; [done|]. destruct columns; [done|]. by rewrite Hwf, Hty.
Qed.

Lemma pivot_table_returns_inv d index columns values t :
  pivot_table d index columns values = Returns t ->
  well_formed d index columns values = true /\
  typed_columns d index columns values = true /\
  values ∈ fields d /\ Forall (fun k => k ∈ fields d) (index ++ columns) /\
  index <> [] /\ columns <> [].
Proof.
  unfold pivot_table. case_bool_decide as Hv; [|done].
  destruct (_ && _); [|done].
  destruct (list_find _ _) as [[i k]|] eqn:Hfind; [by destruct (_ =? _)%nat|].
  apply list_find_None in Hfind.
  destruct index as [|i index]; [by destruct columns; [destruct (records d)|]|].
  destruct columns as [|c columns]; [done|].
  destruct (well_formed _ _ _ _) eqn:Hwf; [|done].
  destruct (typed_columns _ _ _ _) eqn:Hty; [|done]. intros _.
  repeat split; try done.
  eapply Forall_impl; [done|]. cbn. intros k Hk.
  by destruct (decide (k ∈ fields d)).
Qed.

Lemma group_key_length fs keys r k : group_key fs keys r = Some k -> length k = length keys.
Proof. intros Hk. symmetry. by eapply length_mapM. Qed.

Lemma elem_of_observations d index columns values rk ck :
  (rk, ck) ∈ (observations d index columns values).*1 <->
  exists r, r ∈ records d /\ group_key (fields d) index r = Some rk /\
            group_key (fields d) columns r = Some ck.
Proof.
  unfold observations. rewrite list_elem_of_fmap. split.
  - intros ([[rk' ck'] x] & [= <- <-] & Hin).
    apply list_elem_of_omap in Hin as (r & Hr & Hobs). exists r. split; [done|].
    unfold observe in Hobs.
    destruct (group_key (fields d) index r) as [a|]; [|done].
    destruct (group_key (fields d) columns r) as [b|]; [|done].
    cbn in Hobs. by injection Hobs as -> -> _.
  - intros (r & Hr & Hrk & Hck).
    exists (rk, ck, from_option value_of nan (get_field (fields d) r values)).
    split; [done|]. apply list_elem_of_omap. exists r. split; [done|].
    unfold observe. by rewrite Hrk, Hck.
Qed.

Lemma amounts_of_group_nonempty d index columns values rk ck :
  amounts_of_group d index columns values rk ck <> [] <->
  (rk, ck) ∈ (observations d index columns values).*1.
Proof.
  rewrite <- group_values_records.
  pose proof (group_values_nil_iff (observations d index columns values) rk ck) as Hnil.
  destruct (decide ((rk, ck) ∈ (observations d index columns values).*1)) as [Hin|Hnot].
  - split; [done|]. intros _ Hg. apply Hnil in Hg. done.
  - split; [|done]. intros Hg. destruct Hg. by apply Hnil.
Qed.

Lemma elem_of_kept_groups obs rk ck :
  (rk, ck) ∈ kept_groups obs <->
  (rk, ck) ∈ obs.*1 /\ isnan (group_sum (group_values obs rk ck)) = false.
Proof.
  unfold kept_groups. rewrite list_elem_of_filter, elem_of_remove_dups. cbn. tauto.
Qed.

(** A group is in the table when it has records and its sum is a number. *)
Lemma kept_group_records d index columns values rk ck :
  (rk, ck) ∈ kept_groups (observations d index columns values) <->
  amounts_of_group d index columns values rk ck <> [] /\
  isnan (group_sum (amounts_of_group d index columns values rk ck)) = false.
Proof.
  by rewrite elem_of_kept_groups, group_values_records, amounts_of_group_nonempty.
Qed.

Lemma elem_of_pivot_rows obs rk :
  rk ∈ pivot_rows obs <-> exists ck, (rk, ck) ∈ kept_groups obs.
Proof.
  unfold pivot_rows. rewrite elem_of_sorted_keys, list_elem_of_fmap. split.
  - intros ([rk' ck] & -> & Hin). by exists ck.
  - intros (ck & Hin). by exists (rk, ck).
Qed.

Lemma elem_of_pivot_cols obs ck :
  ck ∈ pivot_cols obs <-> exists rk, (rk, ck) ∈ kept_groups obs.
Proof.
  unfold pivot_cols. rewrite elem_of_sorted_keys, list_elem_of_fmap. split.
  - intros ([rk ck'] & -> & Hin). by exists rk.
  - intros (rk & Hin). by exists (rk, ck).
Qed.

Lemma pivot_rows_length d index columns values :
  Forall (fun rk => length rk = length index)
         (pivot_rows (observations d index columns values)).
Proof.
  apply Forall_forall. intros rk (ck & Hin)%elem_of_pivot_rows.
  apply elem_of_kept_groups in Hin as [Hin _].
  apply elem_of_observations in Hin as (r & _ & Hrk & _).
  by eapply group_key_length.
Qed.

Lemma pivot_cols_length d index columns values :
  Forall (fun ck => length ck = length columns)
         (pivot_cols (observations d index columns values)).
Proof.
  apply Forall_forall. intros ck (rk & Hin)%elem_of_pivot_cols.
  apply elem_of_kept_groups in Hin as [Hin _].
  apply elem_of_observations in Hin as (r & _ & _ & Hck).
  by eapply group_key_length.
Qed.


Lemma column_keys_make_columns {C} idx (vs : list (list C)) columns cks :
  columns <> [] -> Forall (fun ck => length ck = length columns) cks ->
  column_keys (mkDataFrame idx (make_columns columns cks) vs) = cks.
Proof.
  intros Hne Hlen. unfold column_keys, make_columns. cbn [df_columns].
  destruct columns as [|c [|c' columns]]; [done| |].
  - induction Hlen as [|ck cks Hck _ IH]; [done|]. destruct ck as [|l [|? ?]]; try done.
    cbn. by rewrite IH.
  - induction Hlen as [|ck cks Hck _ IH]; [done|]. destruct ck as [|l [|? ?]]; try done.
    cbn. by rewrite IH.
Qed.

Lemma aggregate_axes d index columns values t :
  aggregate d index columns values = Returns t -> index <> [] -> columns <> [] ->
  let obs := observations d index columns values in
  df_index t = pivot_rows obs /\ column_keys t = pivot_cols obs /\
  df_values t = (fun rk => pivot_cell obs rk <$> pivot_cols obs) <$> pivot_rows obs.
Proof.
  intros Hagg Hi Hc obs. unfold aggregate in Hagg.
  destruct (pivot_table_returns_inv _ _ _ _ _ Hagg) as (Hwf & Hty & Hv & Hk & _).
  rewrite pivot_table_returns in Hagg by done. injection Hagg as <-.
  split; [done|]. split; [|done].
  apply column_keys_make_columns; [done|apply pivot_cols_length].
Qed.


Lemma aggregate_cell d index columns values t i j rk ck :
  aggregate d index columns values = Returns t -> index <> [] -> columns <> [] ->
  df_index t !! i = Some rk -> column_keys t !! j = Some ck ->
  cell_at t i j =
    Some match amounts_of_group d index columns values rk ck with
         | [] => nan
         | _ :: _ => group_sum (amounts_of_group d index columns values rk ck)
         end.
Proof.
  intros Hagg Hi Hc. destruct (aggregate_axes _ _ _ _ _ Hagg Hi Hc) as (-> & -> & Hvals).
  intros Hrk Hck. unfold cell_at. rewrite Hvals, list_lookup_fmap, Hrk. cbn.
  rewrite list_lookup_fmap, Hck. cbn.
  by rewrite pivot_cell_spec, group_values_records.
Qed.



(** Ministry A has two records for 2024, which are added up; ministry B
    has a record for 2024 only, and its cell for 2025 is undefined, next to
    the zero of ministry A, whose only amount for 2025 is 0. *)
Example sums_and_missing_combinations :
  aggregate (mkDataset ["Ministry"; "Year"; "Amount"]
               [[SStr "A"; SInt 2024; SInt 100]; [SStr "B"; SInt 2024; SInt 200];
                [SStr "A"; SInt 2025; SInt 0]; [SStr "A"; SInt 2024; SInt 50]])
            ["Ministry"] ["Year"] "Amount"
  = Returns (mkDataFrame [ministry "A"; ministry "B"] (Index [LInt 2024; LInt 2025])
                         [[Z2F 150; Z2F 0]; [Z2F 200; nan]]).
Proof. vm_compute. reflexivity. Qed.

Lemma group_sum_all_missing xs :
  Forall (fun x => isnan x = true) xs -> group_sum xs = S754_zero false.
Proof.
  intros Hall. unfold group_sum.
  replace (filter (fun x => isnan x = false) xs) with (@nil float); [done|].
  symmetry. induction Hall as [|x xs Hx _ IH]; [done|].
  rewrite filter_cons_False by (by rewrite Hx). done.
Qed.

(** X5: a group whose records all have a missing amount is not left out and is
    not an undefined cell: its row and its column are in the table and its
    cell is [0.0]. *)
Theorem missing_amounts_sum_to_zero d index columns values t rk ck :
  well_formed d index columns values = true ->
  aggregate d index columns values = Returns t -> index <> [] -> columns <> [] ->
  amounts_of_group d index columns values rk ck <> [] ->
  Forall (fun x => isnan x = true) (amounts_of_group d index columns values rk ck) ->
  exists i j,
    df_index t !! i = Some rk /\ column_keys t !! j = Some ck /\
    cell_at t i j = Some (S754_zero false).
Proof.
  intros _ Hagg Hi Hc Hne Hall.
  pose proof (group_sum_all_missing _ Hall) as Hsum.
  assert ((rk, ck) ∈ kept_groups (observations d index columns values)) as Hkept.
  { apply kept_group_records. split; [done|]. by rewrite Hsum. }
  destruct (aggregate_axes _ _ _ _ _ Hagg Hi Hc) as (Hrows & Hcols & _).
  assert (rk ∈ df_index t) as [i Hrk]%list_elem_of_lookup.
  { rewrite Hrows. apply elem_of_pivot_rows. by exists ck. }
  assert (ck ∈ column_keys t) as [j Hck]%list_elem_of_lookup.
  { rewrite Hcols. apply elem_of_pivot_cols. by exists rk. }
  exists i, j. split; [done|]. split; [done|].
  rewrite (aggregate_cell _ _ _ _ _ _ _ _ _ Hagg Hi Hc Hrk Hck), Hsum.
  by destruct (amounts_of_group d index columns values rk ck).
Qed.

(** X5 at ministry B, whose only record has no amount. *)
Lemma missing_amounts_sum_to_zero_witness :
  exists i j,
    df_index (mkDataFrame [ministry "A"; ministry "B"] (Index [LInt 2024])
                          [[Z2F 100]; [S754_zero false]]) !! i = Some (ministry "B") /\
    column_keys (mkDataFrame [ministry "A"; ministry "B"] (Index [LInt 2024])
                             [[Z2F 100]; [S754_zero false]]) !! j = Some [LInt 2024] /\
    cell_at (mkDataFrame [ministry "A"; ministry "B"] (Index [LInt 2024])
                         [[Z2F 100]; [S754_zero false]]) i j = Some (S754_zero false).
Proof.
  apply (missing_amounts_sum_to_zero records_with_missing_amount
           ["Ministry"] ["Year"] "Amount").
  - reflexivity.
  - vm_compute. reflexivity.
  - done.
  - done.
  - vm_compute. done.
  - vm_compute. repeat constructor.
Defined.

Lemma group_sum_single x :
  isnan x = false -> x <> S754_zero true -> group_sum [x] = x.
Proof.
  intros Hnan Hneg. unfold group_sum. rewrite filter_cons_True by done.
  destruct x as [[]|[]| |s m e]; try done.
Qed.

(** X6: when a ministry has one record for a year, with an amount other than
    the negative zero, the row and the column are in the table [aggregate]
    returns and the cell is that amount. *)
Theorem single_record_amount_is_kept d index columns values t rk ck x :
  aggregate d index columns values = Returns t ->
  amounts_of_group d index columns values rk ck = [x] ->
  isnan x = false -> x <> S754_zero true ->
  exists i j,
    df_index t !! i = Some rk /\ column_keys t !! j = Some ck /\
    cell_at t i j = Some x.
Proof.
  intros Hagg Hone Hnan Hneg.
  destruct (pivot_table_returns_inv _ _ _ _ _ Hagg) as (_ & _ & _ & _ & Hi & Hc).
  pose proof (group_sum_single x Hnan Hneg) as Hsum.
  assert ((rk, ck) ∈ kept_groups (observations d index columns values)) as Hkept.
  { apply kept_group_records. rewrite Hone, Hsum. done. }
  destruct (aggregate_axes _ _ _ _ _ Hagg Hi Hc) as (Hrows & Hcols & _).
  assert (rk ∈ df_index t) as [i Hrk]%list_elem_of_lookup.
  { rewrite Hrows. apply elem_of_pivot_rows. by exists ck. }
  assert (ck ∈ column_keys t) as [j Hck]%list_elem_of_lookup.
  { rewrite Hcols. apply elem_of_pivot_cols. by exists rk. }
  exists i, j. split; [done|]. split; [done|].
  by rewrite (aggregate_cell _ _ _ _ _ _ _ _ _ Hagg Hi Hc Hrk Hck), Hone, Hsum.
Qed.

(** X6 at ministry B and year 2025 of the specification's scenario. *)
Lemma single_record_amount_is_kept_witness :
  exists i j,
    df_index scenario_table !! i = Some (ministry "B") /\
    column_keys scenario_table !! j = Some [LInt 2025] /\
    cell_at scenario_table i j = Some (Z2F 180).
Proof.
  apply (single_record_amount_is_kept scenario_records ["Ministry"] ["Year"] "Amount").
  - vm_compute. reflexivity.
  - vm_compute. reflexivity.
  - reflexivity.
  - vm_compute. discriminate.
Defined.

Lemma group_key_app fs ks1 ks2 r :
  is_Some (group_key fs (ks1 ++ ks2) r) <->
  is_Some (group_key fs ks1 r) /\ is_Some (group_key fs ks2 r).
Proof.
  unfold group_key. rewrite !mapM_is_Some, Forall_app. done.
Qed.

Lemma observe_without_keys fs index columns values r :
  ~ is_Some (group_key fs (index ++ columns) r) ->
  observe fs index columns values r = None.
Proof.
  rewrite group_key_app. intros Hnot. unfold observe.
  destruct (group_key fs index r) as [rk|]; [|done].
  destruct (group_key fs columns r) as [ck|]; [|done].
  destruct Hnot. split; by eexists.
Qed.

Lemma omap_filter_None {A B} (f : A -> option B) (P : A -> Prop)
    `{!forall x, Decision (P x)} (l : list A) :
  (forall x, ~ P x -> f x = None) -> omap f (filter P l) = omap f l.
Proof.
  intros Hf. induction l as [|a l IH]; [done|].
  rewrite filter_cons. destruct (decide (P a)) as [|Hn]; cbn; rewrite IH; [done|].
  by rewrite (Hf a Hn).
Qed.


Lemma forallb_omap_filter {A B} (p : B -> bool) (f : A -> option B) (P : A -> Prop)
    `{!forall x, Decision (P x)} (l : list A) :
  forallb p (omap f l) = true -> forallb p (omap f (filter P l)) = true.
Proof.
  induction l as [|a l IH]; [done|]. rewrite filter_cons. cbn.
  destruct (decide (P a)); cbn; destruct (f a); cbn; rewrite ?andb_true_iff;
    intros; try apply IH; intuition.
Qed.

Lemma int_magnitude_nonneg xs : 0 <= foldr Z.add 0 (int_magnitude <$> xs).
Proof.
  induction xs as [|[]]; cbn; lia.
Qed.

Lemma int_magnitude_omap_filter {A} (f : A -> option scalar) (P : A -> Prop)
    `{!forall x, Decision (P x)} (l : list A) :
  foldr Z.add 0 (int_magnitude <$> omap f (filter P l))
  <= foldr Z.add 0 (int_magnitude <$> omap f l).
Proof.
  induction l as [|a l IH]; [done|]. rewrite filter_cons. cbn.
  destruct (decide (P a)); cbn; destruct (f a) as [[]|]; cbn; lia.
Qed.

Lemma well_formed_with_keys d keys index columns values :
  well_formed d index columns values = true ->
  well_formed (with_keys d keys) index columns values = true.
Proof.
  unfold well_formed, with_keys. cbn [fields records].
  rewrite !andb_true_iff, !forallb_forall. intros [Hnames Hrecs]. split; [done|].
  intros r Hr. apply Hrecs. apply list_elem_of_In. apply list_elem_of_In in Hr.
  by apply list_elem_of_filter in Hr as [_ ?].
Qed.

Lemma typed_columns_with_keys d keys index columns values :
  typed_columns d index columns values = true ->
  typed_columns (with_keys d keys) index columns values = true.
Proof.
  unfold typed_columns, key_column, value_column, field_values, with_keys.
  cbn [fields records].
  rewrite !andb_true_iff. intros [Hkeys [Hty Hsum]]. split; [|split].
  - apply forallb_forall. intros k Hk.
    pose proof (proj1 (forallb_forall _ _) Hkeys k Hk) as [H|H]%orb_true_iff;
      apply orb_true_iff; [left|right]; by apply forallb_omap_filter.
  - by apply forallb_omap_filter.
  - apply Z.ltb_lt. apply Z.ltb_lt in Hsum.
    eapply Z.le_lt_trans; [apply int_magnitude_omap_filter|done].
Qed.

(** X7: records that lack a value in one of the key fields do not count:
    when [aggregate] returns a table, it returns the same table on the data
    without these records. *)
Theorem records_without_keys_are_ignored d index columns values t :
  aggregate d index columns values = Returns t ->
  aggregate (with_keys d (index ++ columns)) index columns values = Returns t.
Proof.
  intros Hagg. unfold aggregate in *.
  destruct (pivot_table_returns_inv _ _ _ _ _ Hagg) as (Hwf & Hty & Hv & Hk & Hi & Hc).
  rewrite pivot_table_returns in Hagg by done.
  rewrite pivot_table_returns;
    [|by apply well_formed_with_keys|by apply typed_columns_with_keys|done..].
  rewrite <- Hagg. cbv zeta.
  assert (observations (with_keys d (index ++ columns)) index columns values
          = observations d index columns values) as ->; [|done].
  unfold observations, with_keys. cbn [fields records].
  apply omap_filter_None. intros r. apply observe_without_keys.
Qed.

(** X7 at records of which one names no ministry. *)
Lemma records_without_keys_are_ignored_witness :
  aggregate (with_keys records_with_missing_ministry (["Ministry"] ++ ["Year"]))
            ["Ministry"] ["Year"] "Amount"
  = Returns (mkDataFrame [ministry "A"] (Index [LInt 2024]) [[Z2F 100]]).
Proof. apply records_without_keys_are_ignored. vm_compute. reflexivity. Defined.

(** ** Missing and unchanged amounts *)

Lemma pct_change_nan prev cur :
  isnan prev = true \/ isnan cur = true -> pct_change prev cur = nan.
Proof.
  unfold pct_change. intros [Hp|Hc].
  - destruct prev; try done; by destruct cur.
  - destruct cur; try done; by destruct prev.
Qed.

Lemma yoy_cell_at df r row i prev cur :
  df_values df !! r = Some row -> row !! i = Some prev -> row !! S i = Some cur ->
  cell_at (calculate_yoy_change df) r (S i)
  = Some (if is_zero prev then NA else Num (pct_change prev cur)).
Proof.
  intros Hrow Hp Hc. unfold cell_at. cbn.
  rewrite list_lookup_fmap, Hrow. cbn. by apply yoy_row_S.
Qed.

(** X8: when the amount of a year or of the year before is missing, the change
    of that year is undefined and is rendered as ["NaN"]. *)
Theorem missing_amount_gives_undefined_change df r row i prev cur :
  df_values df !! r = Some row -> row !! i = Some prev -> row !! S i = Some cur ->
  isnan prev = true \/ isnan cur = true ->
  exists c,
    cell_at (calculate_yoy_change df) r (S i) = Some c /\ undefined c /\
    format_percentage (of_cell c) = Returns "NaN".
Proof.
  intros Hrow Hp Hc Hnan. rewrite (yoy_cell_at _ _ _ _ _ _ Hrow Hp Hc).
  rewrite (pct_change_nan _ _ Hnan).
  destruct (is_zero prev); eexists; (split; [done|]); by split.
Qed.

(** X8 at the row [[100, NaN, 120]], for its last year. *)
Lemma missing_amount_gives_undefined_change_witness :
  exists c,
    cell_at (calculate_yoy_change
               (mkDataFrame [ministry "A"] (Index [LInt 2023; LInt 2024; LInt 2025])
                            [[Z2F 100; nan; Z2F 120]])) 0 2 = Some c /\
    undefined c /\ format_percentage (of_cell c) = Returns "NaN".
Proof.
  apply (missing_amount_gives_undefined_change _ 0%nat [Z2F 100; nan; Z2F 120] 1%nat
           nan (Z2F 120)); [reflexivity..|by left].
Defined.

Lemma fsub_diag s m e : fsub (S754_finite s m e) (S754_finite s m e) = S754_zero false.
Proof.
  unfold fsub, SFsub. rewrite Z.min_id. unfold shl_align.
  by rewrite !Z.sub_diag.
Qed.

(** X9: an amount that is the same as the year before gives a change of zero,
    and [format_percentage] renders a zero change as ["NaN"], the text of an
    undefined change. *)
Theorem unchanged_amount_formats_as_NaN df r row i s m e :
  df_values df !! r = Some row ->
  row !! i = Some (S754_finite s m e) -> row !! S i = Some (S754_finite s m e) ->
  exists z,
    cell_at (calculate_yoy_change df) r (S i) = Some (Num (S754_zero z)) /\
    format_percentage (PyFloat (S754_zero z)) = Returns "NaN".
Proof.
  intros Hrow Hp Hc. rewrite (yoy_cell_at _ _ _ _ _ _ Hrow Hp Hc).
  exists s. split; [|by destruct s].
  assert (is_zero (S754_finite s m e) = false) as -> by (by destruct s).
  unfold pct_change. rewrite fsub_diag. by destruct s.
Qed.

(** X9 at the row [[100, 100]]. *)
Lemma unchanged_amount_formats_as_NaN_witness :
  exists z,
    cell_at (calculate_yoy_change
               (mkDataFrame [ministry "A"] (Index [LInt 2024; LInt 2025])
                            [[Z2F 100; Z2F 100]])) 0 1
    = Some (Num (S754_zero z)) /\
    format_percentage (PyFloat (S754_zero z)) = Returns "NaN".
Proof.
  apply (unchanged_amount_formats_as_NaN _ 0%nat [Z2F 100; Z2F 100] 0%nat
           false 7036874417766400 (-46)); reflexivity.
Defined.

Lemma omap_lookup_fmap {A B} (f : A -> B) (l : list A) (I : list nat) :
  omap (fun i => (f <$> l) !! i) I = f <$> omap (fun i => l !! i) I.
Proof.
  induction I as [|i I IH]; [done|]. cbn. rewrite list_lookup_fmap, IH.
  by destruct (l !! i).
Qed.

(** ** The rendered text *)

(** X11: a positive number and its opposite are rendered with the same digits,
    after ["+"] and after ["-"]. *)
Theorem format_percentage_sign_symmetry x :
  flt (S754_zero false) x = true ->
  exists digits,
    format_percentage (PyFloat x) = Returns ("+" +:+ digits +:+ "%") /\
    format_percentage (PyFloat (SFopp x)) = Returns ("-" +:+ digits +:+ "%").
Proof.
  intros Hpos. destruct x as [s|[]| |[] m e]; try done.
  - by exists "inf".
  - eexists. split; reflexivity.
Qed.

(** X11 at [3.333]. *)
Lemma format_percentage_sign_symmetry_witness :
  exists digits,
    format_percentage (PyFloat (decimal_literal 3333 3)) = Returns ("+" +:+ digits +:+ "%") /\
    format_percentage (PyFloat (SFopp (decimal_literal 3333 3)))
    = Returns ("-" +:+ digits +:+ "%").
Proof. apply format_percentage_sign_symmetry. reflexivity. Defined.

Lemma string_append_assoc s1 s2 s3 : (s1 +:+ s2) +:+ s3 = s1 +:+ s2 +:+ s3.
Proof.
  induction s1 as [|a s1 IH]; [done|].
  change (String a ((s1 +:+ s2) +:+ s3) = String a (s1 +:+ s2 +:+ s3)). by f_equal.
Qed.

Lemma is_digits_app s1 s2 : is_digits (s1 +:+ s2) = is_digits s1 && is_digits s2.
Proof. unfold is_digits. by rewrite list_ascii_of_string_app, forallb_app. Qed.

Lemma is_digits_string_of_uint d : is_digits (NilEmpty.string_of_uint d) = true.
Proof. induction d; cbn; try done; by rewrite IHd. Qed.

Lemma is_digits_decimal n : is_digits (decimal n) = true.
Proof. apply is_digits_string_of_uint. Qed.

Lemma two_digits k :
  0 <= k < 100 ->
  let frac := (if k <? 10 then "0" else "") +:+ decimal k in
  is_digits frac = true /\ String.length frac = 2%nat.
Proof.
  intros Hk.
  assert (Forall (fun n => let k := Z.of_nat n in
                    let frac := (if k <? 10 then "0" else "") +:+ decimal k in
                    is_digits frac = true /\ String.length frac = 2%nat)
                 (seq 0 100)) as Hall.
  { vm_compute. repeat constructor. }
  rewrite Forall_forall in Hall.
  specialize (Hall (Z.to_nat k)). rewrite Z2Nat.id in Hall by lia.
  apply Hall. apply elem_of_seq. lia.
Qed.

Lemma fixed2_shape neg h :
  exists whole frac,
    fixed2 neg h = sign_str neg +:+ whole +:+ "." +:+ frac /\
    is_digits whole = true /\ is_digits frac = true /\ String.length frac = 2%nat.
Proof.
  exists (decimal (h / 100)), ((if h mod 100 <? 10 then "0" else "") +:+ decimal (h mod 100)).
  split.
  - unfold fixed2. destruct (h mod 100 <? 10), neg; cbn; done.
  - split; [apply is_digits_decimal|]. apply two_digits. apply Z.mod_pos_bound. lia.
Qed.

(** X12: what a cell of the table of changes is rendered as: ["NaN"], an
    infinity, or a sign, digits, a point, two digits and a percent sign. *)
Theorem format_percentage_shape c :
  exists s,
    format_percentage (of_cell c) = Returns s /\
    (s = "NaN" \/ s = "+inf%" \/ s = "-inf%" \/
     exists sign whole frac,
       s = sign +:+ whole +:+ "." +:+ frac +:+ "%" /\ (sign = "+" \/ sign = "-") /\
       is_digits whole = true /\ is_digits frac = true /\ String.length frac = 2%nat).
Proof.
  destruct c as [[s|[]| |[] m e]|]; cbn.
  - exists "NaN". split; [by destruct s|by left].
  - exists "-inf%". split; [done|]. right. right. by left.
  - exists "+inf%". split; [done|]. right. by left.
  - exists "NaN". split; [done|by left].
  - destruct (fixed2_shape true (hundredths m e)) as (whole & frac & Hf & Hw & Hfr & Hlen).
    eexists. split; [reflexivity|]. right. right. right.
    exists "-", whole, frac. split; [|by split; [right|]].
    unfold format_float_2f. rewrite Hf. cbn.
    by rewrite !string_append_assoc.
  - destruct (fixed2_shape false (hundredths m e)) as (whole & frac & Hf & Hw & Hfr & Hlen).
    eexists. split; [reflexivity|]. right. right. right.
    exists "+", whole, frac. split; [|by split; [left|]].
    unfold format_float_2f. rewrite Hf. cbn.
    by rewrite !string_append_assoc.
  - exists "NaN". split; [done|by left].
Qed.

(** X13: a change that is not zero but at most 0.005 in magnitude ([m * 2^e] with
    [200 * m <= 2^-e]) is rendered as ["+0.00%"] or ["-0.00%"], not as
    ["NaN"] as a zero change is. *)
Theorem small_change_formats_as_zero x s m e :
  x = S754_finite s m e -> 200 * Z.pos m <= 2 ^ (- e) ->
  format_percentage (PyFloat x) = Returns (if s then "-0.00%" else "+0.00%").
Proof.
  intros -> Hsmall.
  assert (e < 0) as He.
  { destruct (Z.ltb_spec e 0) as [|Hge]; [done|].
    assert (2 ^ (- e) <= 1); [|lia].
    destruct (Z.eq_dec e 0) as [->|]; [done|].
    rewrite Z.pow_neg_r by lia. lia. }
  assert (hundredths m e = 0) as Hh.
  { unfold hundredths. destruct (Z.leb_spec 0 e); [lia|].
    unfold round_half_even.
    assert (0 < 2 ^ (- e)) by (apply Z.pow_pos_nonneg; lia).
    rewrite Z.div_small, Z.mod_small by lia.
    destruct (Z.compare_spec (2 * (100 * Z.pos m)) (2 ^ (- e))); [done..|lia]. }
  destruct s; unfold format_percentage; cbn; by rewrite Hh.
Qed.

(** X13 at [-0.001]. *)
Lemma small_change_formats_as_zero_witness :
  format_percentage (PyFloat (decimal_literal (-1) 3)) = Returns "-0.00%".
Proof.
  apply (small_change_formats_as_zero (decimal_literal (-1) 3) true
           4611686018427388 (-62)); [reflexivity|vm_compute; discriminate].
Defined.

(** X14: a cell of the table of changes is rendered as ["NaN"] exactly when it
    is undefined or zero. *)
Theorem NaN_text_iff c :
  format_percentage (of_cell c) = Returns "NaN" <->
  undefined c \/ exists s, c = Num (S754_zero s).
Proof.
  destruct c as [[s|[]| |[] m e]|]; cbn.
  - split; [intros _; right; by exists s|by destruct s].
  - split; [done|]. intros [?|[s ?]]; done.
  - split; [done|]. intros [?|[s ?]]; done.
  - split; [by left|done].
  - split; [done|]. intros [?|[s ?]]; done.
  - split; [done|]. intros [?|[s ?]]; done.
  - split; [by left|done].
Qed.

Lemma hundredths_exact m e p :
  -52 <= e <= 0 -> Z.pos m = Z.pos p * 2 ^ (- e) -> hundredths m e = 100 * Z.pos p.
Proof.
  intros He Hm. unfold hundredths. destruct (Z.leb_spec 0 e).
  - assert (e = 0) as -> by lia. rewrite Hm. cbn. lia.
  - unfold round_half_even. rewrite Hm.
    assert (0 < 2 ^ (- e)) as Hpos by (apply Z.pow_pos_nonneg; lia).
    replace (100 * (Z.pos p * 2 ^ (- e))) with (100 * Z.pos p * 2 ^ (- e)) by lia.
    rewrite Z.div_mul, Z.mod_mul by lia.
    destruct (Z.compare_spec (2 * 0) (2 ^ (- e))); [lia|done|lia].
Qed.

Lemma fixed2_whole neg p :
  fixed2 neg (100 * Z.pos p) = sign_str neg +:+ decimal (Z.pos p) +:+ ".00".
Proof.
  unfold fixed2. rewrite (Z.mul_comm 100), Z.div_mul, Z.mod_mul by lia. done.
Qed.

(** X15: an int that is not zero and is below [2^53] in magnitude is rendered
    exactly: its sign, its decimal digits and [".00%"]. *)
Theorem format_percentage_of_int z :
  z <> 0 -> Z.abs z < 2 ^ 53 ->
  format_percentage (PyInt z)
  = Returns ((if 0 <? z then "+" else "-") +:+ decimal (Z.abs z) +:+ ".00%").
Proof.
  intros Hnz Hlt. destruct z as [|p|p]; [done| |].
  - destruct (Z2F_exact false p Hlt) as (m & e & HF & He & Hm).
    unfold format_percentage, format_2f, float_of_int, Z2F. cbn [binary_normalize].
    cbn [isinstance_int_float py_gt0 py_lt0]. rewrite HF.
    change (0 <? Z.pos p) with true. cbn [mbind outcome_bind format_float_2f].
    rewrite (hundredths_exact m e p He Hm), fixed2_whole. cbn [sign_str Z.abs].
    by rewrite !string_append_assoc.
  - destruct (Z2F_exact true p Hlt) as (m & e & HF & He & Hm).
    unfold format_percentage, format_2f, float_of_int, Z2F. cbn [binary_normalize].
    cbn [isinstance_int_float py_gt0 py_lt0]. rewrite HF.
    change (0 <? Z.neg p) with false. change (Z.neg p <? 0) with true.
    cbn [mbind outcome_bind format_float_2f].
    rewrite (hundredths_exact m e p He Hm), fixed2_whole. cbn [sign_str Z.abs].
    by rewrite !string_append_assoc.
Qed.

(** X15 at [-7]. *)
Lemma format_percentage_of_int_witness :
  format_percentage (PyInt (-7)) = Returns ("-" +:+ decimal 7 +:+ ".00%").
Proof. apply (format_percentage_of_int (-7)); [done|reflexivity]. Defined.

(** ** The dictionary of orderings *)

Lemma index_where_all {A} (p : A -> bool) l :
  Forall (fun x => p x = true) l -> index_where p l = seq 0 (length l).
Proof.
  induction 1 as [|a l Ha _ IH]; [done|].
  rewrite index_where_cons, Ha, IH. cbn [length]. by rewrite <- cons_seq, fmap_S_seq.
Qed.

Lemma filter_all_true {A} (p : A -> bool) (l : list A) :
  Forall (fun x => p x = true) (filter (fun x => p x = true) l).
Proof. apply Forall_forall. by intros x [Hx _]%list_elem_of_filter. Qed.

Lemma length_index_where {A} (p : A -> bool) (l : list A) :
  length (index_where p l) = length (filter (fun x => p x = true) l).
Proof.
  induction l as [|a l IH]; [done|].
  rewrite index_where_cons, filter_cons.
  destruct (p a); cbn; rewrite ?length_fmap, IH; by case_decide.
Qed.

(** The positions that satisfy [p] in the elements that satisfy [p]. *)
Lemma index_where_filter {A} (p : A -> bool) (l : list A) :
  index_where p (filter (fun x => p x = true) l) = seq 0 (length (index_where p l)).
Proof. by rewrite index_where_all, length_index_where by apply filter_all_true. Qed.

Lemma index_where_unique {A} (p : A -> bool) (l : list A) x :
  NoDup l -> x ∈ l -> (forall y, y ∈ l -> p y = true <-> y = x) ->
  exists i, index_where p l = [i] /\ l !! i = Some x.
Proof.
  induction 1 as [|a l Ha Hnd IH]; [by intros ?%elem_of_nil|].
  intros Hin Hp. rewrite index_where_cons.
  destruct (p a) eqn:Hpa.
  - assert (a = x) as Hax by (apply Hp; [left|done]). subst a.
    exists 0%nat. split; [|done].
    rewrite index_where_none; [done|]. apply Forall_forall. intros y Hy.
    destruct (p y) eqn:Hpy; [|done].
    apply Hp in Hpy; [|by right]. by subst y.
  - apply elem_of_cons in Hin as [->|Hin].
    { assert (p a = true) as Hpx by (apply Hp; [left|done]). congruence. }
    destruct IH as (i & -> & Hi); [done| |by exists (S i)].
    intros y Hy. apply Hp. by right.
Qed.

Lemma occurrences_pos ls year : year ∈ ls -> (0 < occurrences ls year)%nat.
Proof.
  intros [i Hi]%list_elem_of_lookup. unfold occurrences.
  assert (i ∈ index_where (fun x => bool_decide (x = year)) ls) as Hin.
  { apply elem_of_index_where. exists year. by rewrite bool_decide_eq_true_2. }
  destruct (index_where _ ls); [by apply elem_of_nil in Hin|cbn; lia].
Qed.

Lemma occurrences_NoDup ls :
  Forall (fun year => occurrences ls year = 1%nat) ls -> NoDup ls.
Proof.
  rewrite Forall_forall. intros Hone. apply NoDup_alt. intros i j x Hi Hj.
  specialize (Hone x (list_elem_of_lookup_2 _ _ _ Hi)). unfold occurrences in Hone.
  assert (i ∈ index_where (fun y => bool_decide (y = x)) ls) as Hii.
  { apply elem_of_index_where. exists x. by rewrite bool_decide_eq_true_2. }
  assert (j ∈ index_where (fun y => bool_decide (y = x)) ls) as Hjj.
  { apply elem_of_index_where. exists x. by rewrite bool_decide_eq_true_2. }
  destruct (index_where _ ls) as [|k [|? ?]]; [done| |done].
  apply list_elem_of_singleton in Hii, Hjj. congruence.
Qed.

Lemma direction_key_inj a1 a2 y1 y2 :
  direction_key a1 y1 = direction_key a2 y2 -> a1 = a2 /\ label_str y1 = label_str y2.
Proof.
  destruct a1, a2; cbn; intros Heq.
  - split; [done|]. by apply asc_key_inj.
  - by apply asc_key_desc_key in Heq.
  - symmetry in Heq. by apply asc_key_desc_key in Heq.
  - split; [done|]. by apply desc_key_inj.
Qed.

Section more_orderings.
Context `{Quicksort}.

(** X16: the keys of the dictionary are the two keys of each year, and no
    others. *)
Theorem sorted_budgets_key_set budget_data m k :
  sort_yearly_budgets budget_data = Returns m ->
  is_Some (m !! k) <->
  exists year, year ∈ years (df_columns budget_data) /\
               (k = asc_key year \/ k = desc_key year).
Proof.
  intros Hrun. split.
  - intros [t Ht].
    destruct (sort_yearly_budgets_entry _ _ _ _ Hrun Ht) as (year & a & Hy & -> & _).
    exists year. split; [done|]. destruct a; [by left|by right].
  - intros (year & Hy & Hk).
    destruct (sort_yearly_budgets_has_keys _ _ _ Hrun Hy) as [Ha Hd].
    by destruct Hk as [->| ->].
Qed.

Lemma getitem_columns (budget_data : DataFrame float) ls year :
  df_columns budget_data = Index ls ->
  df_columns (getitem budget_data ls year)
  = Index (filter (fun x => bool_decide (x = year) = true) ls).
Proof.
  intros Hcols. unfold getitem, take_columns. cbn. rewrite Hcols.
  by rewrite index_where_lookup.
Qed.

Lemma flat_resolve_by (budget_data : DataFrame float) ls year :
  df_columns budget_data = Index ls ->
  resolve_by (df_columns (getitem budget_data ls year)) (ByLabel year)
  = match occurrences ls year with
    | 0%nat => Raises (KeyError [year])
    | 1%nat => Returns 0%nat
    | _ => Raises (LabelNotUnique [year] false)
    end.
Proof.
  intros Hcols. rewrite (getitem_columns _ _ _ Hcols). cbn [resolve_by].
  rewrite (index_where_filter (fun x => bool_decide (x = year)) ls).
  unfold occurrences. by destruct (length _) as [|[|n]].
Qed.

Lemma flat_iteration budget_data ls year m :
  df_columns budget_data = Index ls -> year ∈ ls ->
  (occurrences ls year = 1%nat -> exists m', iteration budget_data year m = Returns m') /\
  (occurrences ls year <> 1%nat -> iteration budget_data year m = Raises (LabelNotUnique [year] false)).
Proof.
  intros Hcols Hin. pose proof (occurrences_pos _ _ Hin) as Hpos.
  unfold iteration, year_slice. rewrite Hcols. cbn [mbind outcome_bind].
  unfold sort_year, sort_values. rewrite (flat_resolve_by _ _ _ Hcols).
  destruct (occurrences ls year) as [|[|n]]; [lia| |].
  - split; [intros _; cbn; by eexists|done].
  - split; [done|intros _; done].
Qed.

Lemma flat_loop budget_data ls ys m i year :
  df_columns budget_data = Index ls -> ys ⊆ ls ->
  ys !! i = Some year -> occurrences ls year <> 1%nat ->
  (forall j y, (j < i)%nat -> ys !! j = Some y -> occurrences ls y = 1%nat) ->
  for_each (iteration budget_data) ys m = Raises (LabelNotUnique [year] false).
Proof.
  intros Hcols. revert m i. induction ys as [|y ys IH]; intros m i Hsub Hi Hmany Hbefore.
  { done. }
  assert (y ∈ ls) as Hin by (apply Hsub; left).
  destruct (flat_iteration budget_data ls y m Hcols Hin) as [Hone Hmany'].
  cbn [for_each]. destruct i as [|i].
  - injection Hi as ->. by rewrite (Hmany' Hmany).
  - destruct (Hone (Hbefore 0%nat y ltac:(lia) eq_refl)) as [m' ->]. cbn.
    apply (IH m' i); [|done..|].
    + intros z Hz. apply Hsub. by right.
    + intros j z Hj Hz. apply (Hbefore (S j) z); [lia|done].
Qed.

(** X17: on a flat table in which a year labels more than one column the call
    raises the [ValueError] of [sort_values] for a label that is not unique,
    naming the first such year: no dictionary is returned. *)
Theorem duplicate_year_labels_raise budget_data ls :
  df_columns budget_data = Index ls -> ~ NoDup ls ->
  exists i year,
    ls !! i = Some year /\ (1 < occurrences ls year)%nat /\
    (forall j y, (j < i)%nat -> ls !! j = Some y -> occurrences ls y = 1%nat) /\
    sort_yearly_budgets budget_data = Raises (LabelNotUnique [year] false) /\
    exn_class (LabelNotUnique [year] false) = "ValueError".
Proof.
  intros Hcols Hdup.
  destruct (list_find (fun y => occurrences ls y <> 1%nat) ls) as [[i year]|] eqn:Hfind.
  - apply list_find_Some in Hfind as (Hi & Hmany & Hbefore).
    exists i, year. split; [done|].
    pose proof (occurrences_pos ls year (list_elem_of_lookup_2 _ _ _ Hi)).
    split; [lia|].
    assert (forall j y, (j < i)%nat -> ls !! j = Some y -> occurrences ls y = 1%nat) as Hb.
    { intros j y Hj Hy. specialize (Hbefore j y Hy Hj).
      by destruct (decide (occurrences ls y = 1%nat)). }
    split; [done|]. split; [|done].
    rewrite sort_yearly_budgets_loop, Hcols. cbn [years].
    by apply (flat_loop _ ls ls _ i year).
  - apply list_find_None in Hfind. destruct Hdup. apply occurrences_NoDup.
    eapply Forall_impl; [done|]. cbn. intros year Hone.
    by destruct (decide (occurrences ls year = 1%nat)).
Qed.

Lemma xs_columns (budget_data : DataFrame float) ts year :
  df_columns budget_data = MultiIndex ts ->
  df_columns (xs budget_data ts year)
  = MultiIndex (filter (fun t => bool_decide (t.1.2 = year) = true) ts).
Proof.
  intros Hcols. unfold xs, take_columns. cbn. rewrite Hcols.
  by rewrite index_where_lookup.
Qed.

Lemma two_level_resolve_by (budget_data : DataFrame float) ts c0 year :
  df_columns budget_data = MultiIndex ts -> NoDup ts -> Forall two_level_tuple ts ->
  ((c0, year, []) ∈ ts ->
   exists j, resolve_by (df_columns (xs budget_data ts year)) (ByTuple c0 year) = Returns j) /\
  ((c0, year, []) ∉ ts ->
   resolve_by (df_columns (xs budget_data ts year)) (ByTuple c0 year)
   = Raises (KeyError [c0; year])).
Proof.
  intros Hcols Hnd Htwo. rewrite (xs_columns _ _ _ Hcols). cbn [resolve_by].
  set (fts := filter (fun t => bool_decide (t.1.2 = year) = true) ts).
  assert (forall t, t ∈ fts ->
            bool_decide (t.1.1 = c0 /\ t.1.2 = year) = true <-> t = (c0, year, [])) as Hp.
  { intros [[l0 l1] rest] [_ Hin]%list_elem_of_filter.
    rewrite Forall_forall in Htwo. specialize (Htwo _ Hin). unfold two_level_tuple in Htwo.
    cbn in Htwo. subst rest. rewrite bool_decide_eq_true. cbn. split.
    - by intros [-> ->].
    - by intros [= -> ->]. }
  split.
  - intros Hin.
    assert ((c0, year, []) ∈ fts) as Hinf.
    { apply list_elem_of_filter. split; [by apply bool_decide_eq_true_2|done]. }
    destruct (index_where_unique _ fts (c0, year, []) (NoDup_filter _ _ Hnd) Hinf Hp)
      as (j & -> & Hj).
    rewrite Hj. by exists j.
  - intros Hnot. rewrite index_where_none; [done|].
    apply Forall_forall. intros t Ht.
    destruct (bool_decide (t.1.1 = c0 /\ t.1.2 = year)) eqn:Hb; [|done].
    apply (Hp t Ht) in Hb. subst t.
    apply list_elem_of_filter in Ht as [_ Ht]. done.
Qed.

Lemma two_level_iteration budget_data ts c0 year m :
  df_columns budget_data = MultiIndex ts -> first_outer_label ts = Returns c0 ->
  NoDup ts -> Forall two_level_tuple ts ->
  ((c0, year, []) ∈ ts -> exists m', iteration budget_data year m = Returns m') /\
  ((c0, year, []) ∉ ts -> iteration budget_data year m = Raises (KeyError [c0; year])).
Proof.
  intros Hcols Hfirst Hnd Htwo.
  destruct (two_level_resolve_by budget_data ts c0 year Hcols Hnd Htwo) as [Hin Hout].
  unfold iteration, year_slice. rewrite Hcols.
  destruct ts as [|[[c0' l1] rest] ts']; [done|]. injection Hfirst as ->.
  cbn [mbind outcome_bind]. unfold sort_year, sort_values. split.
  - intros Hc. destruct (Hin Hc) as [j ->]. cbn. by eexists.
  - intros Hc. by rewrite (Hout Hc).
Qed.

Lemma two_level_loop budget_data ts c0 ys m :
  df_columns budget_data = MultiIndex ts -> first_outer_label ts = Returns c0 ->
  NoDup ts -> Forall two_level_tuple ts ->
  (Forall (fun year => (c0, year, []) ∈ ts) ys ->
   exists m', for_each (iteration budget_data) ys m = Returns m') /\
  (Exists (fun year => (c0, year, []) ∉ ts) ys ->
   exists year, for_each (iteration budget_data) ys m = Raises (KeyError [c0; year]) /\
                year ∈ ys /\ (c0, year, []) ∉ ts).
Proof.
  intros Hcols Hfirst Hnd Htwo. revert m. induction ys as [|year ys IH]; intros m.
  { split; [by exists m|by intros ?%Exists_nil]. }
  destruct (two_level_iteration budget_data ts c0 year m Hcols Hfirst Hnd Htwo)
    as [Hin Hout].
  cbn [for_each]. split.
  - intros [Hy Hys]%Forall_cons. destruct (Hin Hy) as [m' ->]. cbn. by apply IH.
  - intros Hex. destruct (decide ((c0, year, []) ∈ ts)) as [Hy|Hy].
    + destruct (Hin Hy) as [m' ->]. cbn.
      apply Exists_cons in Hex as [?|Hex]; [done|].
      destruct (proj2 (IH m') Hex) as (y & -> & ? & ?). exists y.
      split; [done|]. split; [by right|done].
    + rewrite (Hout Hy). exists year. split; [done|]. split; [by left|done].
Qed.

Lemma elem_of_unique l x : x ∈ unique l <-> x ∈ l.
Proof.
  induction l as [|a l IH]; [done|]. cbn [unique].
  rewrite !elem_of_cons, list_elem_of_filter, IH.
  destruct (decide (x = a)); tauto.
Qed.

(** X18: on a two-level table the call returns when the outer label of the first
    column has a column for every year; the dictionary then holds both
    orderings of every year, each with the rows of the table. *)
Theorem two_level_table_has_all_orderings budget_data ts c0 :
  df_columns budget_data = MultiIndex ts -> first_outer_label ts = Returns c0 ->
  NoDup ts -> Forall two_level_tuple ts -> rectangular budget_data ->
  (forall year, year ∈ level1 ts -> (c0, year, []) ∈ ts) ->
  exists m,
    sort_yearly_budgets budget_data = Returns m /\
    forall year, year ∈ level1 ts ->
      exists asc desc,
        m !! asc_key year = Some asc /\ m !! desc_key year = Some desc /\
        df_index asc ≡ₚ df_index budget_data /\
        df_index desc ≡ₚ df_index budget_data /\
        length (df_values asc) = length (df_values budget_data) /\
        length (df_values desc) = length (df_values budget_data).
Proof.
  intros Hcols Hfirst Hnd Htwo Hrect Hall.
  destruct (two_level_loop budget_data ts c0 (unique (level1 ts)) ∅
              Hcols Hfirst Hnd Htwo) as [Hret _].
  destruct Hret as [m Hrun].
  { apply Forall_forall. intros year Hy. apply Hall. by apply elem_of_unique. }
  assert (sort_yearly_budgets budget_data = Returns m) as Hm.
  { rewrite sort_yearly_budgets_loop, Hcols. exact Hrun. }
  exists m. split; [done|]. intros year Hy.
  destruct (sort_yearly_budgets_has_keys budget_data m year Hm) as [[a Ha] [d Hd]].
  { rewrite Hcols. cbn [years]. by apply elem_of_unique. }
  exists a, d.
  destruct (orderings_keep_the_rows _ _ _ _ Hrect Hm Ha) as [? ?].
  destruct (orderings_keep_the_rows _ _ _ _ Hrect Hm Hd) as [? ?].
  done.
Qed.

(** X19: on a two-level table the call raises [KeyError] when for some year the
    outer label of the first column has no column: the sort key is
    [(budget_data.columns[0][0], year)] for every year. *)
Theorem two_level_table_missing_column_raises budget_data ts c0 :
  df_columns budget_data = MultiIndex ts -> first_outer_label ts = Returns c0 ->
  NoDup ts -> Forall two_level_tuple ts ->
  (exists year, year ∈ level1 ts /\ (c0, year, []) ∉ ts) ->
  exists year,
    sort_yearly_budgets budget_data = Raises (KeyError [c0; year]) /\
    year ∈ level1 ts /\ (c0, year, []) ∉ ts.
Proof.
  intros Hcols Hfirst Hnd Htwo (year & Hy & Hmiss).
  destruct (two_level_loop budget_data ts c0 (unique (level1 ts)) ∅
              Hcols Hfirst Hnd Htwo) as [_ Hraise].
  destruct Hraise as (y & Hrun & Hin & Hout).
  { apply Exists_exists. exists year. split; [by apply elem_of_unique|done]. }
  exists y. rewrite sort_yearly_budgets_loop, Hcols. cbn [years].
  split; [done|]. split; [by apply elem_of_unique|done].
Qed.
End more_orderings.

(** X16 at the key ["2024_asc"] of the specification's scenario. *)
Lemma sorted_budgets_key_set_witness :
  is_Some (returned ∅ (@sort_yearly_budgets stable_sort scenario_table) !! "2024_asc") <->
  exists year, year ∈ years (df_columns scenario_table) /\
               ("2024_asc" = asc_key year \/ "2024_asc" = desc_key year).
Proof.
  apply (sorted_budgets_key_set (H := stable_sort) scenario_table).
  vm_compute. reflexivity.
Defined.

(** X17 at a table with two columns labelled 2024. *)
Lemma duplicate_year_labels_raise_witness :
  exists i year,
    [LInt 2024; LInt 2024] !! i = Some year /\
    (1 < occurrences [LInt 2024; LInt 2024] year)%nat /\
    (forall j y, (j < i)%nat -> [LInt 2024; LInt 2024] !! j = Some y ->
                 occurrences [LInt 2024; LInt 2024] y = 1%nat) /\
    @sort_yearly_budgets stable_sort
      (mkDataFrame [ministry "A"] (Index [LInt 2024; LInt 2024]) [[Z2F 1; Z2F 2]])
    = Raises (LabelNotUnique [year] false) /\
    exn_class (LabelNotUnique [year] false) = "ValueError".
Proof.
  apply (duplicate_year_labels_raise (H := stable_sort) _ [LInt 2024; LInt 2024]).
  - reflexivity.
  - compute_done.
Defined.

(** Two columns labelled 2024: the error names the year. *)
Example duplicate_year_2024 :
  @sort_yearly_budgets stable_sort
    (mkDataFrame [ministry "A"] (Index [LInt 2024; LInt 2024]) [[Z2F 1; Z2F 2]])
  = Raises (LabelNotUnique [LInt 2024] false).
Proof. vm_compute. reflexivity. Qed.

(** X18 at a table whose first agency has a column for both years. *)
Lemma two_level_table_has_all_orderings_witness :
  exists m,
    @sort_yearly_budgets stable_sort agencies_table = Returns m /\
    forall year,
      year ∈ level1 agencies_columns ->
      exists asc desc,
        m !! asc_key year = Some asc /\ m !! desc_key year = Some desc /\
        df_index asc ≡ₚ df_index agencies_table /\
        df_index desc ≡ₚ df_index agencies_table /\
        length (df_values asc) = length (df_values agencies_table) /\
        length (df_values desc) = length (df_values agencies_table).
Proof.
  apply (two_level_table_has_all_orderings (H := stable_sort) agencies_table _ (LStr "a")).
  - reflexivity.
  - reflexivity.
  - compute_done.
  - repeat constructor.
  - split; [reflexivity|]. repeat constructor.
  - intros year Hy. vm_compute in Hy.
    repeat (apply elem_of_cons in Hy as [->|Hy]; [compute_done|]).
    by apply elem_of_nil in Hy.
Defined.

(** X19 at the table whose first agency has no column for 2025. *)
Lemma two_level_table_missing_column_raises_witness :
  exists year,
    @sort_yearly_budgets stable_sort two_level_table
    = Raises (KeyError [LStr "a"; year]) /\
    year ∈ level1 two_level_columns /\ (LStr "a", year, []) ∉ two_level_columns.
Proof.
  apply (two_level_table_missing_column_raises (H := stable_sort) two_level_table).
  - reflexivity.
  - reflexivity.
  - compute_done.
  - repeat constructor.
  - exists (LInt 2025). split; compute_done.
Defined.

Lemma zip_omap_lookup {A B} (l1 : list A) (l2 : list B) (I : list nat) :
  length l1 = length l2 ->
  zip (omap (fun i => l1 !! i) I) (omap (fun i => l2 !! i) I)
  = omap (fun i => zip l1 l2 !! i) I.
Proof.
  intros Hlen. induction I as [|i I IH]; [done|]. cbn.
  rewrite lookup_zip_with.
  destruct (l1 !! i) as [a|] eqn:H1, (l2 !! i) as [b|] eqn:H2; cbn.
  - by rewrite IH.
  - apply lookup_lt_Some in H1. apply lookup_ge_None in H2. lia.
  - apply lookup_ge_None in H1. apply lookup_lt_Some in H2. lia.
  - done.
Qed.

Lemma take_rows_pairs {C} (df : DataFrame C) I :
  length (df_values df) = length (df_index df) ->
  I ≡ₚ seq 0 (length (df_values df)) ->
  zip (df_index (take_rows I df)) (df_values (take_rows I df))
  ≡ₚ zip (df_index df) (df_values df).
Proof.
  intros Hlen HI. cbn. rewrite zip_omap_lookup by done. rewrite HI.
  replace (length (df_values df)) with (length (zip (df_index df) (df_values df))).
  - by rewrite omap_lookup_seq.
  - rewrite length_zip_with. lia.
Qed.

Lemma flat_slice_values (budget_data : DataFrame float) ls j year :
  df_columns budget_data = Index ls -> rectangular budget_data -> ls !! j = Some year ->
  (fun row : list float => omap (fun k => row !! k) [j]) <$> df_values budget_data
  = (fun row => [item row j]) <$> df_values budget_data.
Proof.
  intros Hcols [_ Hrows] Hj. rewrite Hcols in Hrows. cbn in Hrows.
  apply Forall_fmap_ext_1. eapply Forall_impl; [done|]. cbn.
  intros row Hlen. apply lookup_lt_Some in Hj.
  destruct (row !! j) as [x|] eqn:Hx.
  - by rewrite (item_lookup _ _ _ Hx).
  - apply lookup_ge_None in Hx. lia.
Qed.

Section whole_rows.
Context `{Quicksort}.

(** On a flat table the ordering of a year is the year's column, its rows
    reordered by their amounts. *)
Lemma flat_ordering budget_data ls m j year ascending t :
  df_columns budget_data = Index ls -> NoDup (label_str <$> ls) ->
  rectangular budget_data ->
  sort_yearly_budgets budget_data = Returns m ->
  ls !! j = Some year -> m !! direction_key ascending year = Some t ->
  t = take_rows (nargsort (column j budget_data) ascending)
                (mkDataFrame (df_index budget_data) (Index [year])
                             ((fun row => [item row j]) <$> df_values budget_data)).
Proof.
  intros Hcols Hstr Hrect Hrun Hj Ht.
  pose proof (NoDup_fmap_1 _ _ Hstr) as Hnd.
  destruct (sort_yearly_budgets_entry _ _ _ _ Hrun Ht) as (y & a & Hy & Hkey & Ho).
  apply direction_key_inj in Hkey as [<- Hlab].
  rewrite Hcols in Hy. cbn [years] in Hy.
  assert (y = year) as ->.
  { apply list_elem_of_lookup in Hy as [i Hi].
    assert (i = j) as ->; [|congruence].
    apply (NoDup_lookup (label_str <$> ls) i j (label_str year) Hstr).
    - by rewrite list_lookup_fmap, Hi, Hlab.
    - by rewrite list_lookup_fmap, Hj. }
  apply ordering_of_spec in Ho as (yd & by_ & j' & Hs & Hres & _ & ->).
  unfold year_slice in Hs. rewrite Hcols in Hs. injection Hs as <- <-.
  destruct (index_where_unique_label ls year Hnd Hy) as (i & Hi & Hls).
  assert (i = j) as -> by (by apply (NoDup_lookup ls i j year Hnd)).
  rewrite (flat_resolve_by _ _ _ Hcols) in Hres. unfold occurrences in Hres.
  rewrite Hi in Hres. injection Hres as <-.
  assert (getitem budget_data ls year
          = mkDataFrame (df_index budget_data) (Index [year])
                        ((fun row => [item row j]) <$> df_values budget_data)) as ->.
  { unfold getitem, take_columns. rewrite Hcols, Hi. cbn [omap list_omap].
    rewrite Hj. f_equal. by apply (flat_slice_values _ ls j year). }
  f_equal. f_equal. unfold column. cbn [df_values]. by rewrite <- list_fmap_compose.
Qed.

(** X20: on a flat table the ordering of a year has that year's column only, and
    its rows are the rows of the table rearranged: every row label comes with
    its own amount. *)
Theorem flat_orderings_keep_amounts budget_data ls m j year ascending t :
  df_columns budget_data = Index ls -> NoDup (label_str <$> ls) ->
  rectangular budget_data ->
  sort_yearly_budgets budget_data = Returns m ->
  ls !! j = Some year -> m !! direction_key ascending year = Some t ->
  df_columns t = Index [year] /\
  zip (df_index t) (df_values t)
  ≡ₚ zip (df_index budget_data) ((fun row => [item row j]) <$> df_values budget_data).
Proof.
  intros Hcols Hstr Hrect Hrun Hj Ht.
  rewrite (flat_ordering _ _ _ _ _ _ _ Hcols Hstr Hrect Hrun Hj Ht).
  split; [done|]. apply (take_rows_pairs (mkDataFrame _ _ _)); cbn [df_index df_values].
  - rewrite length_fmap. apply Hrect.
  - rewrite length_fmap, <- (length_column j budget_data). apply nargsort_permutation.
Qed.
End whole_rows.

(** X20 at the descending ordering of 2024 in the specification's scenario. *)
Lemma flat_orderings_keep_amounts_witness :
  df_columns (mkDataFrame [ministry "B"; ministry "A"] (Index [LInt 2024])
                          [[Z2F 200]; [Z2F 100]]) = Index [LInt 2024] /\
  zip (df_index (mkDataFrame [ministry "B"; ministry "A"] (Index [LInt 2024])
                             [[Z2F 200]; [Z2F 100]]))
      (df_values (mkDataFrame [ministry "B"; ministry "A"] (Index [LInt 2024])
                              [[Z2F 200]; [Z2F 100]]))
  ≡ₚ zip (df_index scenario_table)
         ((fun row => [item row 0]) <$> df_values scenario_table).
Proof.
  apply (flat_orderings_keep_amounts (H := stable_sort) scenario_table
           [LInt 2024; LInt 2025]
           (returned ∅ (@sort_yearly_budgets stable_sort scenario_table))
           0%nat (LInt 2024) false).
  - reflexivity.
  - compute_done.
  - split; [reflexivity|]. repeat constructor.
  - vm_compute. reflexivity.
  - reflexivity.
  - vm_compute. reflexivity.
Defined.

Lemma take_rows_all {C} (df : DataFrame C) :
  length (df_values df) = length (df_index df) ->
  take_rows (seq 0 (length (df_values df))) df = df.
Proof.
  intros Hlen. unfold take_rows. rewrite omap_lookup_seq, Hlen, omap_lookup_seq.
  by destruct df.
Qed.

Section undefined_years.
Context `{Quicksort}.

Lemma nargsort_all_nan v ascending :
  Forall (fun x => isnan x = true) v -> nargsort v ascending = seq 0 (length v).
Proof.
  intros Hall. destruct (nargsort_spec v ascending) as (body & -> & Hperm & _).
  rewrite index_where_none in Hperm.
  - apply Permutation_nil_r in Hperm. subst body. by apply index_where_all.
  - eapply Forall_impl; [done|]. cbn. by intros x ->.
Qed.

(** X21: on a flat table, for a year whose cells are all undefined, both
    orderings are the year's column with the rows in the order of the
    table. *)
Theorem undefined_year_keeps_table_order budget_data ls m j year ascending t :
  df_columns budget_data = Index ls -> NoDup (label_str <$> ls) ->
  rectangular budget_data ->
  sort_yearly_budgets budget_data = Returns m ->
  ls !! j = Some year -> m !! direction_key ascending year = Some t ->
  Forall (fun row => isnan (item row j) = true) (df_values budget_data) ->
  t = mkDataFrame (df_index budget_data) (Index [year])
                  ((fun row => [item row j]) <$> df_values budget_data).
Proof.
  intros Hcols Hstr Hrect Hrun Hj Ht Hnan.
  rewrite (flat_ordering _ _ _ _ _ _ _ Hcols Hstr Hrect Hrun Hj Ht).
  rewrite nargsort_all_nan by (by apply Forall_fmap).
  rewrite length_column.
  set (year_data := mkDataFrame _ _ _).
  replace (length (df_values budget_data)) with (length (df_values year_data))
    by apply length_fmap.
  apply take_rows_all. unfold year_data. cbn [df_values df_index].
  rewrite length_fmap. apply Hrect.
Qed.

(** X22: on a flat table the amounts of the ordering of a year are the defined
    amounts of the year in non-decreasing ([_asc]) or non-increasing
    ([_desc]) order, followed by the undefined ones. *)
Theorem flat_orderings_are_sorted budget_data ls m j year ascending t :
  df_columns budget_data = Index ls -> NoDup (label_str <$> ls) ->
  rectangular budget_data ->
  sort_yearly_budgets budget_data = Returns m ->
  ls !! j = Some year -> m !! direction_key ascending year = Some t ->
  exists defined missing,
    column 0 t = defined ++ missing /\
    StronglySorted (direction_le ascending) defined /\
    defined ≡ₚ filter (fun x => isnan x = false) (column j budget_data) /\
    missing = filter (fun x => isnan x = true) (column j budget_data).
Proof.
  intros Hcols Hstr Hrect Hrun Hj Ht.
  rewrite (flat_ordering _ _ _ _ _ _ _ Hcols Hstr Hrect Hrun Hj Ht).
  set (v := column j budget_data).
  assert (forall I, column 0 (take_rows I (mkDataFrame (df_index budget_data) (Index [year])
                      ((fun row => [item row j]) <$> df_values budget_data)))
                    = omap (fun i => v !! i) I) as Hcol.
  { intros I. unfold column, take_rows. cbn [df_values].
    rewrite omap_lookup_fmap, <- list_fmap_compose. unfold v, column.
    by rewrite omap_lookup_fmap. }
  rewrite Hcol.
  destruct (nargsort_spec v ascending) as (body & -> & Hperm & Hsorted).
  assert (Forall (fun i => is_Some (v !! i)) body) as Hin.
  { apply Forall_forall. intros i Hi. rewrite Hperm in Hi.
    apply elem_of_index_where in Hi as (x & Hx & _). by exists x. }
  exists (item v <$> body), (omap (fun i => v !! i) (index_where isnan v)).
  rewrite omap_app, <- (item_fmap_omap v body Hin).
  split; [done|]. split; [done|]. split.
  - rewrite Hperm, non_nans_items. done.
  - by rewrite index_where_lookup.
Qed.
End undefined_years.

(** X21 at a table whose 2024 column is undefined throughout. *)
Lemma undefined_year_keeps_table_order_witness :
  mkDataFrame [ministry "A"; ministry "B"] (Index [LInt 2024]) [[nan]; [nan]]
  = mkDataFrame
      (df_index (mkDataFrame [ministry "A"; ministry "B"] (Index [LInt 2024; LInt 2025])
                             [[nan; Z2F 150]; [nan; Z2F 180]]))
      (Index [LInt 2024])
      ((fun row => [item row 0])
         <$> df_values (mkDataFrame [ministry "A"; ministry "B"]
                                    (Index [LInt 2024; LInt 2025])
                                    [[nan; Z2F 150]; [nan; Z2F 180]])).
Proof.
  apply (undefined_year_keeps_table_order (H := stable_sort)
           (mkDataFrame [ministry "A"; ministry "B"] (Index [LInt 2024; LInt 2025])
                        [[nan; Z2F 150]; [nan; Z2F 180]])
           [LInt 2024; LInt 2025]
           (returned ∅ (@sort_yearly_budgets stable_sort
              (mkDataFrame [ministry "A"; ministry "B"] (Index [LInt 2024; LInt 2025])
                           [[nan; Z2F 150]; [nan; Z2F 180]])))
           0%nat (LInt 2024) false).
  - reflexivity.
  - compute_done.
  - split; [reflexivity|]. repeat constructor.
  - vm_compute. reflexivity.
  - reflexivity.
  - vm_compute. reflexivity.
  - repeat constructor.
Defined.

(** X22 at the descending ordering of a year in which ministry B has no amount. *)
Lemma flat_orderings_are_sorted_witness :
  exists defined missing,
    column 0 (mkDataFrame [ministry "C"; ministry "A"; ministry "B"] (Index [LInt 2024])
                          [[Z2F 2]; [Z2F 1]; [nan]]) = defined ++ missing /\
    StronglySorted (direction_le false) defined /\
    defined ≡ₚ filter (fun x => isnan x = false) (column 0 table_with_gap) /\
    missing = filter (fun x => isnan x = true) (column 0 table_with_gap).
Proof.
  apply (flat_orderings_are_sorted (H := stable_sort) table_with_gap [LInt 2024]
           (returned ∅ (@sort_yearly_budgets stable_sort table_with_gap))
           0%nat (LInt 2024) false).
  - reflexivity.
  - compute_done.
  - split; [reflexivity|]. repeat constructor.
  - vm_compute. reflexivity.
  - reflexivity.
  - vm_compute. reflexivity.
Defined.

(** ** The service *)



Section service.
Context `{Quicksort}.

(** X23: [get_ministry_budget_trends] fails only where [aggregate] or
    [sort_yearly_budgets] fails, and with their exception: computing and
    formatting the changes never raises. *)
Theorem trends_fail_in_aggregate_or_sort d index columns values e :
  get_ministry_budget_trends d index columns values = Raises e <->
  aggregate d index columns values = Raises e \/
  exists t, aggregate d index columns values = Returns t /\
            sort_yearly_budgets t = Raises e.
Proof.
  unfold get_ministry_budget_trends.
  destruct (aggregate d index columns values) as [t|e'|] eqn:Hagg; cbn [mbind outcome_bind].
  - destruct (format_change_table_returns t) as [ch ->]. cbn [mbind outcome_bind].
    destruct (sort_yearly_budgets t) as [m|e'|] eqn:Hsort; cbn [mbind outcome_bind].
    + split; [done|]. intros [?|(t' & [= <-] & ?)]; congruence.
    + split.
      * intros [= ->]. right. by exists t.
      * intros [?|(t' & [= <-] & ?)]; congruence.
    + split; [done|]. intros [?|(t' & [= <-] & ?)]; congruence.
  - split; [intros [= ->]; by left|].
    intros [?|(t' & ? & _)]; congruence.
  - split; [done|]. intros [?|(t' & ? & _)]; congruence.
Qed.


(** X25: on a dataset without records nothing is raised: the table, the table
    of changes and the dictionary of orderings are all empty. *)
Theorem trends_of_empty_dataset d index columns values :
  well_formed d index columns values = true -> records d = [] ->
  values ∈ fields d -> Forall (fun k => k ∈ fields d) (index ++ columns) ->
  index <> [] -> columns <> [] ->
  exists r,
    get_ministry_budget_trends d index columns values = Returns r /\
    df_index (budget_by_ministry r) = [] /\
    column_keys (budget_by_ministry r) = [] /\
    df_values (budget_by_ministry r) = [] /\
    df_index (changes_yoy r) = [] /\ df_values (changes_yoy r) = [] /\
    sorted_budgets r = ∅.
Proof.
  intros Hwf Hrec Hv Hk Hi Hc.
  assert (observations d index columns values = []) as Hobs.
  { unfold observations. by rewrite Hrec. }
  assert (typed_columns d index columns values = true) as Hty.
  { unfold typed_columns, field_values. rewrite Hrec. cbn.
    apply andb_true_iff. split; [|done]. by apply forallb_forall. }
  unfold get_ministry_budget_trends, aggregate.
  rewrite pivot_table_returns by done.
  rewrite Hobs. cbn [mbind outcome_bind].
  destruct index as [|i index]; [done|]. destruct columns as [|c1 [|c2 columns]]; [done| |].
  - eexists. split; [reflexivity|]. done.
  - eexists. split; [reflexivity|]. done.
Qed.
End service.


(** X25 at a dataset with three fields and no record. *)
Lemma trends_of_empty_dataset_witness :
  exists r,
    @get_ministry_budget_trends stable_sort
      (mkDataset ["Ministry"; "Year"; "Amount"] []) ["Ministry"] ["Year"] "Amount"
    = Returns r /\
    df_index (budget_by_ministry r) = [] /\
    column_keys (budget_by_ministry r) = [] /\
    df_values (budget_by_ministry r) = [] /\
    df_index (changes_yoy r) = [] /\ df_values (changes_yoy r) = [] /\
    sorted_budgets r = ∅.
Proof.
  apply (trends_of_empty_dataset (H := stable_sort)).
  - reflexivity.
  - reflexivity.
  - compute_done.
  - repeat constructor; compute_done.
  - done.
  - done.
Defined.

Lemma aggregate_two_level d index c1 c2 values t :
  aggregate d index [c1; c2] values = Returns t -> index <> [] ->
  exists ts, df_columns t = MultiIndex ts /\ NoDup ts /\ Forall two_level_tuple ts.
Proof.
  intros Hagg Hne.
  destruct (aggregate_axes _ _ _ _ _ Hagg Hne) as (_ & Hkeys & _); [done|].
  pose proof (pivot_cols_length d index [c1; c2] values) as Hlen.
  assert (exists ts, df_columns t = MultiIndex ts) as [ts Hcols].
  { unfold aggregate in Hagg.
    destruct (pivot_table_returns_inv _ _ _ _ _ Hagg) as (? & ? & ? & ? & ? & ?).
    rewrite pivot_table_returns in Hagg by done. injection Hagg as <-. by eexists. }
  exists ts. split; [done|].
  unfold column_keys in Hkeys. rewrite Hcols in Hkeys. split.
  - apply (NoDup_fmap_1 (fun t : label * label * list label => t.1.1 :: t.1.2 :: t.2)).
    rewrite Hkeys. apply sorted_keys_NoDup.
  - rewrite <- Hkeys in Hlen. apply Forall_fmap in Hlen.
    eapply Forall_impl; [done|]. cbn. intros [[l0 l1] rest]. cbn.
    unfold two_level_tuple. cbn. by destruct rest.
Qed.

Section two_time_keys.
Context `{Quicksort}.

(** X26: with two time keys the table has two-level columns, and the orderings
    are sorted by the columns of its first outer label: when that label has
    no column for some year, [get_ministry_budget_trends] raises
    [KeyError]. *)
Theorem trends_with_two_time_keys_raise d index c1 c2 values t ts c0 :
  well_formed d index [c1; c2] values = true ->
  aggregate d index [c1; c2] values = Returns t -> index <> [] ->
  df_columns t = MultiIndex ts -> first_outer_label ts = Returns c0 ->
  (exists year, year ∈ level1 ts /\ (c0, year, []) ∉ ts) ->
  exists year,
    get_ministry_budget_trends d index [c1; c2] values = Raises (KeyError [c0; year]) /\
    year ∈ level1 ts /\ (c0, year, []) ∉ ts.
Proof.
  intros _ Hagg Hne Hcols Hfirst (year & Hy & Hmiss).
  destruct (aggregate_two_level _ _ _ _ _ _ Hagg Hne) as (ts' & Hcols' & Hnd & Htwo).
  rewrite Hcols in Hcols'. injection Hcols' as <-.
  destruct (two_level_loop t ts c0 (unique (level1 ts)) ∅ Hcols Hfirst Hnd Htwo)
    as [_ Hraise].
  destruct Hraise as (y & Hrun & Hin & Hout).
  { apply Exists_exists. exists year. split; [by apply elem_of_unique|done]. }
  exists y. split; [|split; [by apply elem_of_unique|done]].
  unfold get_ministry_budget_trends. rewrite Hagg. cbn [mbind outcome_bind].
  destruct (format_change_table_returns t) as [ch ->]. cbn [mbind outcome_bind].
  rewrite sort_yearly_budgets_loop, Hcols. cbn [years]. by rewrite Hrun.
Qed.
End two_time_keys.

(** X26 at the records with two time keys. *)
Lemma trends_with_two_time_keys_raise_witness :
  exists year,
    @get_ministry_budget_trends stable_sort two_key_records
      ["Ministry"] ["Agency"; "Year"] "Amount" = Raises (KeyError [LStr "a"; year]) /\
    year ∈ level1 two_level_columns /\ (LStr "a", year, []) ∉ two_level_columns.
Proof.
  apply (trends_with_two_time_keys_raise (H := stable_sort) two_key_records
           ["Ministry"] "Agency" "Year" "Amount" two_level_table).
  - reflexivity.
  - vm_compute. reflexivity.
  - done.
  - reflexivity.
  - reflexivity.
  - exists (LInt 2025). split; compute_done.
Defined.
